(** * Computer.cpp: the virtual-machine launcher and its two supervised children

    A shallow embedding of [src/Computer.cpp].  The class [ComputerVM] becomes
    a record, its methods become computations in a state monad over the object
    and the operating-system state the program can observe or change (the
    filesystem, the table of live child processes, the installed signal
    handlers); every computation also yields the chronological list of the
    system calls it made and the lines it printed. *)

From stdpp Require Import base strings list gmap.
From Stdlib Require Import Ascii ZArith Lia.

(** ** Strings and paths *)

(** The double-quote character of the shell command lines. *)
Definition dquote : string := String "034"%char EmptyString.

(** The newline that opens the signal handler's message. *)
Definition newline : string := String "010"%char EmptyString.

(** The suffix of [s] that begins at the rightmost occurrence of [c]
    ([std::string::rfind] followed by [substr]). *)
Fixpoint rfind_suffix (c : ascii) (s : string) : option string :=
  match s with
  | EmptyString => None
  | String a rest =>
      match rfind_suffix c rest with
      | Some t => Some t
      | None => if Ascii.eqb a c then Some s else None
      end
  end.

(** [fs::path::filename]: what follows the last directory separator. *)
Definition filename (p : string) : string :=
  match rfind_suffix "/"%char p with
  | Some (String _ t) => t
  | _ => p
  end.

(** [fs::path::extension] of a file name: empty for the special names dot and
    dot-dot, otherwise the suffix from the rightmost period, a period in
    first position not counting. *)
Definition name_extension (name : string) : string :=
  if String.eqb name "." || String.eqb name ".." then EmptyString
  else match name with
       | EmptyString => EmptyString
       | String _ rest =>
           match rfind_suffix "."%char rest with
           | Some t => t
           | None => EmptyString
           end
       end.

Definition extension (p : string) : string := name_extension (filename p).

(** The chain of directories [fs::create_directories] walks for a path: every
    prefix that ends before a separator, then the path itself. *)
Fixpoint dir_chain (acc s : string) : list string :=
  match s with
  | EmptyString => [acc]
  | String c rest =>
      if Ascii.eqb c "/"%char
      then acc :: dir_chain (acc +:+ "/") rest
      else dir_chain (acc +:+ String c EmptyString) rest
  end.

(** ** The operating-system state *)

Inductive node :=
  | File (data : list Byte.byte)
  | Dir.

Inductive signal := SIGINT | SIGTERM | SIGHUP.

(** What a forked child goes on to execute. *)
Inductive image :=
  | Execvp (argv : list string)          (* execvp(args[0], args) *)
  | ShellC (cmd : string).               (* execl("/bin/sh", "sh", "-c", cmd) *)

Inductive event :=
  | Stdout (line : string)
  | Stderr (line : string)
  | System (cmd : string) (status : Z)
  | Fork (child : image) (ret : Z)
  | Kill (pid : Z) (sig : signal)
  | Waitpid (pid : Z)
  | Sleep (secs : Z).

#[global] Instance signal_eq_dec : EqDecision signal.
Proof. solve_decision. Defined.
#[global] Instance image_eq_dec : EqDecision image.
Proof. solve_decision. Defined.
#[global] Instance event_eq_dec : EqDecision event.
Proof. solve_decision. Defined.

(** The mutable part (filesystem, children, handlers, pending fork results)
    and the environment's answers the program only reads: the listing of a
    directory (the entries seen in iteration order, then the [what()] text if
    the iteration threw), what the disk tool does (its exit status, and the
    image file it wrote if any), the exit status of the quiet [which], the
    text of a failed directory creation, and the paths the host refuses
    (no permission, a read-only filesystem): there no entry can be created,
    no directory passed through and no file opened for writing. *)
Record World := mkWorld {
  w_fs : gmap string node;
  w_children : list (Z * image);
  w_handlers : list signal;
  w_forks : list Z;
  w_readdir : string -> list string * option string;
  w_qemu_img : string -> Z * option (list Byte.byte);
  w_which : string -> Z;
  w_what : string -> string;
  w_denied : string -> bool
}.

Definition set_fs (fs : gmap string node) (w : World) : World :=
  mkWorld fs (w_children w) (w_handlers w) (w_forks w)
          (w_readdir w) (w_qemu_img w) (w_which w) (w_what w) (w_denied w).
Definition set_children (cs : list (Z * image)) (w : World) : World :=
  mkWorld (w_fs w) cs (w_handlers w) (w_forks w)
          (w_readdir w) (w_qemu_img w) (w_which w) (w_what w) (w_denied w).
Definition set_handlers (hs : list signal) (w : World) : World :=
  mkWorld (w_fs w) (w_children w) hs (w_forks w)
          (w_readdir w) (w_qemu_img w) (w_which w) (w_what w) (w_denied w).
Definition set_forks (fk : list Z) (w : World) : World :=
  mkWorld (w_fs w) (w_children w) (w_handlers w) fk
          (w_readdir w) (w_qemu_img w) (w_which w) (w_what w) (w_denied w).

(** ** The object *)

Record ComputerVM := mkVM {
  diskPath : string;
  romPath : string;
  firmwarePath : string;
  noVNCPath : string;
  useVNC : bool;
  qemuPid : Z;
  websockifyPid : Z
}.

(** The constructor [ComputerVM()]. *)
Definition ComputerVM_new : ComputerVM :=
  mkVM "./devices/disk/disk.qcow2" "./devices/rom"
       "./boot/firmware/OVMF_CODE.fd" "./libraries/noVNC"
       true (-1) (-1).

Definition set_useVNC (b : bool) (vm : ComputerVM) : ComputerVM :=
  mkVM (diskPath vm) (romPath vm) (firmwarePath vm) (noVNCPath vm)
       b (qemuPid vm) (websockifyPid vm).
Definition set_qemuPid (p : Z) (vm : ComputerVM) : ComputerVM :=
  mkVM (diskPath vm) (romPath vm) (firmwarePath vm) (noVNCPath vm)
       (useVNC vm) p (websockifyPid vm).
Definition set_websockifyPid (p : Z) (vm : ComputerVM) : ComputerVM :=
  mkVM (diskPath vm) (romPath vm) (firmwarePath vm) (noVNCPath vm)
       (useVNC vm) (qemuPid vm) p.

(** ** The monad of methods *)

Record Machine := mkMachine { this : ComputerVM; world : World }.

(** What a computation yields: its value, the machine it leaves, and the
    events it produced, oldest first. *)
Record Result (A : Type) := Res { value : A; state : Machine; events : list event }.
Arguments Res {A} _ _ _.
Arguments value {A} _.
Arguments state {A} _.
Arguments events {A} _.

Definition M (A : Type) : Type := Machine -> Result A.

Definition ret {A} (a : A) : M A := fun m => Res a m [].
Definition bind {A B} (c : M A) (f : A -> M B) : M B := fun m =>
  match c m with
  | Res a m1 e1 =>
      match f a m1 with
      | Res b m2 e2 => Res b m2 (e1 ++ e2)
      end
  end.

Declare Scope M_scope.
Delimit Scope M_scope with M.
Bind Scope M_scope with M.
Notation "x ← y ; z" := (bind y (fun x => z))
  (at level 20, y at level 100, z at level 200, only parsing) : M_scope.
Notation "' x ← y ; z" := (bind y (fun x => z))
  (at level 20, x pattern, y at level 100, z at level 200, only parsing) : M_scope.
Notation "x ;; z" := (bind x (fun _ => z))
  (at level 100, z at level 200, only parsing, right associativity) : M_scope.
Local Open Scope M_scope.

Definition field {A} (f : ComputerVM -> A) : M A := fun m => Res (f (this m)) m [].
Definition assign (f : ComputerVM -> ComputerVM) : M unit :=
  fun m => Res tt (mkMachine (f (this m)) (world m)) [].
Definition observe {A} (f : World -> A) : M A := fun m => Res (f (world m)) m [].
Definition change (f : World -> World) : M unit :=
  fun m => Res tt (mkMachine (this m) (f (world m))) [].

Definition emit (e : event) : M unit := fun m => Res tt m [e].

(** ** System calls and library calls, as the parent process sees them *)

(** [fs::exists], on a filesystem whose status queries do not fail. *)
Definition fs_exists (p : string) : M bool :=
  observe (fun w => bool_decide (is_Some (w_fs w !! p))).

(** One step of [fs::create_directories]: where the host lets it, a missing
    component is created and a directory is passed through; anything else
    makes the call throw. *)
Definition mkdir_step (denied : string -> bool) (acc : gmap string node * bool)
    (p : string) : gmap string node * bool :=
  let (fs, ok) := acc in
  if ok then
    if denied p then (fs, false)
    else match fs !! p with
         | None => (<[p := Dir]> fs, true)
         | Some Dir => (fs, true)
         | Some (File _) => (fs, false)
         end
  else acc.

(** [fs::create_directories p]: [None] on return, the [what()] text when it
    throws [filesystem_error]; components made before the throw remain. *)
Definition fs_create_directories (p : string) : M (option string) := fun m =>
  let w := world m in
  let (fs, ok) :=
    foldl (mkdir_step (w_denied w)) (w_fs w, true) (dir_chain EmptyString p) in
  Res (if ok then None else Some (w_what w p)) (mkMachine (this m) (set_fs fs w)) [].

(** A [try] block of calls that may throw: the first throw skips the rest. *)
Fixpoint try_block (calls : list (M (option string))) : M (option string) :=
  match calls with
  | [] => ret None
  | c :: rest => r ← c; match r with
                        | None => try_block rest
                        | Some what => ret (Some what)
                        end
  end.

(** [fs::directory_iterator]: the paths seen in iteration order, and the
    [what()] text if the iteration threw after them. *)
Definition directory_iterator (dir : string) : M (list string * option string) :=
  observe (fun w => let (names, err) := w_readdir w dir in
                    (map (fun n => dir +:+ "/" +:+ n) names, err)).

(** [std::ofstream f(p, std::ios::binary); f.write(data); f.close()]: the
    file is created or truncated and receives [data]; when the open fails (the
    path is a directory, or the host refuses) the stream drops the write, and
    the caller, which never tests the stream, goes on. *)
Definition ofstream_write (p : string) (data : list Byte.byte) : M unit :=
  change (fun w => match w_fs w !! p with
                   | Some Dir => w
                   | _ => if w_denied w p then w
                          else set_fs (<[p := File data]> (w_fs w)) w
                   end).

(** The two shell commands handed to [system]. *)
Inductive command :=
  | QemuImgCreate (path : string)
  | WhichQuiet (prog : string).

Definition command_line (c : command) : string :=
  match c with
  | QemuImgCreate path =>
      "qemu-img create -f qcow2 " +:+ dquote +:+ path +:+ dquote +:+ " 20G"
  | WhichQuiet prog => "which " +:+ prog +:+ " > /dev/null 2>&1"
  end.

(** [system(cmd)]: runs the command to its end and yields its exit status.
    The disk tool may leave an image file at its target path; the quiet
    [which] changes nothing. *)
Definition system (c : command) : M Z := fun m =>
  let w := world m in
  match c with
  | QemuImgCreate path =>
      let (status, written) := w_qemu_img w path in
      let fs := match written with
                | Some data => <[path := File data]> (w_fs w)
                | None => w_fs w
                end in
      Res status (mkMachine (this m) (set_fs fs w))
          [System (command_line c) status]
  | WhichQuiet prog =>
      let status := w_which w prog in
      Res status m [System (command_line c) status]
  end.

(** [fork()], in the parent: the next pending result is consumed; a positive
    one is the pid of a new child that runs [child] (the code of the
    [pid == 0] branch, which the parent never takes), anything else is the
    failure value -1. *)
Definition fork (child : image) : M Z := fun m =>
  let w := world m in
  let r := match w_forks w with
           | r :: _ => if (0 <? r)%Z then r else (-1)%Z
           | [] => (-1)%Z
           end in
  let cs := if (0 <? r)%Z then w_children w ++ [(r, child)] else w_children w in
  Res r (mkMachine (this m) (set_forks (tail (w_forks w)) (set_children cs w)))
      [Fork child r].

Definition sleep (secs : Z) : M unit := emit (Sleep secs).

Definition kill (pid : Z) (sig : signal) : M unit := emit (Kill pid sig).

(** [waitpid(pid, nullptr, 0)]: blocks until the child has ended, then reaps
    it; the children of this program end on the termination signal. *)
Definition waitpid (pid : Z) : M unit :=
  emit (Waitpid pid);;
  change (fun w => set_children (filter (fun c => c.1 ≠ pid) (w_children w)) w).

(** [cmd.push_back(token)]. *)
Definition push_back (cmd : list string) (token : string) : list string :=
  cmd ++ [token].

(** ** The methods of [ComputerVM] *)

Definition printLog (level message : string) : M unit :=
  emit (Stdout ("[" +:+ level +:+ "] " +:+ message)).

Definition printDebug (message : string) : M unit :=
  emit (Stdout ("[DEBUG] " +:+ message)).

Definition checkFile (path name : string) : M bool :=
  e ← fs_exists path;
  if e then printDebug (name +:+ " available.. Yes!");; ret true
  else printDebug (name +:+ " available.. No");; ret false.

Definition findISO : M string :=
  printDebug "Checking for ISO files...";;
  rom ← field romPath;
  '(entries, err) ← directory_iterator rom;
  match find (fun p => String.eqb (extension p) ".iso") entries with
  | Some p => ret p
  | None =>
      match err with
      | Some what =>
          printDebug ("Error checking ROM directory: " +:+ what);;
          ret EmptyString
      | None => ret EmptyString
      end
  end.

Definition createDirectories : M unit :=
  r ← try_block [ fs_create_directories "./devices/disk";
                  fs_create_directories "./devices/rom";
                  fs_create_directories "./boot/firmware";
                  fs_create_directories "./libraries" ];
  match r with
  | None => ret tt
  | Some what => printLog "ERROR" ("Failed to create directories: " +:+ what)
  end.

Definition createDefaultDisk : M bool :=
  disk ← field diskPath;
  e ← fs_exists disk;
  if negb e then
    printLog "INFO" "Creating default 20GB disk...";;
    result ← system (QemuImgCreate disk);
    if (result =? 0)%Z then
      printLog "INFO" "Default disk created successfully!";; ret true
    else
      printLog "ERROR" "Failed to create default disk!";; ret false
  else ret true.

(** The path of the firmware variable store, a local of the builder. *)
Definition varsPath : string := "./boot/firmware/OVMF_VARS.fd".

(** [std::vector<char> emptyVars(64 * 1024, 0)]. *)
Definition emptyVars : list Byte.byte := replicate (Z.to_nat (64 * 1024)) Byte.x00.

Definition buildQEMUCommand : M (list string) :=
  let cmd := [] in
  let cmd := push_back cmd "qemu-system-x86_64" in
  let cmd := push_back cmd "-enable-kvm" in
  let cmd := push_back cmd "-cpu" in
  let cmd := push_back cmd "host" in
  let cmd := push_back cmd "-smp" in
  let cmd := push_back cmd "4" in
  let cmd := push_back cmd "-m" in
  let cmd := push_back cmd "4G" in
  let cmd := push_back cmd "-vga" in
  let cmd := push_back cmd "virtio" in
  vnc ← field useVNC;
  let cmd :=
    if vnc then
      let cmd := push_back cmd "-display" in
      let cmd := push_back cmd "none" in
      let cmd := push_back cmd "-vnc" in
      push_back cmd ":1"
    else
      let cmd := push_back cmd "-display" in
      push_back cmd "gtk,full-screen=on" in
  firmware ← field firmwarePath;
  fw ← fs_exists firmware;
  cmd ← (if fw then
           let cmd := push_back cmd "-drive" in
           let cmd := push_back cmd
                        ("if=pflash,format=raw,readonly=on,file=" +:+ firmware) in
           vars ← fs_exists varsPath;
           (if negb vars then
              printLog "INFO" "Creating OVMF VARS file...";;
              ofstream_write varsPath emptyVars
            else ret tt);;
           let cmd := push_back cmd "-drive" in
           ret (push_back cmd ("if=pflash,format=raw,file=" +:+ varsPath))
         else ret cmd);
  disk ← field diskPath;
  dk ← fs_exists disk;
  let cmd :=
    if dk then
      let cmd := push_back cmd "-drive" in
      push_back cmd ("file=" +:+ disk +:+ ",format=qcow2,if=virtio")
    else cmd in
  isoFile ← findISO;
  cmd ← (if negb (String.eqb isoFile EmptyString) then
           let cmd := push_back cmd "-cdrom" in
           let cmd := push_back cmd isoFile in
           printLog "INFO" ("ISO found: " +:+ filename isoFile);;
           ret cmd
         else ret cmd);
  let cmd := push_back cmd "-audiodev" in
  let cmd := push_back cmd "alsa,id=audio0" in
  let cmd := push_back cmd "-device" in
  let cmd := push_back cmd "intel-hda" in
  let cmd := push_back cmd "-device" in
  let cmd := push_back cmd "hda-duplex,audiodev=audio0" in
  let cmd := push_back cmd "-netdev" in
  let cmd := push_back cmd "user,id=net0" in
  let cmd := push_back cmd "-device" in
  let cmd := push_back cmd "virtio-net-pci,netdev=net0" in
  let cmd := push_back cmd "-device" in
  let cmd := push_back cmd "usb-ehci" in
  let cmd := push_back cmd "-device" in
  let cmd := push_back cmd "usb-tablet" in
  let cmd := push_back cmd "-rtc" in
  let cmd := push_back cmd "base=localtime,clock=host" in
  ret cmd.

Definition startWebsockify : M bool :=
  vnc ← field useVNC;
  if negb vnc then ret true
  else
    printLog "INFO" "Starting websockify for noVNC...";;
    novnc ← field noVNCPath;
    e ← fs_exists novnc;
    if negb e then
      printLog "ERROR" "noVNC directory not found!";; ret false
    else
      pid ← fork (ShellC ("websockify --web=" +:+ novnc +:+ " 8080 localhost:5901"));
      if (0 <? pid)%Z then
        assign (set_websockifyPid pid);;
        sleep 2;;
        ret true
      else
        printLog "ERROR" "Failed to fork websockify process!";; ret false.

Definition startQEMU : M bool :=
  printLog "INFO" "Starting QEMU virtual machine...";;
  cmd ← buildQEMUCommand;
  printDebug "QEMU command:";;
  let fullCmd := foldl (fun acc arg => acc +:+ (arg +:+ " ")) EmptyString cmd in
  printDebug fullCmd;;
  pid ← fork (Execvp cmd);
  if (0 <? pid)%Z then
    assign (set_qemuPid pid);;
    sleep 3;;
    ret true
  else
    printLog "ERROR" "Failed to fork QEMU process!";; ret false.

Definition cleanup : M unit :=
  q ← field qemuPid;
  (if negb (q =? -1)%Z then kill q SIGTERM;; waitpid q else ret tt);;
  b ← field websockifyPid;
  (if negb (b =? -1)%Z then kill b SIGTERM;; waitpid b else ret tt).

Definition boot : M bool :=
  printLog "LOG" "Booting Computer..";;
  printDebug "Checking components..";;
  createDirectories;;
  firmware ← field firmwarePath;
  checkFile firmware "Firmware";;
  disk ← field diskPath;
  diskPresent ← checkFile disk "Disk";
  diskOk ← (if diskPresent then ret true else createDefaultDisk);
  isoFile ← findISO;
  let isoOk := negb (String.eqb isoFile EmptyString) in
  (if negb isoOk then printDebug "ISO available.. No"
   else printDebug "ISO available.. Yes");;
  if negb diskOk && negb isoOk then
    printLog "ERROR" "No disk or ISO available!";; ret false
  else
    printDebug "Checking Libraries..";;
    novnc ← field noVNCPath;
    noVNCOk ← checkFile novnc "noVNC";
    status ← system (WhichQuiet "websockify");
    let websockifyOk := (status =? 0)%Z in
    printDebug ("Websockify.. " +:+ (if websockifyOk then "Yes!" else "No"));;
    vnc ← field useVNC;
    if vnc && (negb noVNCOk || negb websockifyOk) then
      printLog "ERROR" "Required libraries not found for VNC mode!";; ret false
    else
      printDebug "Starting Machine..";;
      withDisk ← (if isoOk then fs_exists disk else ret false);
      (if withDisk then printLog "INFO" "Booting from ISO with disk available!"
       else if isoOk then printLog "INFO" "Booting from ISO only!"
       else printLog "INFO" "There's no ISO on rom/, Booting from disk!");;
      started ← startQEMU;
      if negb started then ret false
      else
        if vnc then
          bridged ← startWebsockify;
          if negb bridged then cleanup;; ret false
          else
            printLog "INFO" "Port 8080 For Machine Opened! Go to http://localhost:8080/vnc.html?resize=remote&autoconnect=true";;
            ret true
        else
          printLog "INFO" "Machine started in full-screen mode!";; ret true.

Definition setVNCMode (enabled : bool) : M unit := assign (set_useVNC enabled).

(** ** The program: [main], its idle loop and the signal handler *)

(** How control stands: the process has ended with an exit status, was ended
    by a signal left at its default action, or sits in the loop
    [while (true) sleep(1)]. *)
Inductive outcome :=
  | Exited (status : Z)
  | Killed (sig : signal)
  | Running.

(** The scan of [argv[1..argc-1]] with its [break]. *)
Fixpoint scan_args (args : list string) (noVNC : bool) : bool :=
  match args with
  | [] => noVNC
  | a :: rest => if String.eqb a "--no-vnc" then true else scan_args rest noVNC
  end.

(** [signal(sig, signalHandler)]. *)
Definition install_handler (sig : signal) (w : World) : World :=
  set_handlers (sig :: w_handlers w) w.

(** [main], up to the point where it returns or enters its loop, when no
    signal arrives before that point ([main_at] below takes it call by call,
    the two [signal] calls included). *)
Definition main (argv : list string) (w : World) : Result outcome :=
  let w := install_handler SIGINT w in
  let w := install_handler SIGTERM w in
  let vm := mkMachine ComputerVM_new w in
  let noVNC := scan_args (drop 1 argv) false in
  (setVNCMode (negb noVNC);;
   ok ← boot;
   if ok then ret Running
   else emit (Stderr "[ERROR] Failed to boot virtual machine!");;
        ret (Exited 1)) vm.

(** [n] turns of the loop [while (true) sleep(1)]. *)
Fixpoint idle (n : nat) : M unit :=
  match n with
  | O => ret tt
  | S k => sleep 1;; idle k
  end.

(** [signalHandler]: one line on the standard output, then [exit(0)].  No
    exit handler is registered and the object lives in the frame of [main],
    so [exit] runs nothing that belongs to the program. *)
Definition signalHandler (sig : signal) : M outcome :=
  emit (Stdout (newline +:+ "[INFO] Shutting down gracefully..."));;
  ret (Exited 0).

(** Delivery of a signal to the process. *)
Definition deliver (sig : signal) : M outcome := fun m =>
  if bool_decide (sig ∈ w_handlers (world m)) then signalHandler sig m
  else Res (Killed sig) m [].

(** A whole run in which the signal arrives in the loop: [main], and if it
    reaches its loop, [n] turns of the loop and then the signal [sig].  A
    signal that arrives earlier, while [main] is still at work, is in [run_at]
    below. *)
Definition run (argv : list string) (n : nat) (sig : signal) (w : World)
  : Result outcome :=
  match main argv w with
  | Res Running m e =>
      match (idle n;; deliver sig) m with
      | Res o m' e' => Res o m' (e ++ e')
      end
  | r => r
  end.

(** ** Sample environments *)

Definition no_listing (dir : string) : list string * option string := ([], None).

(** A host with firmware and its variable store, a disk image, one
    installation image, the web assets and the bridge executable; forks
    succeed with pids 100 and 101. *)
Definition full_host : World :=
  mkWorld
    (list_to_map [ ("./boot/firmware/OVMF_CODE.fd", File []);
                   ("./boot/firmware/OVMF_VARS.fd", File [Byte.x00]);
                   ("./devices/disk/disk.qcow2", File []);
                   ("./libraries/noVNC", Dir) ])
    [] [] [100%Z; 101%Z]
    (fun dir => if String.eqb dir "./devices/rom"
                then (["notes.txt"; "install.iso"], None) else ([], None))
    (fun _ => (1%Z, None))
    (fun _ => 0%Z)
    (fun p => "cannot create directories: " +:+ p)
    (fun _ => false).

(** An empty working directory on a host where the disk tool fails and the
    bridge executable is not installed. *)
Definition bare_host : World :=
  mkWorld ∅ [] [] [100%Z; 101%Z] no_listing
    (fun _ => (1%Z, None)) (fun _ => 1%Z)
    (fun p => "cannot create directories: " +:+ p)
    (fun _ => false).

(** An empty working directory on a host where the disk tool works but the
    bridge executable is not installed. *)
Definition diskless_host : World :=
  mkWorld ∅ [] [] [100%Z; 101%Z] no_listing
    (fun _ => (0%Z, Some [Byte.x51; Byte.x46; Byte.x49])) (fun _ => 1%Z)
    (fun p => "cannot create directories: " +:+ p)
    (fun _ => false).

(** The full host when the second fork, the bridge's, fails. *)
Definition one_fork_host : World := set_forks [100%Z] full_host.

(** ** Vocabulary of the statements *)

(** The object [main] hands to [boot]: the constructor's, with the display
    mode set from the command line. *)
Definition session (bridged : bool) (w : World) : Machine :=
  mkMachine (set_useVNC bridged ComputerVM_new) w.

(** An event that only prints. *)
Definition is_output (e : event) : Prop :=
  match e with
  | Stdout _ | Stderr _ => True
  | _ => False
  end.

(** [e1] occurs in [l], and [e2] occurs later. *)
Definition occurs_before (e1 e2 : event) (l : list event) : Prop :=
  ∃ l1 l2 l3, l = l1 ++ e1 :: l2 ++ e2 :: l3.

(** There is a file or directory at [p]. *)
Definition present (w : World) (p : string) : Prop := is_Some (w_fs w !! p).

(** A token that names an option of the emulator. *)
Definition is_flag (t : string) : bool := String.prefix "-" t.

(** A token sequence made of option-name, option-value pairs. *)
Fixpoint paired (tokens : list string) : bool :=
  match tokens with
  | [] => true
  | f :: v :: rest => is_flag f && negb (is_flag v) && paired rest
  | [_] => false
  end.

(** What the scan of the media directory yields for a listing: the first
    path with the image extension, or the empty string. *)
Definition scan_result (rom : string) (listing : list string * option string)
  : string :=
  match find (fun p => String.eqb (extension p) ".iso")
             (map (fun n => rom +:+ "/" +:+ n) listing.1) with
  | Some p => p
  | None => EmptyString
  end.

(** The session [main] leaves on the full host, both children live. *)
Definition full_session : Machine := state (main ["computer"] full_host).

(** The events of the media scan, for a listing. *)
Definition scan_events (rom : string) (listing : list string * option string)
  : list event :=
  Stdout "[DEBUG] Checking for ISO files..." ::
  match find (fun p => String.eqb (extension p) ".iso")
             (map (fun n => rom +:+ "/" +:+ n) listing.1), listing.2 with
  | None, Some what => [Stdout ("[DEBUG] Error checking ROM directory: " +:+ what)]
  | _, _ => []
  end.

(** The directories [createDirectories] may create. *)
Definition made_dirs : list string :=
  ["."; "./devices"; "./devices/disk"; "./devices/rom";
   "./boot"; "./boot/firmware"; "./libraries"].

(** The constructor's object with a display mode and the two pid fields. *)
Definition std_vm (bridged : bool) (q b : Z) : ComputerVM :=
  mkVM "./devices/disk/disk.qcow2" "./devices/rom"
       "./boot/firmware/OVMF_CODE.fd" "./libraries/noVNC" bridged q b.

(** The segments of the emulator command, in assembly order. *)
Definition layout (bridged fw dk : bool) (iso : string) : list string :=
  ["qemu-system-x86_64"; "-enable-kvm"; "-cpu"; "host"; "-smp"; "4"; "-m"; "4G";
   "-vga"; "virtio"]
  ++ (if bridged then ["-display"; "none"; "-vnc"; ":1"]
      else ["-display"; "gtk,full-screen=on"])
  ++ (if fw
      then ["-drive";
            "if=pflash,format=raw,readonly=on,file=./boot/firmware/OVMF_CODE.fd";
            "-drive"; "if=pflash,format=raw,file=./boot/firmware/OVMF_VARS.fd"]
      else [])
  ++ (if dk
      then ["-drive"; "file=./devices/disk/disk.qcow2,format=qcow2,if=virtio"]
      else [])
  ++ (if String.eqb iso EmptyString then [] else ["-cdrom"; iso])
  ++ ["-audiodev"; "alsa,id=audio0"; "-device"; "intel-hda";
      "-device"; "hda-duplex,audiodev=audio0";
      "-netdev"; "user,id=net0"; "-device"; "virtio-net-pci,netdev=net0";
      "-device"; "usb-ehci"; "-device"; "usb-tablet";
      "-rtc"; "base=localtime,clock=host"].

(** The builder tries to write the variable store exactly when the firmware
    is there and the store is not. *)
Definition tries_vars (w : World) : bool :=
  bool_decide (present w "./boot/firmware/OVMF_CODE.fd")
  && negb (bool_decide (present w varsPath)).

(** The write goes through unless the host refuses it. *)
Definition writes_vars (w : World) : bool :=
  tries_vars w && negb (w_denied w varsPath).

Definition build_world (w : World) : World :=
  if writes_vars w then set_fs (<[varsPath := File emptyVars]> (w_fs w)) w else w.

Definition build_events (w : World) : list event :=
  (if tries_vars w then [Stdout "[INFO] Creating OVMF VARS file..."] else [])
  ++ scan_events "./devices/rom" (w_readdir w "./devices/rom")
  ++ (let iso := scan_result "./devices/rom" (w_readdir w "./devices/rom") in
      if String.eqb iso EmptyString then []
      else [Stdout ("[INFO] ISO found: " +:+ filename iso)]).

(** The part of [boot] after its checks: the two launches. *)
Definition launch (isoOk : bool) (disk : string) (vnc : bool) : M bool :=
  printDebug "Starting Machine..";;
  withDisk ← (if isoOk then fs_exists disk else ret false);
  (if withDisk then printLog "INFO" "Booting from ISO with disk available!"
   else if isoOk then printLog "INFO" "Booting from ISO only!"
   else printLog "INFO" "There's no ISO on rom/, Booting from disk!");;
  started ← startQEMU;
  if negb started then ret false
  else
    if vnc then
      bridged ← startWebsockify;
      if negb bridged then cleanup;; ret false
      else
        printLog "INFO" "Port 8080 For Machine Opened! Go to http://localhost:8080/vnc.html?resize=remote&autoconnect=true";;
        ret true
    else
      printLog "INFO" "Machine started in full-screen mode!";; ret true.

(** The postcondition of a computation at a machine. *)
Definition wp {A} (c : M A) (m : Machine)
  (Q : A -> Machine -> list event -> Prop) : Prop :=
  match c m with
  | Res a m' e => Q a m' e
  end.

(** What no method of [boot] changes: the paths, the display mode and the
    installed handlers. *)
Definition config (m : Machine) :=
  (diskPath (this m), romPath (this m), firmwarePath (this m),
   noVNCPath (this m), useVNC (this m), w_handlers (world m)).

Definition keeps {A} (c : M A) : Prop := ∀ m, config (state (c m)) = config m.

(** The body of [main] after the handlers are installed and the object is
    constructed. *)
Definition main_body (argv : list string) : M outcome :=
  setVNCMode (negb (scan_args (drop 1 argv) false));;
  ok ← boot;
  if ok then ret Running
  else emit (Stderr "[ERROR] Failed to boot virtual machine!");;
       ret (Exited 1).

(** The machine [main] starts its body on. *)
Definition main_start (w : World) : Machine :=
  mkMachine ComputerVM_new (install_handler SIGTERM (install_handler SIGINT w)).

(** The forks among some events: what was to run, and what [fork] returned. *)
Definition forks_of (l : list event) : list (image * Z) :=
  flat_map (fun e => match e with
                     | Fork child r => [(child, r)]
                     | _ => []
                     end) l.

(** An event of the teardown: a signal sent to a child, or a child reaped. *)
Definition is_teardown (e : event) : bool :=
  match e with
  | Kill _ _ | Waitpid _ => true
  | _ => false
  end.


(** The full host without the web assets: firmware, disk image and an
    installation image are there and the bridge executable is installed. *)
Definition no_assets_host : World :=
  mkWorld
    (list_to_map [ ("./boot/firmware/OVMF_CODE.fd", File []);
                   ("./boot/firmware/OVMF_VARS.fd", File [Byte.x00]);
                   ("./devices/disk/disk.qcow2", File []) ])
    [] [] [100%Z; 101%Z]
    (fun dir => if String.eqb dir "./devices/rom"
                then (["notes.txt"; "install.iso"], None) else ([], None))
    (fun _ => (1%Z, None))
    (fun _ => 0%Z)
    (fun p => "cannot create directories: " +:+ p)
    (fun _ => false).

(** The same host when the firmware directory cannot be written (the
    firmware was installed read-only): no file can be made in it. *)
Definition locked_firmware_host : World :=
  mkWorld
    (list_to_map [ ("./boot/firmware/OVMF_CODE.fd", File []);
                   ("./devices/disk/disk.qcow2", File []);
                   ("./libraries/noVNC", Dir) ])
    [] [] [100%Z; 101%Z]
    (fun dir => if String.eqb dir "./devices/rom"
                then (["notes.txt"; "install.iso"], None) else ([], None))
    (fun _ => (1%Z, None))
    (fun _ => 0%Z)
    (fun p => "cannot create directories: " +:+ p)
    (String.prefix "./boot/firmware/").

(** The emulator command on the full host, bridged. *)
Definition full_command : list string :=
  layout true true true "./devices/rom/install.iso".

(** ** Vocabulary of the further statements *)

(** The characters of a string. *)
Definition chars (s : string) : list ascii := String.list_ascii_of_string s.

(** An event of the supervision of the children: a fork, a signal, a reaping
    or a grace delay. *)
Definition is_supervision (e : event) : bool :=
  match e with
  | Fork _ _ | Kill _ _ | Waitpid _ | Sleep _ => true
  | _ => false
  end.

(** The supervision events among some events, in order. *)
Definition supervision (l : list event) : list event := List.filter is_supervision l.

(** The shell commands among some events, with their exit statuses, in
    order. *)
Definition is_command (e : event) : bool :=
  match e with
  | System _ _ => true
  | _ => false
  end.

Definition commands (l : list event) : list event := List.filter is_command l.

(** The command line the bridge's child hands to the shell. *)
Definition bridge_command : string :=
  "websockify --web=./libraries/noVNC 8080 localhost:5901".

(** The next [fork] fails: no pending result, or one that is not a pid. *)
Definition fork_fails (pending : list Z) : Prop :=
  match pending with
  | [] => True
  | r :: _ => (r <= 0)%Z
  end.

(** The emulator command [startQEMU] builds in a world. *)
Definition emulator_command (bridged : bool) (w : World) : list string :=
  value (buildQEMUCommand (session bridged w)).

(** Events that print or supervise: no command is run. *)
Definition quiet (e : event) : Prop := is_output e ∨ is_supervision e = true.

(** What a launch leaves behind: the four ways it can go. *)
Definition launch_post (b : bool) (w : World)
    (v : bool) (m' : Machine) (e : list event) : Prop :=
  let c := emulator_command b w in
  (∀ p, p ≠ varsPath → w_fs (world m') !! p = w_fs w !! p)
  ∧ Forall quiet e
  ∧ ((v = false ∧ fork_fails (w_forks w)
      ∧ supervision e = [Fork (Execvp c) (-1)]
      ∧ this m' = std_vm b (-1) (-1)
      ∧ w_children (world m') = w_children w)
     ∨ ∃ q rest, w_forks w = q :: rest ∧ (0 < q)%Z ∧
         ((b = false ∧ v = true
           ∧ supervision e = [Fork (Execvp c) q; Sleep 3]
           ∧ this m' = std_vm false q (-1)
           ∧ w_children (world m') = w_children w ++ [(q, Execvp c)])
          ∨ (b = true ∧ v = false ∧ fork_fails rest
             ∧ supervision e
               = [Fork (Execvp c) q; Sleep 3; Fork (ShellC bridge_command) (-1);
                  Kill q SIGTERM; Waitpid q]
             ∧ this m' = std_vm true q (-1)
             ∧ w_children (world m')
               = filter (fun ch => ch.1 ≠ q) (w_children w ++ [(q, Execvp c)]))
          ∨ (b = true ∧ v = true ∧ ∃ p rest', rest = p :: rest' ∧ (0 < p)%Z
             ∧ supervision e
               = [Fork (Execvp c) q; Sleep 3; Fork (ShellC bridge_command) p; Sleep 2]
             ∧ this m' = std_vm true q p
             ∧ w_children (world m')
               = w_children w ++ [(q, Execvp c); (p, ShellC bridge_command)]))).


(** The checks of [boot] stop the boot before any launch: nothing to boot
    from, or bridged mode without its delivery chain. *)
Definition refused (bridged : bool) (w : World) : Prop :=
  (¬ present w "./devices/disk/disk.qcow2"
   ∧ (w_qemu_img w "./devices/disk/disk.qcow2").1 ≠ 0%Z
   ∧ scan_result "./devices/rom" (w_readdir w "./devices/rom") = EmptyString)
  ∨ (bridged = true
     ∧ (¬ present w "./libraries/noVNC" ∨ w_which w "websockify" ≠ 0%Z)).

(** There is something to boot from: a disk image, a disk tool that reports
    success, or an installation image. *)
Definition sources (w : World) : Prop :=
  present w "./devices/disk/disk.qcow2"
  ∨ (w_qemu_img w "./devices/disk/disk.qcow2").1 = 0%Z
  ∨ scan_result "./devices/rom" (w_readdir w "./devices/rom") ≠ EmptyString.

(** The checks of [boot] let the launches begin. *)
Definition cleared (bridged : bool) (w : World) : Prop :=
  sources w
  ∧ (bridged = true ->
     present w "./libraries/noVNC" ∧ w_which w "websockify" = 0%Z).

(** The world [w1] the launches start in, for a program started in [w]:
    directory creation may have added standard directories, the disk tool
    may have written the disk image, nothing else differs. *)
Definition launch_world (w w1 : World) : Prop :=
  w_readdir w1 = w_readdir w
  ∧ w_forks w1 = w_forks w
  ∧ w_children w1 = w_children w
  ∧ (∀ k, k ∉ made_dirs → k ≠ "./devices/disk/disk.qcow2" →
          w_fs w1 !! k = w_fs w !! k)
  ∧ w_fs w1 !! "./devices/disk/disk.qcow2"
    = if bool_decide (present w "./devices/disk/disk.qcow2")
      then w_fs w !! "./devices/disk/disk.qcow2"
      else File <$> (w_qemu_img w "./devices/disk/disk.qcow2").2.

(** The shell commands of a run: the disk tool when there is no disk image,
    the search for the bridge executable when there is something to boot
    from. *)
Definition run_commands (w : World) : list event :=
  (if bool_decide (present w "./devices/disk/disk.qcow2") then []
   else [System (command_line (QemuImgCreate "./devices/disk/disk.qcow2"))
           (w_qemu_img w "./devices/disk/disk.qcow2").1])
  ++ (if bool_decide (sources w)
      then [System (command_line (WhichQuiet "websockify")) (w_which w "websockify")]
      else []).

(** What a run of [main] amounts to. *)
Definition main_spec (argv : list string) (w : World)
    (v : outcome) (m : Machine) (e : list event) : Prop :=
  let b := negb (scan_args (drop 1 argv) false) in
  (∀ k, k ∉ made_dirs → k ≠ "./devices/disk/disk.qcow2" → k ≠ varsPath →
        w_fs (world m) !! k = w_fs w !! k)
  ∧ (present w "./devices/disk/disk.qcow2" ->
     w_fs (world m) !! "./devices/disk/disk.qcow2"
     = w_fs w !! "./devices/disk/disk.qcow2")
  ∧ commands e = run_commands w
  ∧ ((refused b w ∧ v = Exited 1 ∧ supervision e = []
      ∧ this m = std_vm b (-1) (-1) ∧ w_children (world m) = w_children w)
     ∨ (cleared b w
        ∧ ∃ w1 started e1,
            launch_post b w1 started m e1 ∧ launch_world w w1
            ∧ v = (if started then Running else Exited 1)
            ∧ supervision e = supervision e1)).

(** The display mode [main] selects: bridged unless told otherwise. *)
Definition bridged_run (argv : list string) : bool :=
  negb (scan_args (drop 1 argv) false).

(** The forks a launch needs succeed: the emulator's, and in bridged mode
    the bridge's after it. *)
Definition forks_succeed (bridged : bool) (pending : list Z) : Prop :=
  ∃ q rest, pending = q :: rest ∧ (0 < q)%Z
    ∧ (bridged = true -> ∃ p rest', rest = p :: rest' ∧ (0 < p)%Z).


(** [fs2] is [fs] with directories added. *)
Definition grows (fs fs2 : gmap string node) : Prop :=
  fs ⊆ fs2 ∧ ∀ k, fs !! k = None → is_Some (fs2 !! k) → fs2 !! k = Some Dir.

(** The paths [createDirectories] asks for, in order. *)
Definition asked_dirs : list string :=
  ["./devices/disk"; "./devices/rom"; "./boot/firmware"; "./libraries"].

(** The filesystem a [try] block of [fs::create_directories] calls leaves,
    and the path whose call threw, if one did. *)
Fixpoint mkdir_all (denied : string -> bool) (fs : gmap string node)
    (ps : list string) : gmap string node * option string :=
  match ps with
  | [] => (fs, None)
  | p :: rest =>
      let (fs1, ok) :=
        foldl (mkdir_step denied) (fs, true) (dir_chain EmptyString p) in
      if ok then mkdir_all denied fs1 rest else (fs1, Some p)
  end.

(** The tokens of a command, each followed by one space. *)
Definition command_text (cmd : list string) : string :=
  foldr (fun arg s => arg +:+ " " +:+ s) EmptyString cmd.

(** An empty working directory on a host whose disk tool reports success
    but writes nothing. *)
Definition silent_tool_host : World :=
  mkWorld ∅ [] [] [100%Z; 101%Z] no_listing
    (fun _ => (0%Z, None)) (fun _ => 1%Z)
    (fun p => "cannot create directories: " +:+ p)
    (fun _ => false).

(** A host whose media directory lists one text file and then fails. *)
Definition unreadable_rom_host : World :=
  mkWorld ∅ [] [] []
    (fun _ => (["notes.txt"], Some "Permission denied"))
    (fun _ => (1%Z, None)) (fun _ => 1%Z)
    (fun p => "cannot create directories: " +:+ p)
    (fun _ => false).


(** ** The methods once more, call by call *)

Declare Scope T_scope.

(** The same methods over any way [T] of sequencing the calls to the object
    and to the system, so that a run can also be taken one call at a time
    and stopped between two calls. *)
Section Methods.
Context {T : Type -> Type}.
Context (ret_ : ∀ A, A -> T A).
Context (bind_ : ∀ A B, T A -> (A -> T B) -> T B).
Context (call : ∀ A, M A -> T A).

Local Notation "x ← y ; z" := (bind_ _ _ y (fun x => z))
  (at level 20, y at level 100, z at level 200, only parsing) : T_scope.
Local Notation "' x ← y ; z" := (bind_ _ _ y (fun x => z))
  (at level 20, x pattern, y at level 100, z at level 200, only parsing) : T_scope.
Local Notation "x ;; z" := (bind_ _ _ x (fun _ => z))
  (at level 100, z at level 200, only parsing, right associativity) : T_scope.
Local Open Scope T_scope.

Definition printLog_ (level message : string) : T unit :=
  call _ (printLog level message).

Definition printDebug_ (message : string) : T unit :=
  call _ (printDebug message).

Definition checkFile_ (path name : string) : T bool :=
  e ← call _ (fs_exists path);
  if e then printDebug_ (name +:+ " available.. Yes!");; ret_ _ true
  else printDebug_ (name +:+ " available.. No");; ret_ _ false.

Definition findISO_ : T string :=
  printDebug_ "Checking for ISO files...";;
  rom ← call _ (field romPath);
  '(entries, err) ← call _ (directory_iterator rom);
  match find (fun p => String.eqb (extension p) ".iso") entries with
  | Some p => ret_ _ p
  | None =>
      match err with
      | Some what =>
          printDebug_ ("Error checking ROM directory: " +:+ what);;
          ret_ _ EmptyString
      | None => ret_ _ EmptyString
      end
  end.

Fixpoint try_block_ (calls : list (T (option string))) : T (option string) :=
  match calls with
  | [] => ret_ _ None
  | c :: rest => r ← c; match r with
                        | None => try_block_ rest
                        | Some what => ret_ _ (Some what)
                        end
  end.

Definition createDirectories_ : T unit :=
  r ← try_block_ [ call _ (fs_create_directories "./devices/disk");
                   call _ (fs_create_directories "./devices/rom");
                   call _ (fs_create_directories "./boot/firmware");
                   call _ (fs_create_directories "./libraries") ];
  match r with
  | None => ret_ _ tt
  | Some what => printLog_ "ERROR" ("Failed to create directories: " +:+ what)
  end.

Definition createDefaultDisk_ : T bool :=
  disk ← call _ (field diskPath);
  e ← call _ (fs_exists disk);
  if negb e then
    printLog_ "INFO" "Creating default 20GB disk...";;
    result ← call _ (system (QemuImgCreate disk));
    if (result =? 0)%Z then
      printLog_ "INFO" "Default disk created successfully!";; ret_ _ true
    else
      printLog_ "ERROR" "Failed to create default disk!";; ret_ _ false
  else ret_ _ true.

Definition buildQEMUCommand_ : T (list string) :=
  let cmd := [] in
  let cmd := push_back cmd "qemu-system-x86_64" in
  let cmd := push_back cmd "-enable-kvm" in
  let cmd := push_back cmd "-cpu" in
  let cmd := push_back cmd "host" in
  let cmd := push_back cmd "-smp" in
  let cmd := push_back cmd "4" in
  let cmd := push_back cmd "-m" in
  let cmd := push_back cmd "4G" in
  let cmd := push_back cmd "-vga" in
  let cmd := push_back cmd "virtio" in
  vnc ← call _ (field useVNC);
  let cmd :=
    if vnc then
      let cmd := push_back cmd "-display" in
      let cmd := push_back cmd "none" in
      let cmd := push_back cmd "-vnc" in
      push_back cmd ":1"
    else
      let cmd := push_back cmd "-display" in
      push_back cmd "gtk,full-screen=on" in
  firmware ← call _ (field firmwarePath);
  fw ← call _ (fs_exists firmware);
  cmd ← (if fw then
           let cmd := push_back cmd "-drive" in
           let cmd := push_back cmd
                        ("if=pflash,format=raw,readonly=on,file=" +:+ firmware) in
           vars ← call _ (fs_exists varsPath);
           (if negb vars then
              printLog_ "INFO" "Creating OVMF VARS file...";;
              call _ (ofstream_write varsPath emptyVars)
            else ret_ _ tt);;
           let cmd := push_back cmd "-drive" in
           ret_ _ (push_back cmd ("if=pflash,format=raw,file=" +:+ varsPath))
         else ret_ _ cmd);
  disk ← call _ (field diskPath);
  dk ← call _ (fs_exists disk);
  let cmd :=
    if dk then
      let cmd := push_back cmd "-drive" in
      push_back cmd ("file=" +:+ disk +:+ ",format=qcow2,if=virtio")
    else cmd in
  isoFile ← findISO_;
  cmd ← (if negb (String.eqb isoFile EmptyString) then
           let cmd := push_back cmd "-cdrom" in
           let cmd := push_back cmd isoFile in
           printLog_ "INFO" ("ISO found: " +:+ filename isoFile);;
           ret_ _ cmd
         else ret_ _ cmd);
  let cmd := push_back cmd "-audiodev" in
  let cmd := push_back cmd "alsa,id=audio0" in
  let cmd := push_back cmd "-device" in
  let cmd := push_back cmd "intel-hda" in
  let cmd := push_back cmd "-device" in
  let cmd := push_back cmd "hda-duplex,audiodev=audio0" in
  let cmd := push_back cmd "-netdev" in
  let cmd := push_back cmd "user,id=net0" in
  let cmd := push_back cmd "-device" in
  let cmd := push_back cmd "virtio-net-pci,netdev=net0" in
  let cmd := push_back cmd "-device" in
  let cmd := push_back cmd "usb-ehci" in
  let cmd := push_back cmd "-device" in
  let cmd := push_back cmd "usb-tablet" in
  let cmd := push_back cmd "-rtc" in
  let cmd := push_back cmd "base=localtime,clock=host" in
  ret_ _ cmd.

Definition startWebsockify_ : T bool :=
  vnc ← call _ (field useVNC);
  if negb vnc then ret_ _ true
  else
    printLog_ "INFO" "Starting websockify for noVNC...";;
    novnc ← call _ (field noVNCPath);
    e ← call _ (fs_exists novnc);
    if negb e then
      printLog_ "ERROR" "noVNC directory not found!";; ret_ _ false
    else
      pid ← call _ (fork (ShellC ("websockify --web=" +:+ novnc
                                  +:+ " 8080 localhost:5901")));
      if (0 <? pid)%Z then
        call _ (assign (set_websockifyPid pid));;
        call _ (sleep 2);;
        ret_ _ true
      else
        printLog_ "ERROR" "Failed to fork websockify process!";; ret_ _ false.

Definition startQEMU_ : T bool :=
  printLog_ "INFO" "Starting QEMU virtual machine...";;
  cmd ← buildQEMUCommand_;
  printDebug_ "QEMU command:";;
  let fullCmd := foldl (fun acc arg => acc +:+ (arg +:+ " ")) EmptyString cmd in
  printDebug_ fullCmd;;
  pid ← call _ (fork (Execvp cmd));
  if (0 <? pid)%Z then
    call _ (assign (set_qemuPid pid));;
    call _ (sleep 3);;
    ret_ _ true
  else
    printLog_ "ERROR" "Failed to fork QEMU process!";; ret_ _ false.

Definition cleanup_ : T unit :=
  q ← call _ (field qemuPid);
  (if negb (q =? -1)%Z then call _ (kill q SIGTERM);; call _ (waitpid q)
   else ret_ _ tt);;
  b ← call _ (field websockifyPid);
  (if negb (b =? -1)%Z then call _ (kill b SIGTERM);; call _ (waitpid b)
   else ret_ _ tt).

Definition boot_ : T bool :=
  printLog_ "LOG" "Booting Computer..";;
  printDebug_ "Checking components..";;
  createDirectories_;;
  firmware ← call _ (field firmwarePath);
  checkFile_ firmware "Firmware";;
  disk ← call _ (field diskPath);
  diskPresent ← checkFile_ disk "Disk";
  diskOk ← (if diskPresent then ret_ _ true else createDefaultDisk_);
  isoFile ← findISO_;
  let isoOk := negb (String.eqb isoFile EmptyString) in
  (if negb isoOk then printDebug_ "ISO available.. No"
   else printDebug_ "ISO available.. Yes");;
  if negb diskOk && negb isoOk then
    printLog_ "ERROR" "No disk or ISO available!";; ret_ _ false
  else
    printDebug_ "Checking Libraries..";;
    novnc ← call _ (field noVNCPath);
    noVNCOk ← checkFile_ novnc "noVNC";
    status ← call _ (system (WhichQuiet "websockify"));
    let websockifyOk := (status =? 0)%Z in
    printDebug_ ("Websockify.. " +:+ (if websockifyOk then "Yes!" else "No"));;
    vnc ← call _ (field useVNC);
    if vnc && (negb noVNCOk || negb websockifyOk) then
      printLog_ "ERROR" "Required libraries not found for VNC mode!";; ret_ _ false
    else
      printDebug_ "Starting Machine..";;
      withDisk ← (if isoOk then call _ (fs_exists disk) else ret_ _ false);
      (if withDisk then printLog_ "INFO" "Booting from ISO with disk available!"
       else if isoOk then printLog_ "INFO" "Booting from ISO only!"
       else printLog_ "INFO" "There's no ISO on rom/, Booting from disk!");;
      started ← startQEMU_;
      if negb started then ret_ _ false
      else
        if vnc then
          bridged ← startWebsockify_;
          if negb bridged then cleanup_;; ret_ _ false
          else
            printLog_ "INFO" "Port 8080 For Machine Opened! Go to http://localhost:8080/vnc.html?resize=remote&autoconnect=true";;
            ret_ _ true
        else
          printLog_ "INFO" "Machine started in full-screen mode!";; ret_ _ true.

Definition setVNCMode_ (enabled : bool) : T unit :=
  call _ (assign (set_useVNC enabled)).

(** [main] from its first statement, the two [signal] calls included, up
    to the point where it returns or enters its loop. *)
Definition main_ (argv : list string) : T outcome :=
  call _ (change (install_handler SIGINT));;
  call _ (change (install_handler SIGTERM));;
  let noVNC := scan_args (drop 1 argv) false in
  setVNCMode_ (negb noVNC);;
  ok ← boot_;
  if ok then ret_ _ Running
  else call _ (emit (Stderr "[ERROR] Failed to boot virtual machine!"));;
       ret_ _ (Exited 1).

End Methods.

(** ** Runs that a signal can cut short *)

(** Where a run stands when its steps are used up or its code has returned:
    the result if it returned, the steps left, the machine, and the events so
    far. *)
Record Reach (A : Type) := At {
  reached : option A;
  steps_left : nat;
  at_state : Machine;
  so_far : list event
}.
Arguments At {A} _ _ _ _.
Arguments reached {A} _.
Arguments steps_left {A} _.
Arguments at_state {A} _.
Arguments so_far {A} _.

(** A computation run for at most a number of steps. *)
Definition Stepwise (A : Type) : Type := nat -> Machine -> Reach A.

Definition ret_at (A : Type) (a : A) : Stepwise A := fun n m => At (Some a) n m [].

Definition bind_at (A B : Type) (c : Stepwise A) (f : A -> Stepwise B)
  : Stepwise B := fun n m =>
  match c n m with
  | At (Some a) k m1 e1 =>
      match f a k m1 with
      | At b k' m2 e2 => At b k' m2 (e1 ++ e2)
      end
  | At None k m1 e1 => At None k m1 e1
  end.

(** One call is one step: it is made whole, or not at all (a signal that
    arrives while a call blocks, a [sleep] say, is one right after the step). *)
Definition call_at (A : Type) (c : M A) : Stepwise A := fun n m =>
  match n with
  | O => At None O m []
  | S k => match c m with
           | Res a m' e => At (Some a) k m' e
           end
  end.

(** The methods run in full. *)
Definition call_whole (A : Type) (c : M A) : M A := c.

(** [main] for at most [n] steps, from the start of the process. *)
Definition main_at (argv : list string) (n : nat) (w : World) : Reach outcome :=
  main_ ret_at bind_at call_at argv n (mkMachine ComputerVM_new w).

(** A whole run in which the signal [sig] arrives when the process has made
    [n] steps: during [main] (the handlers may not even be installed yet), in
    the loop, whose turns are steps as well, or after the process has
    exited, when it no longer matters. *)
Definition run_at (argv : list string) (n : nat) (sig : signal) (w : World)
  : Result outcome :=
  match main_at argv n w with
  | At (Some Running) k m e =>
      match (idle k;; deliver sig) m with
      | Res o m' e' => Res o m' (e ++ e')
      end
  | At (Some o) _ m e => Res o m e
  | At None _ m e =>
      match deliver sig m with
      | Res o m' e' => Res o m' (e ++ e')
      end
  end.

(** The table of children after an event. *)
Definition grown (cs : list (Z * image)) (e : event) : list (Z * image) :=
  match e with
  | Fork child r => if (0 <? r)%Z then cs ++ [(r, child)] else cs
  | Waitpid pid => filter (fun c => c.1 ≠ pid) cs
  | _ => cs
  end.

(** The table of children after some events. *)
Definition replay (cs : list (Z * image)) (l : list event) : list (Z * image) :=
  foldl grown cs l.

(** A stepwise computation and the computation it is the steps of: with
    enough steps the same result, with fewer a stop at a prefix of the
    events. *)
Definition refines {A} (c' : Stepwise A) (c : M A) : Prop :=
  ∀ m, ∃ N,
    (∀ n, N ≤ n ->
       c' n m = At (Some (value (c m))) (n - N) (state (c m)) (events (c m)))
    ∧ (∀ n, n < N ->
         reached (c' n m) = None ∧ steps_left (c' n m) = O
         ∧ so_far (c' n m) `prefix_of` events (c m)).

(** Wherever a stepwise computation stands, the table of children is the
    one its events so far account for, and the handlers are those it started
    with. *)
Definition tracks {A} (c' : Stepwise A) : Prop :=
  ∀ n m,
    w_children (world (at_state (c' n m)))
    = replay (w_children (world m)) (so_far (c' n m))
    ∧ w_handlers (world (at_state (c' n m))) = w_handlers (world m).

(** The same of a computation run in full. *)
Definition tracked {A} (c : M A) : Prop :=
  ∀ m,
    w_children (world (state (c m))) = replay (w_children (world m)) (events (c m))
    ∧ w_handlers (world (state (c m))) = w_handlers (world m).

(** The five shapes of the supervision events of a run that is not cut
    short, with the outcome of each. *)
Definition run_shape (bridged : bool) (s : list event) (v : outcome) : Prop :=
  (s = [] ∧ v = Exited 1)
  ∨ (∃ c, s = [Fork (Execvp c) (-1)] ∧ v = Exited 1)
  ∨ (∃ c q, (0 < q)%Z ∧ bridged = false
       ∧ s = [Fork (Execvp c) q; Sleep 3] ∧ v = Running)
  ∨ (∃ c q, (0 < q)%Z ∧ bridged = true
       ∧ s = [Fork (Execvp c) q; Sleep 3; Fork (ShellC bridge_command) (-1);
              Kill q SIGTERM; Waitpid q]
       ∧ v = Exited 1)
  ∨ (∃ c q p, (0 < q)%Z ∧ (0 < p)%Z ∧ bridged = true
       ∧ s = [Fork (Execvp c) q; Sleep 3; Fork (ShellC bridge_command) p; Sleep 2]
       ∧ v = Running).

(** The handlers [main] has installed after [n] steps. *)
Definition installed (n : nat) : list signal :=
  match n with
  | O => []
  | S O => [SIGINT]
  | _ => [SIGTERM; SIGINT]
  end.

(** * Proofs *)

Arguments emptyVars : simpl never.
Arguments findISO : simpl never.
Arguments createDirectories : simpl never.
Arguments buildQEMUCommand : simpl never.

(** Projections of the records, setters and boolean connectives. *)
Ltac norm :=
  cbn [this world value state events
       w_fs w_children w_handlers w_forks w_readdir w_qemu_img w_which w_what
       w_denied
       set_fs set_children set_handlers set_forks
       diskPath romPath firmwarePath noVNCPath useVNC qemuPid websockifyPid
       set_useVNC set_qemuPid set_websockifyPid std_vm ComputerVM_new session
       main_start install_handler
       negb andb orb fst snd app] in *.

(** The same, in the goal only. *)
Ltac norm_goal :=
  cbn [this world value state events
       w_fs w_children w_handlers w_forks w_readdir w_qemu_img w_which w_what
       w_denied
       set_fs set_children set_handlers set_forks
       diskPath romPath firmwarePath noVNCPath useVNC qemuPid websockifyPid
       set_useVNC set_qemuPid set_websockifyPid std_vm ComputerVM_new session
       main_start install_handler
       negb andb orb fst snd app].

(** ** The postcondition calculus *)

Section Calculus.
Context {A B : Type}.
Implicit Types (m : Machine) (Q : A -> Machine -> list event -> Prop).

Lemma wp_elim (c : M A) m Q :
  wp c m Q -> Q (value (c m)) (state (c m)) (events (c m)).
Proof. unfold wp. by destruct (c m). Qed.

Lemma wp_intro (c : M A) m Q :
  Q (value (c m)) (state (c m)) (events (c m)) -> wp c m Q.
Proof. unfold wp. by destruct (c m). Qed.

Lemma wp_bind (c : M A) (f : A -> M B) m (R : B -> Machine -> list event -> Prop) :
  wp c m (fun a m1 e1 => wp (f a) m1 (fun b m2 e2 => R b m2 (e1 ++ e2))) ->
  wp (bind c f) m R.
Proof.
  unfold wp, bind. destruct (c m) as [a m1 e1]. by destruct (f a m1).
Qed.

Lemma wp_mono (c : M A) m Q Q' :
  wp c m Q -> (forall a m' e, Q a m' e -> Q' a m' e) -> wp c m Q'.
Proof. unfold wp. destruct (c m). auto. Qed.

Lemma wp_ret (a : A) m Q : Q a m [] -> wp (ret a) m Q.
Proof. done. Qed.

Lemma wp_field (f : ComputerVM -> A) m Q : Q (f (this m)) m [] -> wp (field f) m Q.
Proof. done. Qed.

Lemma wp_observe (f : World -> A) m Q : Q (f (world m)) m [] -> wp (observe f) m Q.
Proof. done. Qed.
End Calculus.

Lemma wp_assign f m (Q : unit -> Machine -> list event -> Prop) :
  Q tt (mkMachine (f (this m)) (world m)) [] -> wp (assign f) m Q.
Proof. done. Qed.

Lemma wp_change f m (Q : unit -> Machine -> list event -> Prop) :
  Q tt (mkMachine (this m) (f (world m))) [] -> wp (change f) m Q.
Proof. done. Qed.

Lemma wp_emit e m (Q : unit -> Machine -> list event -> Prop) :
  Q tt m [e] -> wp (emit e) m Q.
Proof. done. Qed.

Lemma wp_fs_exists p m (Q : bool -> Machine -> list event -> Prop) :
  Q (bool_decide (present (world m) p)) m [] -> wp (fs_exists p) m Q.
Proof. done. Qed.

Lemma wp_printLog level message m (Q : unit -> Machine -> list event -> Prop) :
  Q tt m [Stdout ("[" +:+ level +:+ "] " +:+ message)] -> wp (printLog level message) m Q.
Proof. done. Qed.

Lemma wp_printDebug message m (Q : unit -> Machine -> list event -> Prop) :
  Q tt m [Stdout ("[DEBUG] " +:+ message)] -> wp (printDebug message) m Q.
Proof. done. Qed.

Lemma wp_sleep n m (Q : unit -> Machine -> list event -> Prop) :
  Q tt m [Sleep n] -> wp (sleep n) m Q.
Proof. done. Qed.

Lemma wp_kill pid sig m (Q : unit -> Machine -> list event -> Prop) :
  Q tt m [Kill pid sig] -> wp (kill pid sig) m Q.
Proof. done. Qed.

Lemma wp_waitpid pid m (Q : unit -> Machine -> list event -> Prop) :
  Q tt (mkMachine (this m)
          (set_children (filter (fun c => c.1 ≠ pid) (w_children (world m))) (world m)))
       [Waitpid pid] ->
  wp (waitpid pid) m Q.
Proof. done. Qed.

Lemma wp_checkFile path name m (Q : bool -> Machine -> list event -> Prop) :
  Q (bool_decide (present (world m) path)) m
    [Stdout ("[DEBUG] " +:+ name +:+
             (if bool_decide (present (world m) path)
              then " available.. Yes!" else " available.. No"))] ->
  wp (checkFile path name) m Q.
Proof.
  unfold wp, checkFile, bind, fs_exists, observe, printDebug, emit, ret, present.
  by destruct (bool_decide _).
Qed.

Lemma wp_which prog m (Q : Z -> Machine -> list event -> Prop) :
  Q (w_which (world m) prog) m
    [System (command_line (WhichQuiet prog)) (w_which (world m) prog)] ->
  wp (system (WhichQuiet prog)) m Q.
Proof. done. Qed.

Lemma wp_qemu_img path m (Q : Z -> Machine -> list event -> Prop) :
  Q (w_qemu_img (world m) path).1
    (mkMachine (this m)
       (set_fs (match (w_qemu_img (world m) path).2 with
                | Some data => <[path := File data]> (w_fs (world m))
                | None => w_fs (world m)
                end) (world m)))
    [System (command_line (QemuImgCreate path)) (w_qemu_img (world m) path).1] ->
  wp (system (QemuImgCreate path)) m Q.
Proof. unfold wp, system. by destruct (w_qemu_img _ _). Qed.

(** The three ways a [fork] can go. *)
Lemma wp_fork child m (Q : Z -> Machine -> list event -> Prop) :
  (forall r rest, w_forks (world m) = r :: rest -> (0 < r)%Z ->
     Q r (mkMachine (this m)
            (set_forks rest
               (set_children (w_children (world m) ++ [(r, child)]) (world m))))
       [Fork child r]) ->
  (Q (-1)%Z (mkMachine (this m) (set_forks (tail (w_forks (world m))) (world m)))
     [Fork child (-1)]) ->
  wp (fork child) m Q.
Proof.
  intros Hok Hfail. unfold wp, fork.
  destruct m as [vm [fs cs hs fk rd qi wh wt dn]]. norm.
  destruct fk as [|r rest]; [exact Hfail|].
  destruct (Z.ltb_spec 0 r) as [Hr|Hr].
  - specialize (Hok r rest eq_refl Hr). norm.
    by destruct (Z.ltb_spec 0 r); [|lia].
  - norm. exact Hfail.
Qed.

(** ** The media scan *)

Lemma findISO_run m :
  findISO m
  = Res (scan_result (romPath (this m)) (w_readdir (world m) (romPath (this m)))) m
        (scan_events (romPath (this m)) (w_readdir (world m) (romPath (this m)))).
Proof.
  unfold findISO, scan_result, scan_events, bind, printDebug, emit, field,
    directory_iterator, observe, ret.
  destruct (w_readdir (world m) (romPath (this m))) as [names err]. cbn [fst snd].
  destruct (find _ _); [reflexivity|]. destruct err; reflexivity.
Qed.

Lemma wp_findISO m (Q : string -> Machine -> list event -> Prop) :
  Q (scan_result (romPath (this m)) (w_readdir (world m) (romPath (this m)))) m
    (scan_events (romPath (this m)) (w_readdir (world m) (romPath (this m)))) ->
  wp findISO m Q.
Proof. unfold wp. by rewrite findISO_run. Qed.

Lemma scan_events_output rom l : Forall is_output (scan_events rom l).
Proof.
  unfold scan_events. constructor; [exact I|].
  destruct (find _ _); [constructor|]. destruct l.2; repeat constructor.
Qed.

(** A path the scan returns lies under the scanned directory and carries
    the image extension. *)
Lemma scan_result_found rom l :
  scan_result rom l ≠ EmptyString ->
  ∃ n, n ∈ l.1 ∧ scan_result rom l = rom +:+ "/" +:+ n
       ∧ extension (scan_result rom l) = ".iso".
Proof.
  unfold scan_result. destruct (find _ _) as [p|] eqn:Hfind; [intros _|done].
  apply find_some in Hfind as [Hin Hext].
  apply in_map_iff in Hin as (n & <- & Hn).
  exists n. split; [by apply list_elem_of_In|]. split; [done|].
  by apply String.eqb_eq.
Qed.

(** ** Directory creation touches nothing but the standard directories *)

Lemma mkdir_fold_frame denied chain : ∀ (fs : gmap string node) ok p,
  p ∉ chain → (foldl (mkdir_step denied) (fs, ok) chain).1 !! p = fs !! p.
Proof.
  induction chain as [|d chain IH]; intros fs ok p Hp; [reflexivity|].
  apply not_elem_of_cons in Hp as [Hne Hp]. cbn [foldl].
  destruct ok; cbn [mkdir_step].
  - destruct (denied d); [by rewrite IH|].
    destruct (fs !! d) as [[|]|] eqn:E; rewrite IH by done; try done.
    by rewrite lookup_insert_ne.
  - by rewrite IH.
Qed.

Lemma create_directories_run p m :
  ∃ fs' r, fs_create_directories p m
             = Res r (mkMachine (this m) (set_fs fs' (world m))) []
    ∧ ∀ k, k ∉ dir_chain EmptyString p → fs' !! k = w_fs (world m) !! k.
Proof.
  unfold fs_create_directories.
  pose proof (mkdir_fold_frame (w_denied (world m)) (dir_chain EmptyString p)
                (w_fs (world m)) true) as H.
  destruct (foldl _ _ _) as [fs' ok].
  by exists fs', (if ok then None else Some (w_what (world m) p)).
Qed.

Lemma try_block_run ps : ∀ m,
  ∃ fs' r, try_block (map fs_create_directories ps) m
             = Res r (mkMachine (this m) (set_fs fs' (world m))) []
    ∧ ∀ k, k ∉ concat (map (dir_chain EmptyString) ps) → fs' !! k = w_fs (world m) !! k.
Proof.
  induction ps as [|p ps IH]; intros [vm w].
  - exists (w_fs w), None. destruct w. done.
  - cbn [map try_block concat]. unfold bind.
    destruct (create_directories_run p (mkMachine vm w)) as (fs1 & r1 & -> & H1).
    norm. destruct r1 as [what|].
    + exists fs1, (Some what). split; [done|]. intros k Hk. apply H1.
      intros Hin. apply Hk, elem_of_app. by left.
    + destruct (IH (mkMachine vm (set_fs fs1 w))) as (fs2 & r2 & -> & H2). norm.
      exists fs2, r2. split; [done|]. intros k Hk.
      rewrite H2, H1; [done| |]; intros Hin; apply Hk, elem_of_app; auto.
Qed.

Lemma createDirectories_run m :
  ∃ fs' log, createDirectories m
               = Res tt (mkMachine (this m) (set_fs fs' (world m))) log
    ∧ (∀ k, k ∉ made_dirs → fs' !! k = w_fs (world m) !! k)
    ∧ Forall is_output log.
Proof.
  unfold createDirectories, bind.
  destruct (try_block_run
              ["./devices/disk"; "./devices/rom"; "./boot/firmware"; "./libraries"] m)
    as (fs' & r & Hrun & Hfr).
  cbn [map] in Hrun. rewrite Hrun.
  assert (∀ k, k ∉ made_dirs → fs' !! k = w_fs (world m) !! k) as Hfr'.
  { intros k Hk. apply Hfr. intros Hin. apply Hk.
    revert Hin. vm_compute concat. unfold made_dirs.
    rewrite !elem_of_cons, !elem_of_nil. tauto. }
  destruct r as [what|].
  - eexists fs', _. split; [reflexivity|]. split; [done|]. repeat constructor.
  - exists fs', []. done.
Qed.

Lemma wp_createDirectories m (Q : unit -> Machine -> list event -> Prop) :
  (∀ fs' log,
     (∀ k, k ∉ made_dirs → fs' !! k = w_fs (world m) !! k) →
     Forall is_output log →
     Q tt (mkMachine (this m) (set_fs fs' (world m))) log) ->
  wp createDirectories m Q.
Proof.
  intros H. unfold wp.
  destruct (createDirectories_run m) as (fs' & log & -> & Hfr & Hlog). auto.
Qed.

(** ** The command builder *)

Lemma absent_lookup (fs : gmap string node) p :
  bool_decide (is_Some (fs !! p)) = false → fs !! p = None.
Proof. intros H%bool_decide_eq_false. by apply eq_None_not_Some. Qed.

Lemma build_run b q p w :
  buildQEMUCommand (mkMachine (std_vm b q p) w)
  = Res (layout b (bool_decide (present w "./boot/firmware/OVMF_CODE.fd"))
                  (bool_decide (present w "./devices/disk/disk.qcow2"))
                  (scan_result "./devices/rom" (w_readdir w "./devices/rom")))
        (mkMachine (std_vm b q p) (build_world w))
        (build_events w).
Proof.
  unfold buildQEMUCommand, bind, field, fs_exists, observe, ret, printLog, emit,
    ofstream_write, change, push_back, build_world, build_events, writes_vars,
    tries_vars, present, layout.
  destruct w as [fs cs hs fk rd qi wh wt dn]. norm.
  destruct (bool_decide (is_Some (fs !! "./boot/firmware/OVMF_CODE.fd"))) eqn:Hfw; norm.
  - destruct (bool_decide (is_Some (fs !! varsPath))) eqn:Hv; norm.
    + rewrite findISO_run. norm.
      destruct (String.eqb _ EmptyString); norm;
        destruct (bool_decide (is_Some (fs !! "./devices/disk/disk.qcow2")));
        destruct b; rewrite ?app_nil_r; reflexivity.
    + rewrite (absent_lookup _ _ Hv). destruct (dn varsPath); norm;
        rewrite findISO_run; norm; rewrite ?lookup_insert_ne by done;
        destruct (String.eqb _ EmptyString); norm;
        destruct (bool_decide (is_Some (fs !! "./devices/disk/disk.qcow2")));
        destruct b; rewrite ?app_nil_r; reflexivity.
  - rewrite findISO_run. norm.
    destruct (String.eqb _ EmptyString); norm;
      destruct (bool_decide (is_Some (fs !! "./devices/disk/disk.qcow2")));
      destruct b; rewrite ?app_nil_r; reflexivity.
Qed.

Lemma build_world_children w : w_children (build_world w) = w_children w.
Proof. unfold build_world. by destruct (writes_vars w). Qed.

Lemma build_world_forks w : w_forks (build_world w) = w_forks w.
Proof. unfold build_world. by destruct (writes_vars w). Qed.

Lemma build_world_handlers w : w_handlers (build_world w) = w_handlers w.
Proof. unfold build_world. by destruct (writes_vars w). Qed.

Lemma build_world_lookup w p :
  p ≠ varsPath → w_fs (build_world w) !! p = w_fs w !! p.
Proof.
  intros. unfold build_world. destruct (writes_vars w); [|done].
  norm. by rewrite lookup_insert_ne.
Qed.

Lemma build_events_output w : Forall is_output (build_events w).
Proof.
  unfold build_events. repeat apply Forall_app_2.
  - destruct (tries_vars w); repeat constructor.
  - apply scan_events_output.
  - cbn zeta. destruct (String.eqb _ _); repeat constructor.
Qed.

Lemma wp_build b q p w (Q : list string -> Machine -> list event -> Prop) :
  Q (layout b (bool_decide (present w "./boot/firmware/OVMF_CODE.fd"))
              (bool_decide (present w "./devices/disk/disk.qcow2"))
              (scan_result "./devices/rom" (w_readdir w "./devices/rom")))
    (mkMachine (std_vm b q p) (build_world w)) (build_events w) ->
  wp buildQEMUCommand (mkMachine (std_vm b q p) w) Q.
Proof. unfold wp. by rewrite build_run. Qed.


(** ** Teardown *)

Lemma occurs_before_nil e1 e2 : occurs_before e1 e2 [] ↔ False.
Proof.
  split; [|done]. intros (l1 & l2 & l3 & H). by destruct l1.
Qed.

Lemma occurs_before_cons e1 e2 x l :
  occurs_before e1 e2 (x :: l) ↔ (x = e1 ∧ e2 ∈ l) ∨ occurs_before e1 e2 l.
Proof.
  split.
  - intros (l1 & l2 & l3 & H). destruct l1 as [|y l1]; simplify_eq/=.
    + left. split; [done|]. apply elem_of_app. right. by left.
    + right. by exists l1, l2, l3.
  - intros [[-> Hin]|(l1 & l2 & l3 & ->)].
    + apply list_elem_of_split in Hin as (l2 & l3 & ->). by exists [], l2, l3.
    + by exists (x :: l1), l2, l3.
Qed.

Lemma filter_all {X} (P : X → Prop) `{∀ x, Decision (P x)} (l : list X) :
  (∀ x, P x) → filter P l = l.
Proof.
  intros HP. induction l as [|x l IH]; [done|].
  rewrite filter_cons_True by done. by rewrite IH.
Qed.

Lemma cleanup_run vm w :
  cleanup (mkMachine vm w)
  = Res tt
      (mkMachine vm
         (set_children
            (filter (fun c => websockifyPid vm = (-1)%Z ∨ c.1 ≠ websockifyPid vm)
               (filter (fun c => qemuPid vm = (-1)%Z ∨ c.1 ≠ qemuPid vm)
                  (w_children w))) w))
      ((if bool_decide (qemuPid vm = (-1)%Z) then []
        else [Kill (qemuPid vm) SIGTERM; Waitpid (qemuPid vm)])
       ++ (if bool_decide (websockifyPid vm = (-1)%Z) then []
           else [Kill (websockifyPid vm) SIGTERM; Waitpid (websockifyPid vm)])).
Proof.
  assert (∀ (p : Z) (cs : list (Z * image)),
            p ≠ (-1)%Z →
            filter (fun c => c.1 ≠ p) cs = filter (fun c => p = (-1)%Z ∨ c.1 ≠ p) cs)
    as Hkill.
  { intros p cs Hp. apply list_filter_iff. intros c. tauto. }
  assert (∀ (p : Z) (cs : list (Z * image)),
            p = (-1)%Z → cs = filter (fun c => p = (-1)%Z ∨ c.1 ≠ p) cs)
    as Hskip.
  { intros p cs Hp. symmetry. apply filter_all. intros c. by left. }
  unfold cleanup, kill, waitpid; unfold bind, field, emit, change, ret.
  destruct w as [fs cs hs fk rd qi wh wt dn]. norm.
  destruct (Z.eqb_spec (qemuPid vm) (-1)) as [Hq|Hq]; norm;
    destruct (Z.eqb_spec (websockifyPid vm) (-1)) as [Hb|Hb]; norm;
    rewrite ?(bool_decide_eq_true_2 _ Hq), ?(bool_decide_eq_false_2 _ Hq),
      ?(bool_decide_eq_true_2 _ Hb), ?(bool_decide_eq_false_2 _ Hb); norm.
  - by rewrite <- !Hskip.
  - by rewrite <- (Hskip _ cs Hq), <- Hkill.
  - by rewrite <- (Hskip _ _ Hb), <- Hkill.
  - by rewrite <- !Hkill.
Qed.

(** C1, as amended.  [cleanup] (the supervisor's terminate-all) signals and
    reaps the emulator first and the display bridge second; a pid field
    holding the sentinel -1 contributes nothing, and the children left are
    those whose pid is neither of the two recorded ones. *)
Theorem cleanup_emulator_then_bridge (m : Machine) :
  events (cleanup m)
  = (if bool_decide (qemuPid (this m) = (-1)%Z) then []
     else [Kill (qemuPid (this m)) SIGTERM; Waitpid (qemuPid (this m))])
    ++ (if bool_decide (websockifyPid (this m) = (-1)%Z) then []
        else [Kill (websockifyPid (this m)) SIGTERM;
              Waitpid (websockifyPid (this m))])
  ∧ this (state (cleanup m)) = this m
  ∧ ∀ c, c ∈ w_children (world (state (cleanup m))) ↔
         c ∈ w_children (world m)
         ∧ (qemuPid (this m) = (-1)%Z ∨ c.1 ≠ qemuPid (this m))
         ∧ (websockifyPid (this m) = (-1)%Z ∨ c.1 ≠ websockifyPid (this m)).
Proof.
  destruct m as [vm w]. rewrite cleanup_run. norm.
  split; [done|]. split; [done|]. intros c.
  rewrite !list_elem_of_filter. tauto.
Qed.

(** C1, as stated, fails on the session of a full bridged boot: both
    children are live (pids 100 and 101), and the bridge's termination
    signal is not issued before the emulator's. *)
Lemma cleanup_bridge_first_refuted :
  qemuPid (this full_session) = 100%Z
  ∧ websockifyPid (this full_session) = 101%Z
  ∧ (w_children (world full_session)).*1 = [100%Z; 101%Z]
  ∧ ¬ occurs_before (Kill 101 SIGTERM) (Kill 100 SIGTERM)
        (events (cleanup full_session)).
Proof.
  split; [by vm_compute|]. split; [by vm_compute|]. split; [by vm_compute|].
  assert (events (cleanup full_session)
          = [Kill 100 SIGTERM; Waitpid 100; Kill 101 SIGTERM; Waitpid 101]) as ->
    by (by vm_compute).
  rewrite !occurs_before_cons, occurs_before_nil, !elem_of_cons, elem_of_nil.
  intros H. repeat destruct H as [H|H]; try done; destruct H as [? H];
    repeat destruct H as [H|H]; done.
Qed.

(** ** The command builder: order, variable store, omissions *)

Lemma session_std b w : session b w = mkMachine (std_vm b (-1) (-1)) w.
Proof. reflexivity. Qed.

Lemma findISO_session b w :
  value (findISO (session b w))
  = scan_result "./devices/rom" (w_readdir w "./devices/rom").
Proof. by rewrite findISO_run. Qed.

(** C6.  The emulator command is assembled in a fixed order: program and
    core CPU, memory and virtualization flags; graphics adapter; display
    flags (bridged: no local display and the remote display on channel :1,
    direct: a local full-screen display); the read-only firmware flash drive
    then the variable-store flash drive, only if the firmware is present; the
    persistent disk drive, only if present; the removable-media drive, only
    if the scan found an image; then audio, network, USB input and the
    real-time clock. *)
Theorem build_assembly_order (bridged : bool) (w : World) :
  value (buildQEMUCommand (session bridged w))
  = ["qemu-system-x86_64"; "-enable-kvm"; "-cpu"; "host"; "-smp"; "4"; "-m"; "4G"]
    ++ ["-vga"; "virtio"]
    ++ (if bridged then ["-display"; "none"; "-vnc"; ":1"]
        else ["-display"; "gtk,full-screen=on"])
    ++ (if bool_decide (present w "./boot/firmware/OVMF_CODE.fd")
        then ["-drive";
              "if=pflash,format=raw,readonly=on,file=./boot/firmware/OVMF_CODE.fd";
              "-drive";
              "if=pflash,format=raw,file=./boot/firmware/OVMF_VARS.fd"]
        else [])
    ++ (if bool_decide (present w "./devices/disk/disk.qcow2")
        then ["-drive"; "file=./devices/disk/disk.qcow2,format=qcow2,if=virtio"]
        else [])
    ++ (if bool_decide (value (findISO (session bridged w)) = EmptyString) then []
        else ["-cdrom"; value (findISO (session bridged w))])
    ++ ["-audiodev"; "alsa,id=audio0"; "-device"; "intel-hda";
        "-device"; "hda-duplex,audiodev=audio0"]
    ++ ["-netdev"; "user,id=net0"; "-device"; "virtio-net-pci,netdev=net0"]
    ++ ["-device"; "usb-ehci"; "-device"; "usb-tablet"]
    ++ ["-rtc"; "base=localtime,clock=host"].
Proof.
  rewrite findISO_session, session_std, build_run. norm. unfold layout.
  destruct (String.eqb_spec (scan_result "./devices/rom" (w_readdir w "./devices/rom"))
              EmptyString) as [Hiso|Hiso].
  - rewrite (bool_decide_eq_true_2 _ Hiso). reflexivity.
  - rewrite (bool_decide_eq_false_2 _ Hiso). reflexivity.
Qed.


(** C7 fails on a host that refuses the write.  Firmware, disk image,
    installation image and the delivery chain are there, the variable store
    is not, and the firmware directory cannot be written.  The bridged run
    announces the creation, the stream it never tests drops the 65536 zero
    bytes, the emulator is forked with a command that names the store, and
    the program reaches its loop: no store exists at any time. *)
Theorem vars_store_referenced_uncreated :
  present locked_firmware_host "./boot/firmware/OVMF_CODE.fd"
  ∧ ¬ present locked_firmware_host varsPath
  ∧ Stdout "[INFO] Creating OVMF VARS file..."
      ∈ events (main ["computer"] locked_firmware_host)
  ∧ Fork (Execvp full_command) 100 ∈ events (main ["computer"] locked_firmware_host)
  ∧ "if=pflash,format=raw,file=./boot/firmware/OVMF_VARS.fd" ∈ full_command
  ∧ value (main ["computer"] locked_firmware_host) = Running
  ∧ ¬ present (world (state (main ["computer"] locked_firmware_host))) varsPath
  ∧ ¬ present (world (state (buildQEMUCommand (session true locked_firmware_host))))
        varsPath.
Proof.
  assert (¬ present locked_firmware_host varsPath) as Hvars
    by (apply (bool_decide_unpack _); by vm_compute).
  assert (w_denied locked_firmware_host varsPath = true) as Hdenied by by vm_compute.
  assert (build_world locked_firmware_host = locked_firmware_host) as Hbuild.
  { unfold build_world, writes_vars. by rewrite Hdenied, andb_false_r. }
  rewrite session_std, build_run. norm. rewrite Hbuild.
  unfold main, boot, startQEMU, buildQEMUCommand.
  generalize emptyVars. intros zeros.
  split_and!;
    first [exact Hvars | by vm_compute | apply (bool_decide_unpack _); by vm_compute].
Qed.


(** C8.  An unavailable resource is left out whole.  Without firmware no
    token is a flash-drive description and the only drive option left is
    the disk's; when the scan finds no image there is no cdrom option; and
    after the program name and the lone acceleration switch the tokens
    always come in option-name, option-value pairs. *)
Theorem build_omits_unavailable (bridged : bool) (w : World) :
  (¬ present w "./boot/firmware/OVMF_CODE.fd" ->
     (∀ t, t ∈ value (buildQEMUCommand (session bridged w)) ->
           String.prefix "if=pflash" t = false)
     ∧ filter (fun t => t = "-drive") (value (buildQEMUCommand (session bridged w)))
       = if bool_decide (present w "./devices/disk/disk.qcow2")
         then ["-drive"] else [])
  ∧ (value (findISO (session bridged w)) = EmptyString ->
       "-cdrom" ∉ value (buildQEMUCommand (session bridged w)))
  ∧ paired (drop 2 (value (buildQEMUCommand (session bridged w)))) = true.
Proof.
  rewrite findISO_session, session_std, build_run. norm. unfold layout.
  pose proof (scan_result_found "./devices/rom" (w_readdir w "./devices/rom")) as Hiso.
  destruct (String.eqb_spec (scan_result "./devices/rom" (w_readdir w "./devices/rom"))
              EmptyString) as [Hnone|Hsome].
  - clear Hiso. rewrite Hnone. split; [|split].
    + intros Hfw. rewrite (bool_decide_eq_false_2 _ Hfw). split.
      * apply Forall_forall.
        destruct bridged, (bool_decide (present w "./devices/disk/disk.qcow2"));
          repeat (constructor; [reflexivity|]); constructor.
      * by destruct bridged, (bool_decide (present w "./devices/disk/disk.qcow2")).
    + intros _.
      destruct bridged, (bool_decide (present w "./boot/firmware/OVMF_CODE.fd")),
        (bool_decide (present w "./devices/disk/disk.qcow2"));
        apply (bool_decide_unpack _); by vm_compute.
    + by destruct bridged, (bool_decide (present w "./boot/firmware/OVMF_CODE.fd")),
        (bool_decide (present w "./devices/disk/disk.qcow2")).
  - destruct (Hiso Hsome) as (n & _ & Hpath & _). rewrite Hpath. clear Hiso Hpath.
    split; [|split].
    + intros Hfw. rewrite (bool_decide_eq_false_2 _ Hfw). split.
      * apply Forall_forall.
        destruct bridged, (bool_decide (present w "./devices/disk/disk.qcow2"));
          repeat (constructor; [reflexivity|]); constructor.
      * by destruct bridged, (bool_decide (present w "./devices/disk/disk.qcow2")).
    + intros Hnone. discriminate Hnone.
    + by destruct bridged, (bool_decide (present w "./boot/firmware/OVMF_CODE.fd")),
        (bool_decide (present w "./devices/disk/disk.qcow2")).
Qed.

(** ** What [boot] never changes *)

Section Keeps.
Context {A B : Type}.

Lemma keeps_bind (c : M A) (f : A -> M B) :
  keeps c -> (∀ a, keeps (f a)) -> keeps (bind c f).
Proof.
  intros Hc Hf m. unfold bind.
  specialize (Hc m). destruct (c m) as [a m1 e1].
  specialize (Hf a m1). destruct (f a m1) as [b m2 e2].
  norm. congruence.
Qed.

Lemma keeps_ret (a : A) : keeps (ret a).
Proof. done. Qed.

Lemma keeps_field (f : ComputerVM -> A) : keeps (field f).
Proof. done. Qed.

Lemma keeps_observe (f : World -> A) : keeps (observe f).
Proof. done. Qed.
End Keeps.

Lemma keeps_emit e : keeps (emit e).
Proof. done. Qed.

Lemma keeps_set_qemuPid p : keeps (assign (set_qemuPid p)).
Proof. done. Qed.

Lemma keeps_set_websockifyPid p : keeps (assign (set_websockifyPid p)).
Proof. done. Qed.

Lemma keeps_fork child : keeps (fork child).
Proof. done. Qed.

Lemma keeps_system c : keeps (system c).
Proof.
  intros m. destruct c as [path|prog]; unfold system; [|done].
  by destruct (w_qemu_img _ _).
Qed.

Lemma keeps_waitpid pid : keeps (waitpid pid).
Proof. done. Qed.

Lemma keeps_ofstream_write p data : keeps (ofstream_write p data).
Proof.
  intros m. unfold ofstream_write, change. norm.
  by destruct (w_fs (world m) !! p) as [[|]|], (w_denied (world m) p).
Qed.

Lemma keeps_create_directories p : keeps (fs_create_directories p).
Proof. intros m. unfold fs_create_directories. by destruct (foldl _ _ _). Qed.

Lemma keeps_findISO : keeps findISO.
Proof. intros m. by rewrite findISO_run. Qed.

Lemma keeps_createDirectories : keeps createDirectories.
Proof.
  intros m. destruct (createDirectories_run m) as (fs' & log & -> & _). done.
Qed.

Ltac keeps_step :=
  lazymatch goal with
  | |- keeps (bind _ _) => apply keeps_bind; [|intros ?]
  | |- keeps (ret _) => apply keeps_ret
  | |- keeps (field _) => apply keeps_field
  | |- keeps (observe _) => apply keeps_observe
  | |- keeps (fs_exists _) => apply keeps_observe
  | |- keeps (emit _) => apply keeps_emit
  | |- keeps (printLog _ _) => apply keeps_emit
  | |- keeps (printDebug _) => apply keeps_emit
  | |- keeps (sleep _) => apply keeps_emit
  | |- keeps (kill _ _) => apply keeps_emit
  | |- keeps (assign (set_qemuPid _)) => apply keeps_set_qemuPid
  | |- keeps (assign (set_websockifyPid _)) => apply keeps_set_websockifyPid
  | |- keeps (fork _) => apply keeps_fork
  | |- keeps (system _) => apply keeps_system
  | |- keeps (waitpid _) => apply keeps_waitpid
  | |- keeps (ofstream_write _ _) => apply keeps_ofstream_write
  | |- keeps findISO => apply keeps_findISO
  | |- keeps createDirectories => apply keeps_createDirectories
  | |- keeps (if ?b then _ else _) => destruct b
  | |- keeps (let _ := _ in _) => cbn zeta
  end.

Lemma keeps_checkFile path name : keeps (checkFile path name).
Proof. unfold checkFile. repeat keeps_step. Qed.

Lemma keeps_createDefaultDisk : keeps createDefaultDisk.
Proof. unfold createDefaultDisk. repeat keeps_step. Qed.

Lemma keeps_buildQEMUCommand : keeps buildQEMUCommand.
Proof. unfold buildQEMUCommand. repeat keeps_step. Qed.

Lemma keeps_startQEMU : keeps startQEMU.
Proof.
  unfold startQEMU. repeat first [apply keeps_buildQEMUCommand | keeps_step].
Qed.

Lemma keeps_startWebsockify : keeps startWebsockify.
Proof. unfold startWebsockify. repeat keeps_step. Qed.

Lemma keeps_cleanup : keeps cleanup.
Proof. unfold cleanup. repeat keeps_step. Qed.

Lemma keeps_boot : keeps boot.
Proof.
  unfold boot.
  repeat first [ apply keeps_checkFile | apply keeps_createDefaultDisk
               | apply keeps_startQEMU | apply keeps_startWebsockify
               | apply keeps_cleanup | keeps_step ].
Qed.

(** ** The command line *)

Lemma main_unfold argv w : main argv w = main_body argv (main_start w).
Proof. reflexivity. Qed.

Lemma scan_args_spec args :
  scan_args args false = bool_decide ("--no-vnc" ∈ args).
Proof.
  induction args as [|a args IH]; [done|]. cbn [scan_args].
  destruct (String.eqb_spec a "--no-vnc") as [->|Hne].
  - symmetry. apply bool_decide_eq_true_2. by left.
  - rewrite IH. apply bool_decide_ext. rewrite elem_of_cons.
    split; [by right|]. intros [Heq|H]; [|done]. by subst a.
Qed.

Lemma keeps_main_body_tail :
  keeps (ok ← boot;
         if ok then ret Running
         else emit (Stderr "[ERROR] Failed to boot virtual machine!");;
              ret (Exited 1)).
Proof. repeat first [apply keeps_boot | keeps_step]. Qed.

(** C10.  Direct full-screen mode is selected exactly when one of the
    arguments after the program name is the string --no-vnc, and bridged
    mode otherwise; all other arguments are ignored: the run is the one of
    the command line with every other argument struck out. *)
Theorem display_mode_from_arguments (argv : list string) (w : World) :
  useVNC (this (state (main argv w)))
  = negb (bool_decide ("--no-vnc" ∈ drop 1 argv))
  ∧ main argv w
    = main (take 1 argv ++ filter (fun a => a = "--no-vnc") (drop 1 argv)) w.
Proof.
  split.
  - rewrite main_unfold. unfold main_body, bind at 1, setVNCMode, assign.
    pose proof (keeps_main_body_tail
                  (mkMachine
                     (set_useVNC (negb (scan_args (drop 1 argv) false))
                        (this (main_start w)))
                     (world (main_start w)))) as Hk.
    destruct (bind boot _ _) as [o m' e]. norm.
    unfold config in Hk. norm. rewrite <- scan_args_spec. congruence.
  - rewrite !main_unfold. unfold main_body. do 3 f_equal.
    rewrite !scan_args_spec. apply bool_decide_ext.
    destruct argv as [|a0 args]; cbn [take drop app].
    + rewrite filter_nil. done.
    + rewrite !drop_0, take_0. cbn [app]. rewrite list_elem_of_filter. tauto.
Qed.

(** ** Stepping through a method *)

Lemma tool_lookup_ne (written : option (list Byte.byte)) (fs : gmap string node)
    path p :
  p ≠ path ->
  match written with
  | Some data => <[path := File data]> fs
  | None => fs
  end !! p = fs !! p.
Proof. intros. destruct written; [|done]. by rewrite lookup_insert_ne. Qed.

Lemma main_post argv w (Q : outcome -> Machine -> list event -> Prop) :
  wp (main_body argv) (main_start w) Q ->
  Q (value (main argv w)) (state (main argv w)) (events (main argv w)).
Proof. rewrite main_unfold. apply wp_elim. Qed.

Lemma wp_startQEMU_build b q p w (Q : list string -> Machine -> list event -> Prop) :
  Q (layout b (bool_decide (present w "./boot/firmware/OVMF_CODE.fd"))
              (bool_decide (present w "./devices/disk/disk.qcow2"))
              (scan_result "./devices/rom" (w_readdir w "./devices/rom")))
    (mkMachine (std_vm b q p) (build_world w)) (build_events w) ->
  wp buildQEMUCommand
     (mkMachine (mkVM "./devices/disk/disk.qcow2" "./devices/rom"
                      "./boot/firmware/OVMF_CODE.fd" "./libraries/noVNC" b q p) w) Q.
Proof. apply wp_build. Qed.

Ltac not_made := apply (bool_decide_unpack _); vm_compute; exact I.

(** Lookups in a filesystem that directory creation, the disk tool or the
    builder produced, at a path they do not touch. *)
Ltac fs_simpl :=
  unfold present; norm_goal;
  repeat first
    [ rewrite build_world_lookup by done
    | rewrite build_world_forks
    | rewrite build_world_children
    | rewrite build_world_handlers
    | rewrite tool_lookup_ne by done
    | match goal with
      | H : ∀ k, k ∉ made_dirs → ?fs !! k = _ |- context [?fs !! ?p] =>
          rewrite (H p) by not_made
      end ].

(** Conditions whose outcome the context already fixes. *)
Ltac decide_atoms :=
  match goal with
  | H : ¬ ?P |- context [bool_decide ?P] => rewrite (bool_decide_eq_false_2 P H)
  | H : ?P |- context [bool_decide ?P] => rewrite (bool_decide_eq_true_2 P H)
  | H : bool_decide ?P = _ |- context [bool_decide ?P] => rewrite H
  | H : ?s = EmptyString |- context [String.eqb ?s EmptyString] =>
      rewrite (proj2 (String.eqb_eq s EmptyString) H)
  | H : ?s ≠ EmptyString |- context [String.eqb ?s EmptyString] =>
      rewrite (proj2 (String.eqb_neq s EmptyString) H)
  | H : ?x = 0%Z |- context [(?x =? 0)%Z] => rewrite (proj2 (Z.eqb_eq x 0) H)
  | H : ?x ≠ 0%Z |- context [(?x =? 0)%Z] => rewrite (proj2 (Z.eqb_neq x 0) H)
  | H : (0 < ?x)%Z |- context [(0 <? ?x)%Z] => rewrite (proj2 (Z.ltb_lt 0 x) H)
  end.

Ltac split_cond c :=
  lazymatch c with
  | ?x && ?y => first [split_cond x | split_cond y]
  | ?x || ?y => first [split_cond x | split_cond y]
  | negb ?x => split_cond x
  | bool_decide ?P => destruct (bool_decide P) eqn:?
  | (?x =? ?y)%Z => destruct (Z.eqb_spec x y)
  | String.eqb ?s ?t => destruct (String.eqb_spec s t)
  | (?x <? ?y)%Z => destruct (Z.ltb_spec x y)
  | _ => is_var c; destruct c
  end.

Ltac wp_step :=
  lazymatch goal with
  | |- wp (bind (printDebug "Starting Machine..") _) _ _ => fail
  | |- wp (bind _ _) _ _ => apply wp_bind
  | |- wp (ret _) _ _ => apply wp_ret
  | |- wp (field _) _ _ => apply wp_field
  | |- wp (assign _) _ _ => apply wp_assign
  | |- wp (emit _) _ _ => apply wp_emit
  | |- wp (fs_exists _) _ _ => apply wp_fs_exists
  | |- wp (printLog _ _) _ _ => apply wp_printLog
  | |- wp (printDebug _) _ _ => apply wp_printDebug
  | |- wp (sleep _) _ _ => apply wp_sleep
  | |- wp (kill _ _) _ _ => apply wp_kill
  | |- wp (waitpid _) _ _ => apply wp_waitpid
  | |- wp (checkFile _ _) _ _ => apply wp_checkFile
  | |- wp (system (WhichQuiet _)) _ _ => apply wp_which
  | |- wp (system (QemuImgCreate _)) _ _ => apply wp_qemu_img
  | |- wp findISO _ _ => apply wp_findISO
  | |- wp createDirectories _ _ =>
      let fs := fresh "fs" in let log := fresh "log" in
      let Hframe := fresh "Hframe" in let Hlog := fresh "Hlog" in
      apply wp_createDirectories; intros fs log Hframe Hlog
  | |- wp buildQEMUCommand _ _ => apply wp_startQEMU_build
  | |- wp (setVNCMode _) _ _ => unfold setVNCMode
  | |- wp createDefaultDisk _ _ => unfold createDefaultDisk
  | |- wp boot _ _ => unfold boot
  | |- wp startQEMU _ _ => unfold startQEMU
  | |- wp startWebsockify _ _ => unfold startWebsockify
  | |- wp cleanup _ _ => unfold cleanup
  | |- wp (fork _) _ _ => apply wp_fork; [intros ? ? ? ?|]
  | |- wp (main_body _) _ _ => unfold main_body
  | |- wp (launch _ _ _) _ _ => unfold launch
  | |- wp (if ?c then _ else _) _ _ =>
      first [ progress (repeat decide_atoms)
            | split_cond c; try contradiction; try lia ]
  end; cbn beta zeta; fs_simpl.

Ltac wp_steps := repeat wp_step.

(** The postcondition under a name while stepping, and back. *)
Ltac name_post :=
  lazymatch goal with
  | |- wp _ _ ?Q => let P := fresh "Post" in set (P := Q)
  end.
Ltac show_post :=
  repeat match goal with
    | P := _ : _ -> Machine -> list event -> Prop |- _ => subst P
    end;
  cbn beta.

(** At the end of the checks: name what remains of [boot]. *)
Ltac at_launch :=
  lazymatch goal with
  | |- wp (bind (printDebug "Starting Machine..") _) ?m ?Q =>
      let v := eval cbn in (useVNC (this m)) in
      first [ change (wp (launch true "./devices/disk/disk.qcow2" v) m Q)
            | change (wp (launch false "./devices/disk/disk.qcow2" v) m Q) ]
  end.

(** Whatever the launches do. *)
Ltac any_launch :=
  at_launch; apply wp_intro;
  lazymatch goal with
  | |- context [value (launch ?i ?d ?v ?m)] =>
      generalize (value (launch i d v m)) (state (launch i d v m))
                 (events (launch i d v m));
      intros ? ? ?
  end; cbn beta.


(** ** Reading event lists *)

Lemma forks_of_app l1 l2 : forks_of (l1 ++ l2) = forks_of l1 ++ forks_of l2.
Proof. unfold forks_of. by rewrite flat_map_app. Qed.

Lemma forks_of_outputs l : Forall is_output l -> forks_of l = [].
Proof.
  induction 1 as [|e l He _ IH]; [done|].
  cbn [forks_of flat_map]. fold (forks_of l). rewrite IH. by destruct e.
Qed.

Lemma forks_of_scan rom l : forks_of (scan_events rom l) = [].
Proof. apply forks_of_outputs, scan_events_output. Qed.

Lemma forks_of_build w : forks_of (build_events w) = [].
Proof. apply forks_of_outputs, build_events_output. Qed.

Lemma elem_fork child r l : Fork child r ∈ l ↔ (child, r) ∈ forks_of l.
Proof.
  unfold forks_of. rewrite !list_elem_of_In, in_flat_map. split.
  - intros H. exists (Fork child r). split; [done|]. by left.
  - intros (e & He & Hin). destruct e; try done.
    destruct Hin as [Heq|[]]. by simplify_eq.
Qed.

Lemma no_forks l : forks_of l = [] -> ∀ child r, Fork child r ∉ l.
Proof. intros H child r Hin%elem_fork. rewrite H in Hin. by apply elem_of_nil in Hin. Qed.

Lemma forks_of_cons e l :
  forks_of (e :: l)
  = match e with
    | Fork child r => [(child, r)]
    | _ => []
    end ++ forks_of l.
Proof. reflexivity. Qed.

Lemma forks_of_nil : forks_of [] = [].
Proof. reflexivity. Qed.

(** The forks of an explicit event list. *)
Ltac forks_norm :=
  repeat first
    [ rewrite forks_of_app
    | rewrite forks_of_cons
    | rewrite forks_of_nil
    | rewrite forks_of_scan
    | rewrite forks_of_build
    | match goal with
      | H : Forall is_output ?l |- context [forks_of ?l] =>
          rewrite (forks_of_outputs l H)
      end ];
  cbn [app].

(** Membership in an explicit event list. *)
Ltac in_list :=
  lazymatch goal with
  | |- _ ∈ _ :: _ =>
      (apply list_elem_of_here) + (apply list_elem_of_further; in_list)
  | |- _ ∈ _ ++ _ =>
      apply elem_of_app; ((left; in_list) + (right; in_list))
  end.

Lemma occurs_here e1 e2 l : e2 ∈ l -> occurs_before e1 e2 (e1 :: l).
Proof. intros H. apply occurs_before_cons. by left. Qed.

Lemma occurs_further e1 e2 x l : occurs_before e1 e2 l -> occurs_before e1 e2 (x :: l).
Proof. intros H. apply occurs_before_cons. by right. Qed.

Lemma occurs_app_r e1 e2 l1 l2 : occurs_before e1 e2 l2 -> occurs_before e1 e2 (l1 ++ l2).
Proof.
  intros (k1 & k2 & k3 & ->). exists (l1 ++ k1), k2, k3. by rewrite <- app_assoc.
Qed.

Lemma occurs_app_l e1 e2 l1 l2 : occurs_before e1 e2 l1 -> occurs_before e1 e2 (l1 ++ l2).
Proof.
  intros (k1 & k2 & k3 & ->). exists k1, k2, (k3 ++ l2).
  by rewrite <- !app_assoc, <- !app_comm_cons, <- !app_assoc.
Qed.

Ltac occurs :=
  lazymatch goal with
  | |- occurs_before _ _ (_ :: _) =>
      (apply occurs_here; in_list) + (apply occurs_further; occurs)
  | |- occurs_before _ _ (_ ++ _) =>
      (apply occurs_app_l; occurs) + (apply occurs_app_r; occurs)
  end.

(** C4.  With no disk image, no installation image found by the scan and a
    failing disk tool, the program reports that nothing can be booted and
    exits with status 1; no fork is ever made and the table of children is
    as it was. *)
Theorem no_source_no_boot (argv : list string) (w : World) :
  ¬ present w "./devices/disk/disk.qcow2" ->
  value (findISO (session true w)) = EmptyString ->
  (w_qemu_img w "./devices/disk/disk.qcow2").1 ≠ 0%Z ->
  value (main argv w) = Exited 1
  ∧ Stdout "[ERROR] No disk or ISO available!" ∈ events (main argv w)
  ∧ (∀ child r, Fork child r ∉ events (main argv w))
  ∧ w_children (world (state (main argv w))) = w_children w.
Proof.
  intros Hdisk Hiso Htool. rewrite findISO_session in Hiso.
  apply (main_post argv w (fun v m e =>
    v = Exited 1
    ∧ Stdout "[ERROR] No disk or ISO available!" ∈ e
    ∧ (∀ child r, Fork child r ∉ e)
    ∧ w_children (world m) = w_children w)).
  unfold present in *. name_post. wp_steps. show_post.
  split; [done|]. split; [in_list|]. split; [|done].
  apply no_forks. forks_norm. done.
Qed.

Lemma bridged_scan argv :
  "--no-vnc" ∉ drop 1 argv -> scan_args (drop 1 argv) false = false.
Proof. intros H. rewrite scan_args_spec. by apply bool_decide_eq_false_2. Qed.

(** C5.  In bridged mode (no --no-vnc argument), when the web assets are
    missing or the bridge executable is not found, the program exits with
    status 1 without a single fork, whatever disk or installation image
    there is. *)
Theorem bridged_needs_delivery_chain (argv : list string) (w : World) :
  "--no-vnc" ∉ drop 1 argv ->
  ¬ present w "./libraries/noVNC" ∨ w_which w "websockify" ≠ 0%Z ->
  value (main argv w) = Exited 1
  ∧ (∀ child r, Fork child r ∉ events (main argv w))
  ∧ w_children (world (state (main argv w))) = w_children w.
Proof.
  intros Hmode%bridged_scan Hdep.
  apply (main_post argv w (fun v m e =>
    v = Exited 1 ∧ (∀ child r, Fork child r ∉ e)
    ∧ w_children (world m) = w_children w)).
  unfold main_body. rewrite Hmode. unfold present in *. name_post.
  destruct Hdep as [Hassets|Hwhich]; wp_steps; show_post;
    (split; [done|]; split; [|done]; apply no_forks; forks_norm; done).
Qed.

(** C9.  In bridged mode with no disk image, when the disk tool succeeds or
    an installation image is found, the disk tool runs before the search for
    the bridge executable; if the web assets or the bridge executable are
    then missing, the program exits with status 1 without a fork, and the
    image file the tool wrote, if it wrote one, is still there. *)
Theorem disk_created_before_dependency_check (argv : list string) (w : World) :
  "--no-vnc" ∉ drop 1 argv ->
  ¬ present w "./devices/disk/disk.qcow2" ->
  (w_qemu_img w "./devices/disk/disk.qcow2").1 = 0%Z
    ∨ value (findISO (session true w)) ≠ EmptyString ->
  occurs_before
    (System (command_line (QemuImgCreate "./devices/disk/disk.qcow2"))
            (w_qemu_img w "./devices/disk/disk.qcow2").1)
    (System (command_line (WhichQuiet "websockify")) (w_which w "websockify"))
    (events (main argv w))
  ∧ (¬ present w "./libraries/noVNC" ∨ w_which w "websockify" ≠ 0%Z ->
     value (main argv w) = Exited 1
     ∧ Stdout "[ERROR] Required libraries not found for VNC mode!"
         ∈ events (main argv w)
     ∧ (∀ child r, Fork child r ∉ events (main argv w))
     ∧ ∀ data, (w_qemu_img w "./devices/disk/disk.qcow2").2 = Some data ->
               w_fs (world (state (main argv w))) !! "./devices/disk/disk.qcow2"
               = Some (File data)).
Proof.
  intros Hmode%bridged_scan Hdisk Hreach. rewrite findISO_session in Hreach.
  apply (main_post argv w (fun v m e =>
    occurs_before
      (System (command_line (QemuImgCreate "./devices/disk/disk.qcow2"))
              (w_qemu_img w "./devices/disk/disk.qcow2").1)
      (System (command_line (WhichQuiet "websockify")) (w_which w "websockify")) e
    ∧ (¬ present w "./libraries/noVNC" ∨ w_which w "websockify" ≠ 0%Z ->
       v = Exited 1
       ∧ Stdout "[ERROR] Required libraries not found for VNC mode!" ∈ e
       ∧ (∀ child r, Fork child r ∉ e)
       ∧ ∀ data, (w_qemu_img w "./devices/disk/disk.qcow2").2 = Some data ->
                 w_fs (world m) !! "./devices/disk/disk.qcow2" = Some (File data)))).
  unfold main_body. rewrite Hmode. unfold present in *. name_post.
  wp_steps.
  all: try (destruct Hreach; congruence).
  all: try (any_launch; wp_steps).
  all: show_post; split; [occurs|]; intros Hdep.
  all: try (exfalso; destruct Hdep as [Hd|Hd]; [|congruence];
            match goal with
            | H : bool_decide _ = true |- _ =>
                apply bool_decide_eq_true in H; contradiction
            end).
  all: split; [done|]; split; [in_list|]; split;
    [apply no_forks; forks_norm; done|].
  all: intros data Hdata; rewrite Hdata; apply lookup_insert_eq.
Qed.

(** ** Rollback of a half-started pair *)

Ltac inv_elems :=
  repeat match goal with
    | H : _ ∈ _ :: _ |- _ => apply elem_of_cons in H as [H|H]
    | H : _ ∈ [] |- _ => by apply elem_of_nil in H
    end.

Ltac ends_with :=
  first [ reflexivity
        | apply suffix_cons_r; ends_with
        | apply suffix_app_r; ends_with ].

Lemma launch_rollback isoOk b w :
  w_children w = [] ->
  wp (launch isoOk "./devices/disk/disk.qcow2" b) (mkMachine (std_vm b (-1) (-1)) w)
     (fun v m' e =>
        ∀ c q sh,
          (Execvp c, q) ∈ forks_of e -> (0 < q)%Z ->
          (ShellC sh, (-1)%Z) ∈ forks_of e ->
          v = false ∧ w_children (world m') = []
          ∧ [Kill q SIGTERM; Waitpid q] `suffix_of` e).
Proof.
  intros Hcs. name_post.
  destruct isoOk; unfold launch; apply wp_bind.
  all: wp_steps.
  all: show_post; rewrite ?Hcs; cbn [app];
    forks_norm; intros c q sh Hemu Hq Hbridge; inv_elems; simplify_eq; try lia.
  all: split; [done|]; split;
    [ rewrite filter_cons_False by (cbn; intros Hne; by apply Hne); apply filter_nil
    | ends_with ].
Qed.

(** C3.  When the emulator's fork succeeds with pid [q] and the bridge's
    fork fails, the emulator is sent the termination signal and reaped
    before the failure is reported: these are the last events before the
    final error line, the program exits with status 1, and no child of a
    session that started with none is left. *)
Theorem bridge_failure_rolls_back (argv : list string) (w : World)
    (c : list string) (q : Z) (sh : string) :
  w_children w = [] ->
  Fork (Execvp c) q ∈ events (main argv w) -> (0 < q)%Z ->
  Fork (ShellC sh) (-1) ∈ events (main argv w) ->
  value (main argv w) = Exited 1
  ∧ w_children (world (state (main argv w))) = []
  ∧ [Kill q SIGTERM; Waitpid q; Stderr "[ERROR] Failed to boot virtual machine!"]
      `suffix_of` events (main argv w).
Proof.
  intros Hcs Hemu%elem_fork Hq Hbridge%elem_fork. revert Hemu Hq Hbridge.
  set (Post := fun (v : outcome) (m : Machine) (e : list event) =>
    (Execvp c, q) ∈ forks_of e -> (0 < q)%Z -> (ShellC sh, (-1)%Z) ∈ forks_of e ->
    v = Exited 1 ∧ w_children (world m) = []
    ∧ [Kill q SIGTERM; Waitpid q; Stderr "[ERROR] Failed to boot virtual machine!"]
        `suffix_of` e).
  apply (main_post argv w Post).
  unfold main_body. generalize (negb (scan_args (drop 1 argv) false)) as b. intros b.
  wp_steps.
  all: try (at_launch; eapply wp_mono; [by apply launch_rollback|];
            intros v m' e' Hroll; cbn beta; wp_steps).
  all: show_post; forks_norm; rewrite ?app_nil_r;
    intros Hemu Hq Hbridge; try (by apply elem_of_nil in Hemu).
  all: destruct (Hroll c q sh Hemu Hq Hbridge) as (Hv & Hch & Hsuf); try done.
  all: split; [done|]; split; [done|].
  all: change [Kill q SIGTERM; Waitpid q;
               Stderr "[ERROR] Failed to boot virtual machine!"]
         with ([Kill q SIGTERM; Waitpid q]
               ++ [Stderr "[ERROR] Failed to boot virtual machine!"]);
    repeat apply suffix_cons_r; apply suffix_app;
    repeat first [exact Hsuf | apply suffix_cons_r | apply suffix_app_r].
Qed.

(** ** Signals *)

Lemma idle_run n m : idle n m = Res tt m (replicate n (Sleep 1)).
Proof.
  induction n as [|n IH]; [done|].
  cbn [idle replicate]. unfold bind, sleep, emit. by rewrite IH.
Qed.

Lemma main_handlers argv w :
  w_handlers (world (state (main argv w))) = SIGTERM :: SIGINT :: w_handlers w.
Proof.
  rewrite main_unfold. unfold main_body, bind at 1, setVNCMode, assign.
  pose proof (keeps_main_body_tail
                (mkMachine
                   (set_useVNC (negb (scan_args (drop 1 argv) false))
                      (this (main_start w)))
                   (world (main_start w)))) as Hk.
  destruct (bind boot _ _) as [o m' e]. norm.
  unfold config in Hk. norm. congruence.
Qed.

(** Once [main] is in its loop, an interrupt or termination signal makes
    the handler print its line and exit with status 0: after the [n] turns
    of the loop nothing but that line happens, [cleanup] is not run, and the
    machine, its table of children included, is left as it was. *)
Lemma signal_exits_without_teardown (argv : list string) (n : nat)
    (sig : signal) (w : World) :
  value (main argv w) = Running ->
  sig = SIGINT ∨ sig = SIGTERM ->
  value (run argv n sig w) = Exited 0
  ∧ state (run argv n sig w) = state (main argv w)
  ∧ events (run argv n sig w)
    = events (main argv w) ++ replicate n (Sleep 1)
      ++ [Stdout (newline +:+ "[INFO] Shutting down gracefully...")].
Proof.
  intros Hrun Hsig. unfold run.
  pose proof (main_handlers argv w) as Hh.
  destruct (main argv w) as [o m e]. norm. subst o.
  unfold bind. rewrite idle_run. unfold deliver.
  rewrite bool_decide_eq_true_2.
  - unfold signalHandler, bind, emit, ret. norm. done.
  - rewrite Hh. destruct Hsig as [-> | ->]; [by right; left | by left].
Qed.

(** C2 fails on the full host.  The bridged boot reaches its loop with both
    children live (pids 100 and 101); the termination signal then ends the
    program with status 0, and the whole run contains no signal sent to a
    child and no child reaped: both are still in the table at exit. *)
Theorem signal_exits_leave_children :
  value (main ["computer"] full_host) = Running
  ∧ value (run ["computer"] 2 SIGTERM full_host) = Exited 0
  ∧ (w_children (world (state (run ["computer"] 2 SIGTERM full_host)))).*1
    = [100%Z; 101%Z]
  ∧ existsb is_teardown (events (run ["computer"] 2 SIGTERM full_host)) = false.
Proof. repeat split; by vm_compute. Qed.

(** ** The theorems at the sample hosts *)

Ltac by_evaluation := apply (bool_decide_unpack _); vm_compute; exact I.

Lemma bridge_failure_rolls_back_witness :
  w_children one_fork_host = []
  ∧ Fork (Execvp full_command) 100 ∈ events (main ["computer"] one_fork_host)
  ∧ (0 < 100)%Z
  ∧ Fork (ShellC "websockify --web=./libraries/noVNC 8080 localhost:5901") (-1)
      ∈ events (main ["computer"] one_fork_host)
  ∧ value (main ["computer"] one_fork_host) = Exited 1
  ∧ w_children (world (state (main ["computer"] one_fork_host))) = []
  ∧ [Kill 100 SIGTERM; Waitpid 100;
     Stderr "[ERROR] Failed to boot virtual machine!"]
      `suffix_of` events (main ["computer"] one_fork_host).
Proof.
  split; [reflexivity|]. split; [by_evaluation|]. split; [lia|].
  split; [by_evaluation|].
  apply (bridge_failure_rolls_back ["computer"] one_fork_host full_command 100
           "websockify --web=./libraries/noVNC 8080 localhost:5901");
    [reflexivity | by_evaluation | lia | by_evaluation].
Defined.

Lemma no_source_no_boot_witness :
  ¬ present bare_host "./devices/disk/disk.qcow2"
  ∧ value (findISO (session true bare_host)) = EmptyString
  ∧ (w_qemu_img bare_host "./devices/disk/disk.qcow2").1 ≠ 0%Z
  ∧ value (main ["computer"] bare_host) = Exited 1
  ∧ Stdout "[ERROR] No disk or ISO available!" ∈ events (main ["computer"] bare_host)
  ∧ (∀ child r, Fork child r ∉ events (main ["computer"] bare_host))
  ∧ w_children (world (state (main ["computer"] bare_host))) = w_children bare_host.
Proof.
  split; [by_evaluation|]. split; [reflexivity|]. split; [by_evaluation|].
  apply (no_source_no_boot ["computer"] bare_host);
    [by_evaluation | reflexivity | by_evaluation].
Defined.

Lemma bridged_needs_delivery_chain_witness :
  ("--no-vnc" ∉ drop 1 ["computer"])
  ∧ (¬ present no_assets_host "./libraries/noVNC"
     ∨ w_which no_assets_host "websockify" ≠ 0%Z)
  ∧ present no_assets_host "./devices/disk/disk.qcow2"
  ∧ value (main ["computer"; "--no-vnc"] no_assets_host) = Running
  ∧ Stdout "[ERROR] Required libraries not found for VNC mode!"
      ∈ events (main ["computer"] no_assets_host)
  ∧ value (main ["computer"] no_assets_host) = Exited 1
  ∧ (∀ child r, Fork child r ∉ events (main ["computer"] no_assets_host))
  ∧ w_children (world (state (main ["computer"] no_assets_host)))
    = w_children no_assets_host.
Proof.
  split; [by_evaluation|]. split; [left; by_evaluation|].
  split; [by_evaluation|]. split; [by vm_compute|]. split; [by_evaluation|].
  apply (bridged_needs_delivery_chain ["computer"] no_assets_host);
    [by_evaluation | left; by_evaluation].
Defined.


Lemma build_omits_unavailable_witness :
  ¬ present bare_host "./boot/firmware/OVMF_CODE.fd"
  ∧ value (findISO (session true bare_host)) = EmptyString
  ∧ (∀ t, t ∈ value (buildQEMUCommand (session true bare_host)) ->
          String.prefix "if=pflash" t = false)
  ∧ ("-cdrom" ∉ value (buildQEMUCommand (session true bare_host)))
  ∧ paired (drop 2 (value (buildQEMUCommand (session true bare_host)))) = true.
Proof.
  assert (¬ present bare_host "./boot/firmware/OVMF_CODE.fd") as Hfw
    by by_evaluation.
  split; [exact Hfw|]. split; [reflexivity|].
  destruct (build_omits_unavailable true bare_host) as (Hflash & Hcdrom & Hpairs).
  split; [exact (proj1 (Hflash Hfw))|]. split; [exact (Hcdrom eq_refl)|].
  exact Hpairs.
Defined.

Lemma disk_created_before_dependency_check_witness :
  ("--no-vnc" ∉ drop 1 ["computer"])
  ∧ ¬ present diskless_host "./devices/disk/disk.qcow2"
  ∧ (w_qemu_img diskless_host "./devices/disk/disk.qcow2").1 = 0%Z
  ∧ w_which diskless_host "websockify" ≠ 0%Z
  ∧ value (main ["computer"] diskless_host) = Exited 1
  ∧ (w_fs (world (state (main ["computer"] diskless_host)))
       !! "./devices/disk/disk.qcow2")
    = Some (File [Byte.x51; Byte.x46; Byte.x49]).
Proof.
  assert ("--no-vnc" ∉ drop 1 ["computer"]) as Hmode by by_evaluation.
  assert (¬ present diskless_host "./devices/disk/disk.qcow2") as Hdisk
    by by_evaluation.
  assert (w_which diskless_host "websockify" ≠ 0%Z) as Hwhich by by_evaluation.
  split; [exact Hmode|]. split; [exact Hdisk|]. split; [reflexivity|].
  split; [exact Hwhich|].
  destruct (disk_created_before_dependency_check ["computer"] diskless_host
              Hmode Hdisk (or_introl eq_refl)) as (_ & Hfail).
  destruct (Hfail (or_intror Hwhich)) as (Hexit & _ & _ & Hkept).
  split; [exact Hexit|]. exact (Hkept _ eq_refl).
Defined.

(** * Further properties *)


(** ** Paths and the names that count as images *)

Lemma rfind_suffix_None c s : rfind_suffix c s = None ↔ c ∉ chars s.
Proof.
  induction s as [|a s IH]; cbn [rfind_suffix chars String.list_ascii_of_string].
  - split; [intros _; apply not_elem_of_nil|done].
  - fold (chars s). rewrite not_elem_of_cons.
    destruct (rfind_suffix c s) as [t|].
    + split; [done|]. intros [_ H]. by apply IH in H.
    + destruct (Ascii.eqb_spec a c) as [->|Hne].
      * split; [done|]. by intros [H _].
      * split; [|done]. intros _. split; [congruence|]. by apply IH.
Qed.

Lemma rfind_suffix_last c pre t :
  c ∉ chars t -> rfind_suffix c (pre +:+ String c t) = Some (String c t).
Proof.
  intros Ht. induction pre as [|a pre IH].
  - apply rfind_suffix_None in Ht. change (EmptyString +:+ String c t) with (String c t).
    cbn [rfind_suffix]. rewrite Ht. by rewrite Ascii.eqb_refl.
  - change (String a pre +:+ String c t) with (String a (pre +:+ String c t)).
    cbn [rfind_suffix]. by rewrite IH.
Qed.

Lemma rfind_suffix_Some c s t :
  rfind_suffix c s = Some t ->
  ∃ pre t', t = String c t' ∧ s = pre +:+ t ∧ c ∉ chars t'.
Proof.
  revert t. induction s as [|a s IH]; intros t; cbn [rfind_suffix]; [done|].
  destruct (rfind_suffix c s) as [u|] eqn:Hu.
  - intros [= <-]. destruct (IH u eq_refl) as (pre & t' & -> & -> & Ht').
    by exists (String a pre), t'.
  - destruct (Ascii.eqb_spec a c) as [->|Hne]; [|done].
    intros [= <-]. exists EmptyString, s. split; [done|]. split; [done|].
    by apply rfind_suffix_None.
Qed.

(** X1.  Joining a directory and an entry name and taking the file name
    gives the entry name back, and the extension of the joined path is the
    extension of the entry name alone, whatever periods or separators the
    directory part contains. *)
Theorem entry_path_name_and_extension (dir n : string) :
  "/"%char ∉ chars n ->
  filename (dir +:+ "/" +:+ n) = n
  ∧ extension (dir +:+ "/" +:+ n) = name_extension n.
Proof.
  intros Hn.
  assert (filename (dir +:+ "/" +:+ n) = n) as Hfile.
  { unfold filename. change ("/" +:+ n) with (String "/"%char n).
    by rewrite rfind_suffix_last. }
  split; [exact Hfile|]. unfold extension. by rewrite Hfile.
Qed.

Lemma append_length s t : String.length (s +:+ t) = (String.length s + String.length t)%nat.
Proof. induction s as [|a s IH]; [done|]. simpl. by f_equal. Qed.

(** X2.  An entry name counts as an image exactly when it is a non-empty
    stem followed by the four characters .iso: the match is on the last
    extension only and is case-sensitive, and a file named just .iso has no
    extension at all. *)
Theorem image_name_spec (n : string) :
  name_extension n = ".iso" ↔ ∃ stem, stem ≠ EmptyString ∧ n = stem +:+ ".iso".
Proof.
  split.
  - unfold name_extension.
    destruct (String.eqb n "." || String.eqb n ".."); [done|].
    destruct n as [|a rest]; [done|].
    destruct (rfind_suffix "."%char rest) as [t|] eqn:Ht; [|done].
    intros ->. apply rfind_suffix_Some in Ht as (pre & t' & _ & -> & _).
    exists (String a pre). split; [done|]. reflexivity.
  - intros (stem & Hstem & ->). unfold name_extension.
    destruct stem as [|a stem]; [done|].
    assert (String.length (String a stem +:+ ".iso") ≥ 5)%nat as Hlen.
    { rewrite append_length. cbn. lia. }
    destruct (String.eqb_spec (String a stem +:+ ".iso") ".") as [E|_];
      [rewrite E in Hlen; cbn in Hlen; lia|].
    destruct (String.eqb_spec (String a stem +:+ ".iso") "..") as [E|_];
      [rewrite E in Hlen; cbn in Hlen; lia|].
    cbn [orb].
    change (String a stem +:+ ".iso") with (String a (stem +:+ String "."%char "iso")).
    cbv iota.
    rewrite rfind_suffix_last; [done|].
    apply (bool_decide_unpack _). by vm_compute.
Qed.

(** ** The media scan: the first image in iteration order *)

Lemma extension_join dir n :
  "/"%char ∉ chars n -> extension (dir +:+ "/" +:+ n) = name_extension n.
Proof.
  intros Hn. unfold extension, filename.
  change ("/" +:+ n) with (String "/"%char n). by rewrite rfind_suffix_last.
Qed.

Lemma entry_name dir n :
  "/"%char ∉ chars n ->
  filename (dir +:+ "/" +:+ n) = n ∧ extension (dir +:+ "/" +:+ n) = name_extension n.
Proof.
  intros Hn. split; [|by apply extension_join].
  unfold filename. change ("/" +:+ n) with (String "/"%char n).
  by rewrite rfind_suffix_last.
Qed.

Lemma find_image_skip rom pre l :
  Forall (fun k => "/"%char ∉ chars k) pre ->
  Forall (fun k => name_extension k ≠ ".iso") pre ->
  find (fun p => String.eqb (extension p) ".iso")
       (map (fun n => rom +:+ "/" +:+ n) (pre ++ l))
  = find (fun p => String.eqb (extension p) ".iso")
         (map (fun n => rom +:+ "/" +:+ n) l).
Proof.
  induction 1 as [|k pre Hk _ IH]; [done|]. intros [Hext Hrest]%Forall_cons.
  cbn [app map find]. rewrite extension_join by done.
  rewrite (proj2 (String.eqb_neq _ _) Hext). by apply IH.
Qed.

(** X3.  The scan returns the first entry, in iteration order, whose name
    has the image extension, as a path under the media directory; it prints
    its one debug line and stops there: an error the iteration would have
    raised after that entry is never seen. *)
Theorem findISO_first_image (m : Machine) (pre : list string) (n : string)
    (post : list string) (err : option string) :
  w_readdir (world m) (romPath (this m)) = (pre ++ n :: post, err) ->
  Forall (fun k => "/"%char ∉ chars k) (pre ++ [n]) ->
  Forall (fun k => name_extension k ≠ ".iso") pre ->
  name_extension n = ".iso" ->
  findISO m = Res (romPath (this m) +:+ "/" +:+ n) m
                  [Stdout "[DEBUG] Checking for ISO files..."].
Proof.
  intros Hdir [Hpre [Hn _]%Forall_cons]%Forall_app Hskip Hext.
  rewrite findISO_run. unfold scan_result, scan_events. rewrite Hdir. cbn [fst snd].
  rewrite find_image_skip by done. cbn [map find].
  rewrite extension_join, Hext by done. reflexivity.
Qed.

(** X4.  When no entry has the image extension the scan returns the empty
    string, and an error raised by the iteration is not fatal: it costs one
    more debug line that carries the error text, the result is the same and
    nothing is changed. *)
Theorem findISO_nothing_found (m : Machine) (names : list string)
    (err : option string) :
  w_readdir (world m) (romPath (this m)) = (names, err) ->
  Forall (fun k => "/"%char ∉ chars k) names ->
  Forall (fun k => name_extension k ≠ ".iso") names ->
  findISO m
  = Res EmptyString m
        (Stdout "[DEBUG] Checking for ISO files..."
         :: match err with
            | Some what => [Stdout ("[DEBUG] Error checking ROM directory: " +:+ what)]
            | None => []
            end).
Proof.
  intros Hdir Hnames Hskip.
  rewrite findISO_run. unfold scan_result, scan_events. rewrite Hdir. cbn [fst snd].
  rewrite <- (app_nil_r names), find_image_skip by done. cbn [map find].
  by destruct err.
Qed.

(** ** The builder and the filesystem *)

(** X9.  Building the command changes nothing but the variable store: the
    object, the process table and every other path are as before, only
    lines are printed, and without the firmware image not even the store is
    written. *)
Theorem build_touches_only_vars (bridged : bool) (w : World) :
  ∃ fs',
    state (buildQEMUCommand (session bridged w))
    = mkMachine (this (session bridged w)) (set_fs fs' w)
    ∧ (∀ p, p ≠ varsPath -> fs' !! p = w_fs w !! p)
    ∧ (¬ present w "./boot/firmware/OVMF_CODE.fd" -> fs' = w_fs w)
    ∧ Forall is_output (events (buildQEMUCommand (session bridged w))).
Proof.
  rewrite session_std, build_run. norm. exists (w_fs (build_world w)).
  split; [|split; [|split]].
  - unfold build_world. destruct (writes_vars w); by destruct w.
  - intros p Hp. by apply build_world_lookup.
  - intros Hfw. unfold build_world, writes_vars, tries_vars.
    by rewrite (bool_decide_eq_false_2 _ Hfw).
  - apply build_events_output.
Qed.

(** ** Teardown, again *)

(** X11.  [cleanup] does not reset the pid fields: after it they hold what
    they held before, so a second [cleanup] sends the same signals to the
    same pids again, and the children table it leaves is already the one the
    first call left. *)
Theorem cleanup_keeps_pids (m : Machine) :
  this (state (cleanup m)) = this m
  ∧ events (cleanup (state (cleanup m))) = events (cleanup m)
  ∧ state (cleanup (state (cleanup m))) = state (cleanup m).
Proof.
  destruct m as [vm [fs cs hs fk rd qi wh wt dn]].
  rewrite cleanup_run. norm. rewrite cleanup_run. norm.
  split; [done|]. split; [done|]. unfold set_children. norm. do 2 f_equal.
  rewrite !list_filter_filter. apply list_filter_iff. intros c. tauto.
Qed.

(** X12.  On an object whose two pid fields hold the sentinel, [cleanup]
    does nothing at all: no signal, no reaping, the same machine. *)
Theorem cleanup_without_children (m : Machine) :
  qemuPid (this m) = (-1)%Z -> websockifyPid (this m) = (-1)%Z ->
  cleanup m = Res tt m [].
Proof.
  intros Hq Hb. destruct m as [vm w]. norm. rewrite cleanup_run.
  rewrite (bool_decide_eq_true_2 _ Hq), (bool_decide_eq_true_2 _ Hb). norm.
  rewrite !filter_all by (intros c; by left). by destruct w.
Qed.

(** ** The bridge and the disk, one method at a time *)

(** X10.  [startWebsockify] forks nothing in two cases: in direct mode it
    reports success at once and prints nothing; in bridged mode without the
    web assets it reports failure.  Either way the machine is as before. *)
Theorem startWebsockify_without_fork (m : Machine) :
  useVNC (this m) = false ∨ ¬ present (world m) (noVNCPath (this m)) ->
  value (startWebsockify m) = negb (useVNC (this m))
  ∧ state (startWebsockify m) = m
  ∧ Forall is_output (events (startWebsockify m))
  ∧ (useVNC (this m) = false -> events (startWebsockify m) = []).
Proof.
  intros Hcase. unfold startWebsockify, bind, field, fs_exists, observe, printLog,
    emit, ret. norm.
  destruct (useVNC (this m)); norm.
  - destruct Hcase as [?|Hassets]; [done|].
    rewrite (bool_decide_eq_false_2 _ Hassets). norm.
    split; [done|]. split; [done|]. split; [|done]. repeat constructor.
  - done.
Qed.

(** X8.  [createDefaultDisk] never touches a disk image that is there, and
    otherwise reports exactly what the disk tool's exit status says: the
    tool is run once, the method returns whether the status was 0, and no
    path but the disk image's is changed. *)
Theorem createDefaultDisk_follows_tool (m : Machine) :
  (present (world m) (diskPath (this m)) -> createDefaultDisk m = Res true m [])
  ∧ (¬ present (world m) (diskPath (this m)) ->
     value (createDefaultDisk m)
     = bool_decide ((w_qemu_img (world m) (diskPath (this m))).1 = 0%Z)
     ∧ commands (events (createDefaultDisk m))
       = [System (command_line (QemuImgCreate (diskPath (this m))))
            (w_qemu_img (world m) (diskPath (this m))).1]
     ∧ this (state (createDefaultDisk m)) = this m
     ∧ w_fs (world (state (createDefaultDisk m))) !! diskPath (this m)
       = File <$> (w_qemu_img (world m) (diskPath (this m))).2
     ∧ ∀ p, p ≠ diskPath (this m) ->
            w_fs (world (state (createDefaultDisk m))) !! p = w_fs (world m) !! p).
Proof.
  unfold createDefaultDisk, bind, field, fs_exists, observe, printLog, emit, ret,
    system. norm. split.
  - intros Hdisk. by rewrite (bool_decide_eq_true_2 _ Hdisk).
  - intros Hdisk. rewrite (bool_decide_eq_false_2 _ Hdisk). norm.
    destruct (w_qemu_img (world m) (diskPath (this m))) as [status written]. norm.
    destruct (Z.eqb_spec status 0) as [Hst|Hst]; norm.
    + rewrite (bool_decide_eq_true_2 _ Hst).
      split; [done|]. split; [done|]. split; [done|]. split.
      * destruct written; [apply lookup_insert_eq|]. by apply eq_None_not_Some.
      * intros p Hp. by apply tool_lookup_ne.
    + rewrite (bool_decide_eq_false_2 _ Hst).
      split; [done|]. split; [done|]. split; [done|]. split.
      * destruct written; [apply lookup_insert_eq|]. by apply eq_None_not_Some.
      * intros p Hp. by apply tool_lookup_ne.
Qed.

(** ** The builder and the scan together *)

Lemma scan_result_first rom pre n post err :
  Forall (fun k => "/"%char ∉ chars k) (pre ++ [n]) ->
  Forall (fun k => name_extension k ≠ ".iso") pre ->
  name_extension n = ".iso" ->
  scan_result rom (pre ++ n :: post, err) = rom +:+ "/" +:+ n.
Proof.
  intros [Hpre [Hn _]%Forall_cons]%Forall_app Hskip Hext.
  unfold scan_result. cbn [fst]. rewrite find_image_skip by done. cbn [map find].
  by rewrite extension_join, Hext.
Qed.

(** X27.  When the first image of the media directory is the entry [n],
    the builder passes its path under the media directory as the value of
    the cdrom option and reports the image by its bare name [n] in its
    log line. *)
Theorem build_names_found_image (bridged : bool) (w : World)
    (pre : list string) (n : string) (post : list string) (err : option string) :
  w_readdir w "./devices/rom" = (pre ++ n :: post, err) ->
  Forall (fun k => "/"%char ∉ chars k) (pre ++ [n]) ->
  Forall (fun k => name_extension k ≠ ".iso") pre ->
  name_extension n = ".iso" ->
  Stdout ("[INFO] ISO found: " +:+ n)
    ∈ events (buildQEMUCommand (session bridged w))
  ∧ ∃ i, value (buildQEMUCommand (session bridged w)) !! i = Some "-cdrom"
       ∧ value (buildQEMUCommand (session bridged w)) !! S i
         = Some ("./devices/rom/" +:+ n).
Proof.
  intros Hdir Hnames Hskip Hext.
  rewrite session_std, build_run. norm. unfold build_events.
  rewrite Hdir, (scan_result_first "./devices/rom" pre n post err) by done.
  change ("./devices/rom" +:+ "/" +:+ n) with ("./devices/rom/" +:+ n).
  split.
  - rewrite !elem_of_app. right. right.
    change (String.eqb ("./devices/rom/" +:+ n) EmptyString) with false. cbv iota.
    assert (filename ("./devices/rom/" +:+ n) = n) as ->.
    { apply Forall_app in Hnames as [_ [Hn _]%Forall_cons].
      destruct (entry_name "./devices/rom" n Hn) as [Hfile _]. exact Hfile. }
    by left.
  - unfold layout.
    change (String.eqb ("./devices/rom/" +:+ n) EmptyString) with false. cbv iota.
    exists (10 + (if bridged then 4 else 2)
            + (if bool_decide (present w "./boot/firmware/OVMF_CODE.fd") then 4 else 0)
            + (if bool_decide (present w "./devices/disk/disk.qcow2") then 2 else 0))%nat.
    destruct bridged,
      (bool_decide (present w "./boot/firmware/OVMF_CODE.fd")),
      (bool_decide (present w "./devices/disk/disk.qcow2"));
      split; reflexivity.
Qed.

(** ** Directory creation: what it adds, when it fails, running it twice *)

Lemma mkdir_fold_false denied chain (fs : gmap string node) :
  foldl (mkdir_step denied) (fs, false) chain = (fs, false).
Proof. induction chain as [|d chain IH]; [done|]. cbn [foldl mkdir_step]. exact IH. Qed.

Lemma grows_refl (fs : gmap string node) : grows fs fs.
Proof.
  split; [done|]. intros k Hk [x Hx]. rewrite Hk in Hx. done.
Qed.

Lemma grows_trans (fs1 fs2 fs3 : gmap string node) :
  grows fs1 fs2 -> grows fs2 fs3 -> grows fs1 fs3.
Proof.
  intros [Hsub1 Hnew1] [Hsub2 Hnew2]. split; [by etrans|].
  intros k Hk Hsome. destruct (fs2 !! k) as [x|] eqn:E.
  - assert (fs2 !! k = Some Dir) as Hdir by (apply Hnew1; [done|by rewrite E]).
    by apply (lookup_weaken fs2 fs3).
  - by apply Hnew2.
Qed.

Lemma grows_insert (fs : gmap string node) d :
  fs !! d = None -> grows fs (<[d := Dir]> fs).
Proof.
  intros Hd. split; [by apply insert_subseteq|].
  intros k Hk. destruct (decide (k = d)) as [->|Hne].
  - intros _. apply lookup_insert_eq.
  - rewrite lookup_insert_ne by done. rewrite Hk. by intros [x Hx].
Qed.

Lemma mkdir_fold_grows denied chain : ∀ (fs : gmap string node) ok,
  grows fs (foldl (mkdir_step denied) (fs, ok) chain).1.
Proof.
  induction chain as [|d chain IH]; intros fs ok; [apply grows_refl|].
  cbn [foldl]. destruct ok; cbn [mkdir_step]; [|apply IH].
  destruct (denied d) eqn:Hdn; [apply IH|].
  destruct (fs !! d) as [[|]|] eqn:E; try apply IH.
  eapply grows_trans; [by apply grows_insert|apply IH].
Qed.

Lemma mkdir_fold_new denied chain : ∀ (fs : gmap string node) ok k x,
  (foldl (mkdir_step denied) (fs, ok) chain).1 !! k = Some x ->
  fs !! k = Some x ∨ (x = Dir ∧ k ∈ chain).
Proof.
  induction chain as [|d chain IH]; intros fs ok k x; [by left|].
  cbn [foldl]. destruct ok; cbn [mkdir_step].
  - destruct (denied d); [|destruct (fs !! d) as [[|]|] eqn:E];
      intros [H|[-> H]]%IH; auto.
    + right. split; [done|]. by right.
    + right. split; [done|]. by right.
    + right. split; [done|]. by right.
    + destruct (decide (k = d)) as [->|Hne].
      * rewrite lookup_insert_eq in H. simplify_eq. right. split; [done|]. by left.
      * rewrite lookup_insert_ne in H by done. by left.
    + right. split; [done|]. by right.
  - intros [H|[-> H]]%IH; auto. right. split; [done|]. by right.
Qed.




Lemma mkdir_fold_stable denied chain : ∀ (fs fs2 : gmap string node),
  grows (foldl (mkdir_step denied) (fs, true) chain).1 fs2 ->
  foldl (mkdir_step denied) (fs2, true) chain
  = (fs2, (foldl (mkdir_step denied) (fs, true) chain).2).
Proof.
  induction chain as [|d chain IH]; intros fs fs2 Hgrow; [done|].
  cbn [foldl mkdir_step] in *.
  destruct (denied d) eqn:Hdn.
  { rewrite !mkdir_fold_false. done. }
  destruct (fs !! d) as [[|]|] eqn:E; cbv iota in *.
  - rewrite mkdir_fold_false in *. cbn [fst snd] in *.
    rewrite (lookup_weaken _ _ _ _ E (proj1 Hgrow)). apply mkdir_fold_false.
  - assert (fs2 !! d = Some Dir) as ->.
    { eapply lookup_weaken; [|exact (proj1 Hgrow)].
      eapply lookup_weaken; [exact E|apply mkdir_fold_grows]. }
    by apply IH.
  - assert (fs2 !! d = Some Dir) as ->.
    { eapply lookup_weaken; [|exact (proj1 Hgrow)].
      eapply lookup_weaken; [apply lookup_insert_eq|apply mkdir_fold_grows]. }
    by apply IH.
Qed.

Lemma try_block_mkdir_all ps : ∀ vm w,
  try_block (map fs_create_directories ps) (mkMachine vm w)
  = Res (w_what w <$> (mkdir_all (w_denied w) (w_fs w) ps).2)
        (mkMachine vm (set_fs (mkdir_all (w_denied w) (w_fs w) ps).1 w)) [].
Proof.
  induction ps as [|p ps IH]; intros vm w.
  - by destruct w.
  - cbn [map try_block mkdir_all]. unfold bind, fs_create_directories at 1. norm.
    destruct (foldl (mkdir_step (w_denied w)) (w_fs w, true)
                (dir_chain EmptyString p)) as [fs1 ok].
    destruct ok; norm; [|done].
    rewrite IH. norm. by destruct w.
Qed.

Lemma createDirectories_mkdir_all vm w :
  createDirectories (mkMachine vm w)
  = Res tt (mkMachine vm (set_fs (mkdir_all (w_denied w) (w_fs w) asked_dirs).1 w))
        match (mkdir_all (w_denied w) (w_fs w) asked_dirs).2 with
        | None => []
        | Some p => [Stdout ("[ERROR] Failed to create directories: " +:+ w_what w p)]
        end.
Proof.
  unfold createDirectories, bind.
  change [fs_create_directories "./devices/disk"; fs_create_directories "./devices/rom";
          fs_create_directories "./boot/firmware"; fs_create_directories "./libraries"]
    with (map fs_create_directories asked_dirs).
  rewrite try_block_mkdir_all. norm.
  by destruct (mkdir_all (w_denied w) (w_fs w) asked_dirs).2.
Qed.

Lemma mkdir_all_grows denied ps : ∀ (fs : gmap string node),
  grows fs (mkdir_all denied fs ps).1.
Proof.
  induction ps as [|p ps IH]; intros fs; [apply grows_refl|]. cbn [mkdir_all].
  pose proof (mkdir_fold_grows denied (dir_chain EmptyString p) fs true) as H.
  destruct (foldl _ _ _) as [fs1 ok]. destruct ok; [|done].
  eapply grows_trans; [exact H|apply IH].
Qed.

Lemma mkdir_all_new denied ps : ∀ (fs : gmap string node) k x,
  (mkdir_all denied fs ps).1 !! k = Some x ->
  fs !! k = Some x ∨ (x = Dir ∧ k ∈ concat (map (dir_chain EmptyString) ps)).
Proof.
  induction ps as [|p ps IH]; intros fs k x; [by left|]. cbn [mkdir_all map concat].
  pose proof (mkdir_fold_new denied (dir_chain EmptyString p) fs true k x) as H.
  destruct (foldl _ _ _) as [fs1 ok]. cbn [fst] in H. rewrite elem_of_app.
  destruct ok.
  - intros [H1|[-> H1]]%IH; [|tauto]. destruct (H H1) as [?|[-> ?]]; tauto.
  - intros H1. destruct (H H1) as [?|[-> ?]]; tauto.
Qed.




Lemma mkdir_all_stable denied ps : ∀ (fs fs2 : gmap string node),
  grows (mkdir_all denied fs ps).1 fs2 ->
  mkdir_all denied fs2 ps = (fs2, (mkdir_all denied fs ps).2).
Proof.
  induction ps as [|p ps IH]; intros fs fs2 Hgrow; [done|].
  cbn [mkdir_all] in *.
  pose proof (mkdir_fold_stable denied (dir_chain EmptyString p) fs fs2) as Hst.
  destruct (foldl (mkdir_step denied) (fs, true) _) as [fs1 ok]. cbn [fst snd] in *.
  destruct ok.
  - rewrite Hst; [by apply IH|].
    eapply grows_trans; [apply mkdir_all_grows|exact Hgrow].
  - by rewrite Hst.
Qed.

Lemma asked_chains k :
  k ∈ concat (map (dir_chain EmptyString) asked_dirs) ↔ k ∈ made_dirs.
Proof.
  vm_compute concat. unfold made_dirs.
  rewrite !elem_of_cons, !elem_of_nil. tauto.
Qed.


(** X5.  [createDirectories] changes nothing but the filesystem, and there
    it only adds: every entry that was there is still there unchanged, and
    an entry that is new is a directory at one of the standard places. *)
Theorem createDirectories_only_adds (m : Machine) :
  ∃ fs',
    state (createDirectories m) = mkMachine (this m) (set_fs fs' (world m))
    ∧ w_fs (world m) ⊆ fs'
    ∧ ∀ k x, fs' !! k = Some x ->
             w_fs (world m) !! k = Some x ∨ (x = Dir ∧ k ∈ made_dirs).
Proof.
  destruct m as [vm w]. rewrite createDirectories_mkdir_all. norm.
  exists (mkdir_all (w_denied w) (w_fs w) asked_dirs).1. split; [done|].
  split; [apply mkdir_all_grows|].
  intros k x [H|[-> H]]%mkdir_all_new; [by left|].
  right. split; [done|]. by apply asked_chains.
Qed.


(** X7.  Running [createDirectories] a second time changes nothing and
    prints what the first run printed. *)
Theorem createDirectories_twice (m : Machine) :
  state (createDirectories (state (createDirectories m)))
  = state (createDirectories m)
  ∧ events (createDirectories (state (createDirectories m)))
    = events (createDirectories m).
Proof.
  destruct m as [vm [fs cs hs fk rd qi wh wt dn]].
  rewrite createDirectories_mkdir_all. norm.
  rewrite createDirectories_mkdir_all. norm.
  rewrite (mkdir_all_stable dn asked_dirs fs (mkdir_all dn fs asked_dirs).1)
    by apply grows_refl.
  done.
Qed.

(** ** The shapes of a launch *)

(** A [fork], keeping why it failed. *)
Lemma wp_fork_cases child m (Q : Z -> Machine -> list event -> Prop) :
  (forall r rest, w_forks (world m) = r :: rest -> (0 < r)%Z ->
     Q r (mkMachine (this m)
            (set_forks rest
               (set_children (w_children (world m) ++ [(r, child)]) (world m))))
       [Fork child r]) ->
  (fork_fails (w_forks (world m)) ->
   Q (-1)%Z (mkMachine (this m) (set_forks (tail (w_forks (world m))) (world m)))
     [Fork child (-1)]) ->
  wp (fork child) m Q.
Proof.
  intros Hok Hfail. unfold wp, fork.
  destruct m as [vm [fs cs hs fk rd qi wh wt dn]]. norm.
  destruct fk as [|r rest]; [by apply Hfail|].
  destruct (Z.ltb_spec 0 r) as [Hr|Hr].
  - specialize (Hok r rest eq_refl Hr). norm.
    by destruct (Z.ltb_spec 0 r); [|lia].
  - norm. by apply Hfail.
Qed.

Ltac wp_step_forks :=
  lazymatch goal with
  | |- wp (fork _) _ _ =>
      apply wp_fork_cases; [intros ? ? ? ?|intros ?]; cbn beta zeta; fs_simpl
  | _ => wp_step
  end.

Lemma supervision_app l1 l2 : supervision (l1 ++ l2) = supervision l1 ++ supervision l2.
Proof. apply List.filter_app. Qed.

Lemma supervision_cons e l :
  supervision (e :: l) = (if is_supervision e then [e] else []) ++ supervision l.
Proof. unfold supervision. cbn [List.filter]. by destruct (is_supervision e). Qed.

Lemma supervision_nil : supervision [] = [].
Proof. reflexivity. Qed.

Lemma supervision_outputs l : Forall is_output l -> supervision l = [].
Proof.
  induction 1 as [|e l He _ IH]; [done|].
  rewrite supervision_cons, IH. by destruct e.
Qed.

Lemma supervision_build w : supervision (build_events w) = [].
Proof. apply supervision_outputs, build_events_output. Qed.

Lemma supervision_scan rom l : supervision (scan_events rom l) = [].
Proof. apply supervision_outputs, scan_events_output. Qed.

(** The supervision events of an explicit event list. *)
Ltac supervision_norm :=
  unfold supervision;
  repeat first
    [ progress cbn [List.filter is_supervision app]
    | rewrite List.filter_app
    | rewrite (supervision_scan _ _ : List.filter is_supervision (scan_events _ _) = [])
    | rewrite (supervision_build _ : List.filter is_supervision (build_events _) = [])
    | match goal with
      | H : Forall is_output ?l |- context [List.filter is_supervision ?l] =>
          rewrite (supervision_outputs l H : List.filter is_supervision l = [])
      end ];
  repeat match goal with
    | |- context [List.filter is_supervision ?l] =>
        change (List.filter is_supervision l) with (supervision l)
    end.

Lemma commands_app l1 l2 : commands (l1 ++ l2) = commands l1 ++ commands l2.
Proof. apply List.filter_app. Qed.

Lemma commands_cons e l :
  commands (e :: l) = (if is_command e then [e] else []) ++ commands l.
Proof. unfold commands. cbn [List.filter]. by destruct (is_command e). Qed.

Lemma commands_nil : commands [] = [].
Proof. reflexivity. Qed.

Lemma commands_quiet l : Forall quiet l -> commands l = [].
Proof.
  induction 1 as [|e l He _ IH]; [done|].
  rewrite commands_cons, IH. by destruct e, He.
Qed.

Lemma commands_outputs l : Forall is_output l -> commands l = [].
Proof.
  intros H. apply commands_quiet. eapply Forall_impl; [exact H|]. intros e He. by left.
Qed.

Lemma commands_scan rom l : commands (scan_events rom l) = [].
Proof. apply commands_outputs, scan_events_output. Qed.

Lemma commands_build w : commands (build_events w) = [].
Proof. apply commands_outputs, build_events_output. Qed.

(** The shell commands of an explicit event list. *)
Ltac commands_norm :=
  unfold commands;
  repeat first
    [ progress cbn [List.filter is_command app]
    | rewrite List.filter_app
    | rewrite (commands_scan _ _ : List.filter is_command (scan_events _ _) = [])
    | rewrite (commands_build _ : List.filter is_command (build_events _) = [])
    | match goal with
      | H : Forall is_output ?l |- context [List.filter is_command ?l] =>
          rewrite (commands_outputs l H : List.filter is_command l = [])
      | H : Forall quiet ?l |- context [List.filter is_command ?l] =>
          rewrite (commands_quiet l H : List.filter is_command l = [])
      end ].

(** The same, computed once for all its occurrences in the goal. *)
Ltac read_supervision :=
  lazymatch goal with
  | |- context [supervision ?l] =>
      let Hs := fresh "Hs" in
      eassert (supervision l = _) as Hs by (supervision_norm; reflexivity);
      rewrite !Hs; clear Hs
  end.

Lemma quiet_outputs l : Forall is_output l -> Forall quiet l.
Proof. intros H. eapply Forall_impl; [exact H|]. intros e He. by left. Qed.

Ltac quiet_list :=
  repeat first
    [ apply Forall_nil_2
    | apply quiet_outputs, build_events_output
    | apply quiet_outputs, scan_events_output
    | apply quiet_outputs; assumption
    | apply Forall_cons_2; [first [by left | by right]|]
    | apply Forall_app_2 ].

Lemma emulator_command_layout b w :
  emulator_command b w
  = layout b (bool_decide (present w "./boot/firmware/OVMF_CODE.fd"))
             (bool_decide (present w "./devices/disk/disk.qcow2"))
             (scan_result "./devices/rom" (w_readdir w "./devices/rom")).
Proof. unfold emulator_command. by rewrite session_std, build_run. Qed.

Lemma launch_cases isoOk b w :
  (b = true -> present w "./libraries/noVNC") ->
  wp (launch isoOk "./devices/disk/disk.qcow2" b) (mkMachine (std_vm b (-1) (-1)) w)
     (launch_post b w).
Proof.
  intros Hassets. unfold launch_post. rewrite emulator_command_layout.
  name_post.
  destruct isoOk; unfold launch; apply wp_bind.
  all: repeat wp_step_forks.
  all: show_post.
  all: try (exfalso;
            match goal with
            | H : bool_decide _ = false |- _ =>
                apply bool_decide_eq_false in H; apply H; by apply Hassets
            end).
  all: norm; rewrite ?build_world_forks in *; unfold present; repeat decide_atoms;
    fs_simpl; rewrite <- ?app_assoc; cbn [app].
  all: (split; [intros p Hp; by fs_simpl|]); (split; [quiet_list|]).
  all: read_supervision.
  all: first
    [ left; by repeat split
    | right; eexists _, _; split; [eassumption|]; split; [lia|];
      first
        [ left; by repeat split
        | right; left; by repeat split
        | right; right; split; [done|]; split; [done|];
          eexists _, _; split; [eassumption|]; split; [lia|];
          by repeat split ] ].
Qed.

(** ** What a run amounts to *)

(** Outcomes of conditions, as propositions. *)
Ltac as_props :=
  repeat match goal with
    | H : bool_decide _ = true |- _ => apply bool_decide_eq_true in H
    | H : bool_decide _ = false |- _ => apply bool_decide_eq_false in H
    end.

(** The disk image after directory creation and, where it ran, the disk
    tool. *)
Ltac disk_lookup Hframe :=
  first
    [ apply Hframe; not_made
    | destruct (w_qemu_img _ _).2;
      [ apply lookup_insert_eq
      | rewrite Hframe by not_made; cbn [fmap option_fmap option_map];
        by apply eq_None_not_Some ] ].

(** Whether there is something to boot from, as the context has it. *)
Ltac decide_sources :=
  first
    [ rewrite (bool_decide_eq_true_2 (sources _)) by (unfold sources, present; tauto)
    | rewrite (bool_decide_eq_false_2 (sources _)) by (unfold sources, present; tauto) ].

Lemma main_cases argv w : wp (main_body argv) (main_start w) (main_spec argv w).
Proof.
  unfold main_spec. cbn zeta. unfold main_body.
  generalize (negb (scan_args (drop 1 argv) false)) as b. intros b.
  name_post. wp_steps.
  all: try (at_launch; eapply wp_mono;
            [ apply launch_cases; fs_simpl; norm_goal;
              first [done | intros _; as_props; done]
            | intros started m' e' Hlaunch; cbn beta; wp_steps ]).
  all: show_post; norm; unfold refused, cleared, run_commands, present;
    repeat decide_atoms; as_props.
  all: try (pose proof Hlaunch as (Hfs & Hquiet & _)).
  all: split;
    [ intros k Hk Hd Hv; try (rewrite Hfs by done); norm_goal;
      rewrite ?tool_lookup_ne by done; by apply Hframe |].
  all: split;
    [ intros Hd; try (rewrite Hfs by done); norm_goal;
      first [done | apply Hframe; not_made] |].
  all: split; [commands_norm; decide_sources; done|].
  all: first
    [ left; split; [first [ left; by repeat split
                          | right; split; [done|]; first [by left | by right] ]|];
      split; [done|]; split; [by supervision_norm|]; done
    | right; split;
      [ split; [ unfold sources, present; tauto
               | first [done | intros _; by split] ]|];
      eexists _, _, _; split; [exact Hlaunch|]; split;
      [ unfold launch_world, present; norm_goal; repeat decide_atoms;
        split_and!; try done;
        [ intros k Hk Hne; rewrite ?tool_lookup_ne by done; by apply Hframe
        | disk_lookup Hframe ]
      | split; [done|]; supervision_norm; by rewrite ?app_nil_r ] ].
Qed.

(** ** Consequences for every run *)

Lemma main_meets_spec argv w :
  main_spec argv w (value (main argv w)) (state (main argv w)) (events (main argv w)).
Proof. apply main_post, main_cases. Qed.

Lemma refused_not_cleared b w : refused b w -> cleared b w -> False.
Proof.
  intros [(Hd & Hs & Hi)|(Hb & Hdep)] [Hsrc Hchain].
  - destruct Hsrc as [?|[?|?]]; done.
  - destruct (Hchain Hb) as [? ?]. destruct Hdep; done.
Qed.

Lemma elem_supervision x l : x ∈ supervision l ↔ x ∈ l ∧ is_supervision x = true.
Proof. unfold supervision. rewrite !list_elem_of_In. apply List.filter_In. Qed.

Lemma occurs_before_supervision a b l :
  occurs_before a b (supervision l) -> occurs_before a b l.
Proof.
  induction l as [|x l IH].
  - by rewrite supervision_nil.
  - rewrite supervision_cons. destruct (is_supervision x); cbn [app].
    + rewrite !occurs_before_cons. intros [[-> Hin]|H]; [left|right; auto].
      split; [done|]. by apply elem_supervision in Hin as [? _].
    + intros H. apply occurs_further. auto.
Qed.

(** The emulator command of a launch, from the world the program started in. *)
Lemma launch_command b w w1 :
  launch_world w w1 ->
  emulator_command b w1
  = layout b (bool_decide (present w "./boot/firmware/OVMF_CODE.fd"))
      (bool_decide (present w "./devices/disk/disk.qcow2")
       || bool_decide (is_Some (w_qemu_img w "./devices/disk/disk.qcow2").2))
      (scan_result "./devices/rom" (w_readdir w "./devices/rom")).
Proof.
  intros (Hrd & _ & _ & Hfr & Hdk). rewrite emulator_command_layout.
  unfold present in *. rewrite Hrd, Hdk, (Hfr "./boot/firmware/OVMF_CODE.fd");
    [|not_made|done].
  f_equal. destruct (bool_decide (is_Some (w_fs w !! "./devices/disk/disk.qcow2")))
    eqn:Hd; cbn [orb]; [done|].
  apply bool_decide_ext. apply fmap_is_Some.
Qed.

(** The five ways a run can go, with the names the proofs below use. *)
Ltac run_cases argv w :=
  let Hrun := fresh "Hrun" in
  pose proof (main_meets_spec argv w) as Hrun;
  unfold main_spec in Hrun; cbn zeta in Hrun; fold (bridged_run argv) in Hrun;
  destruct Hrun as (Hkept & Hsame & Hcmds &
                   [(Href & Hv & Hs & Hvm & Hch)
                   |(Hcl & w1 & started & e1 & Hl & Hw & Hv & Hs)]);
  [| pose proof (launch_command (bridged_run argv) w w1 Hw) as Hcmd;
     destruct Hw as (Hrd & Hfk1 & Hch1 & Hfr & Hdk);
     destruct Hl as (Hfs & Hquiet &
       [(-> & Hff & Hs1 & Hvm & Hch)
       |(q & rest & Hfk & Hq &
          [(Hb & -> & Hs1 & Hvm & Hch)
          |[(Hb & -> & Hff & Hs1 & Hvm & Hch)
           |(Hb & -> & p & rest' & -> & Hp & Hs1 & Hvm & Hch)]])]);
     rewrite Hs1 in Hs; rewrite Hch1 in Hch; rewrite Hfk1 in *;
     rewrite Hcmd in *; clear Hs1 Hch1 Hfk1 Hcmd ].

(** When it is run in full, [main] ends in the idle loop exactly when the
    checks of [boot] let the launches begin and the forks the mode needs
    succeed. *)
Lemma main_running_iff (argv : list string) (w : World) :
  value (main argv w) = Running
  ↔ cleared (bridged_run argv) w ∧ forks_succeed (bridged_run argv) (w_forks w).
Proof.
  run_cases argv w; (split; [intros Hr|intros (Hcl' & q' & rest'' & Hfk' & Hq' & Hp')]);
    try congruence.
  - exfalso. by eapply refused_not_cleared.
  - rewrite Hfk' in Hff. unfold fork_fails in Hff. exfalso. lia.
  - split; [done|]. exists q, rest. rewrite Hb. done.
  - destruct (Hp' Hb) as (p & rest' & -> & Hp). rewrite Hfk in Hfk'.
    simplify_eq. unfold fork_fails in Hff. exfalso. lia.
  - split; [done|]. exists q, (p :: rest'). split; [done|]. split; [done|].
    intros _. by exists p, rest'.
Qed.

(** The supervision events of [main] run in full have one of the five
    shapes. *)
Lemma main_shape (argv : list string) (w : World) :
  run_shape (bridged_run argv) (supervision (events (main argv w)))
    (value (main argv w)).
Proof.
  unfold run_shape. run_cases argv w.
  - by left.
  - right; left. by eexists.
  - right; right; left. by eexists _, q.
  - right; right; right; left. by eexists _, q.
  - right; right; right; right. by eexists _, q, p.
Qed.

(** When [main] run in full does not end in the idle loop, it exits with
    status 1 and leaves none of its own children behind. *)
Lemma main_failed (argv : list string) (w : World) :
  value (main argv w) ≠ Running ->
  value (main argv w) = Exited 1
  ∧ websockifyPid (this (state (main argv w))) = (-1)%Z
  ∧ ∀ ch, ch ∈ w_children (world (state (main argv w))) -> ch ∈ w_children w.
Proof.
  intros Hfail. run_cases argv w; try done; rewrite Hvm, Hch.
  - done.
  - done.
  - split; [done|]. split; [done|]. intros ch [Hne Hin]%list_elem_of_filter.
    apply elem_of_app in Hin as [Hin|Hin]; [done|].
    apply list_elem_of_singleton in Hin. by subst ch.
Qed.

(** X16.  A run that ends in the idle loop has recorded the pid of every
    child it forked, each of them positive, and has added exactly these
    children to the table, the emulator first: one in direct mode, where the
    bridge pid keeps its sentinel, two in bridged mode. *)
Theorem running_session_records_children (argv : list string) (w : World) :
  value (main argv w) = Running ->
  ∃ c q,
    (0 < q)%Z
    ∧ qemuPid (this (state (main argv w))) = q
    ∧ if bridged_run argv
      then ∃ p, (0 < p)%Z
             ∧ websockifyPid (this (state (main argv w))) = p
             ∧ w_children (world (state (main argv w)))
               = w_children w ++ [(q, Execvp c); (p, ShellC bridge_command)]
      else websockifyPid (this (state (main argv w))) = (-1)%Z
           ∧ w_children (world (state (main argv w)))
             = w_children w ++ [(q, Execvp c)].
Proof.
  intros Hrunning. run_cases argv w; try congruence; rewrite Hvm, Hch, Hb.
  - by eexists _, q.
  - eexists _, q. split; [done|]. split; [done|]. by exists p.
Qed.

(** X17.  The bridge is never forked on its own: a fork of a shell command in
    a run is a fork of the bridge's command line, in bridged mode, and the
    emulator's successful fork and its three-second delay come before it. *)
Theorem bridge_forked_after_emulator (argv : list string) (w : World)
    (sh : string) (r : Z) :
  Fork (ShellC sh) r ∈ events (main argv w) ->
  bridged_run argv = true
  ∧ sh = bridge_command
  ∧ ∃ c q, (0 < q)%Z
      ∧ occurs_before (Fork (Execvp c) q) (Sleep 3) (events (main argv w))
      ∧ occurs_before (Sleep 3) (Fork (ShellC sh) r) (events (main argv w)).
Proof.
  intros Hin. assert (Fork (ShellC sh) r ∈ supervision (events (main argv w))) as Hsup
    by (by apply elem_supervision).
  run_cases argv w; rewrite Hs in Hsup; inv_elems; simplify_eq.
  all: split; [done|]; split; [done|]; eexists _, q; split; [done|].
  all: split; apply occurs_before_supervision; rewrite Hs; occurs.
Qed.

(** X18.  With --no-vnc among the arguments a run never forks a shell
    command, never sends a signal, and leaves the bridge pid at its
    sentinel, whether or not the web assets and the bridge executable are
    there. *)
Theorem direct_mode_never_bridges (argv : list string) (w : World) :
  "--no-vnc" ∈ drop 1 argv ->
  (∀ sh r, Fork (ShellC sh) r ∉ events (main argv w))
  ∧ (∀ pid sig, Kill pid sig ∉ events (main argv w))
  ∧ websockifyPid (this (state (main argv w))) = (-1)%Z.
Proof.
  intros Hmode.
  assert (bridged_run argv = false) as Hdirect.
  { unfold bridged_run. rewrite scan_args_spec. by rewrite bool_decide_eq_true_2. }
  assert (∀ x, is_supervision x = true -> x ∈ events (main argv w) ->
               x ∈ supervision (events (main argv w))) as Hsup.
  { intros x Hx Hin. by apply elem_supervision. }
  run_cases argv w; try congruence; rewrite Hvm.
  all: split; [intros sh r Hin%Hsup; [|done]; rewrite Hs in Hin; by inv_elems|].
  all: split; [intros pid sig Hin%Hsup; [|done]; rewrite Hs in Hin; by inv_elems|].
  all: done.
Qed.

(** X19.  Whenever a run forks the emulator, the command is the one the
    world at the start determines: the display of the mode, the firmware
    drives when the firmware image was there, the disk drive when the disk
    image was there or the disk tool wrote one (whatever status it
    reported), and the first installation image of the media directory. *)
Theorem emulator_command_of_run (argv : list string) (w : World)
    (c : list string) (r : Z) :
  Fork (Execvp c) r ∈ events (main argv w) ->
  c = layout (bridged_run argv)
        (bool_decide (present w "./boot/firmware/OVMF_CODE.fd"))
        (bool_decide (present w "./devices/disk/disk.qcow2")
         || bool_decide (is_Some (w_qemu_img w "./devices/disk/disk.qcow2").2))
        (scan_result "./devices/rom" (w_readdir w "./devices/rom")).
Proof.
  intros Hin. assert (Fork (Execvp c) r ∈ supervision (events (main argv w))) as Hsup
    by (by apply elem_supervision).
  run_cases argv w; rewrite Hs in Hsup; inv_elems; by simplify_eq.
Qed.

(** X20.  The checks trust the exit status of the disk tool: when there is
    no disk image and no installation image, and the tool reports success
    without having written a file, the boot goes on and the emulator is
    forked with a command that names neither a disk nor an installation
    image. *)
Theorem tool_success_without_image (argv : list string) (w : World)
    (r : Z) (later : list Z) :
  ¬ present w "./devices/disk/disk.qcow2" ->
  w_qemu_img w "./devices/disk/disk.qcow2" = (0%Z, None) ->
  scan_result "./devices/rom" (w_readdir w "./devices/rom") = EmptyString ->
  (bridged_run argv = true ->
   present w "./libraries/noVNC" ∧ w_which w "websockify" = 0%Z) ->
  w_forks w = r :: later -> (0 < r)%Z ->
  Fork (Execvp (layout (bridged_run argv)
                  (bool_decide (present w "./boot/firmware/OVMF_CODE.fd"))
                  false EmptyString)) r
    ∈ events (main argv w).
Proof.
  intros Hdisk Htool Hscan Hchain Hforks Hpid.
  assert (cleared (bridged_run argv) w) as Hclear.
  { split; [|done]. right; left. by rewrite Htool. }
  assert (∀ x, x ∈ supervision (events (main argv w)) -> x ∈ events (main argv w))
    as Hsup.
  { intros x Hx. by apply elem_supervision in Hx as [? _]. }
  run_cases argv w.
  - exfalso. by eapply refused_not_cleared.
  - rewrite Hforks in Hff. unfold fork_fails in Hff. exfalso. lia.
  - rewrite Hfk in Hforks. simplify_eq. apply Hsup. rewrite Hs.
    rewrite Hscan, Htool, (bool_decide_eq_false_2 _ Hdisk). cbn. by left.
  - rewrite Hfk in Hforks. simplify_eq. apply Hsup. rewrite Hs.
    rewrite Hscan, Htool, (bool_decide_eq_false_2 _ Hdisk). cbn. by left.
  - rewrite Hfk in Hforks. simplify_eq. apply Hsup. rewrite Hs.
    rewrite Hscan, Htool, (bool_decide_eq_false_2 _ Hdisk). cbn. by left.
Qed.

(** X21.  The shell commands of a run, in order: the disk tool exactly when
    there was no disk image, then the search for the bridge executable
    exactly when there is something to boot from, in direct mode as well,
    where its result is not used. *)
Theorem commands_of_run (argv : list string) (w : World) :
  commands (events (main argv w))
  = (if bool_decide (present w "./devices/disk/disk.qcow2") then []
     else [System (command_line (QemuImgCreate "./devices/disk/disk.qcow2"))
             (w_qemu_img w "./devices/disk/disk.qcow2").1])
    ++ (if bool_decide (sources w)
        then [System (command_line (WhichQuiet "websockify"))
                (w_which w "websockify")]
        else []).
Proof. by destruct (main_meets_spec argv w) as (_ & _ & Hcmds & _). Qed.

(** X22.  A run leaves every path alone that is not one of the standard
    directories, the disk image or the variable store, and a disk image that
    was there at the start is still what it was at the end. *)
Theorem run_touches_only_its_files (argv : list string) (w : World) :
  (∀ k, k ∉ made_dirs -> k ≠ "./devices/disk/disk.qcow2" -> k ≠ varsPath ->
        w_fs (world (state (main argv w))) !! k = w_fs w !! k)
  ∧ (present w "./devices/disk/disk.qcow2" ->
     w_fs (world (state (main argv w))) !! "./devices/disk/disk.qcow2"
     = w_fs w !! "./devices/disk/disk.qcow2").
Proof. by destruct (main_meets_spec argv w) as (Hkept & Hdisk & _). Qed.

(** ** Signals, for every run *)

Lemma teardown_supervision l :
  existsb is_teardown l = existsb is_teardown (supervision l).
Proof.
  induction l as [|x l IH]; [done|].
  rewrite supervision_cons. cbn [existsb]. rewrite IH.
  destruct x; reflexivity.
Qed.

Lemma existsb_replicate_sleep n : existsb is_teardown (replicate n (Sleep 1)) = false.
Proof. induction n as [|n IH]; [done|]. exact IH. Qed.

(** X23.  Every session that reached the idle loop is left without
    teardown by an interrupt or termination signal: the program exits with
    status 0, the whole run contains no signal sent to a child and no child
    reaped, and the emulator it forked is still in the table of children at
    exit. *)
Theorem signal_orphans_running_session (argv : list string) (n : nat)
    (sig : signal) (w : World) :
  value (main argv w) = Running ->
  sig = SIGINT ∨ sig = SIGTERM ->
  value (run argv n sig w) = Exited 0
  ∧ existsb is_teardown (events (run argv n sig w)) = false
  ∧ ∃ c, (qemuPid (this (state (run argv n sig w))), Execvp c)
           ∈ w_children (world (state (run argv n sig w))).
Proof.
  intros Hrunning Hsig.
  destruct (signal_exits_without_teardown argv n sig w Hrunning Hsig)
    as (-> & -> & ->).
  split; [done|].
  rewrite !existsb_app, existsb_replicate_sleep, teardown_supervision.
  run_cases argv w; try congruence; rewrite Hs, Hvm, Hch; (split; [done|]);
    eexists; norm; rewrite elem_of_app; right; by left.
Qed.

(** ** The two launches, one method at a time *)

Lemma append_assoc (s t u : string) : (s +:+ t) +:+ u = s +:+ (t +:+ u).
Proof.
  induction s as [|a s IH]; [done|].
  change (String a ((s +:+ t) +:+ u) = String a (s +:+ (t +:+ u))). by f_equal.
Qed.

Lemma append_empty (s : string) : s +:+ EmptyString = s.
Proof.
  induction s as [|a s IH]; [done|].
  change (String a (s +:+ EmptyString) = String a s). by f_equal.
Qed.

Lemma join_tokens cmd : ∀ acc,
  foldl (fun acc arg => acc +:+ (arg +:+ " ")) acc cmd = acc +:+ command_text cmd.
Proof.
  induction cmd as [|a cmd IH]; intros acc; cbn [foldl command_text foldr].
  - by rewrite append_empty.
  - rewrite IH. fold (command_text cmd). by rewrite !append_assoc.
Qed.

(** X25.  [startQEMU] prints the command it is about to run, token by token
    with a space after each, and then forks exactly that command.  When the
    fork succeeds the pid is recorded and the method waits three seconds;
    when it fails the method prints an error, records nothing and returns
    false. *)
Theorem startQEMU_prints_then_forks (bridged : bool) (w : World) :
  ∃ r tail,
    events (startQEMU (session bridged w))
    = Stdout "[INFO] Starting QEMU virtual machine..." :: build_events w
      ++ [Stdout "[DEBUG] QEMU command:";
          Stdout ("[DEBUG] " +:+ command_text (emulator_command bridged w));
          Fork (Execvp (emulator_command bridged w)) r]
      ++ tail
    ∧ (((0 < r)%Z ∧ tail = [Sleep 3]
        ∧ value (startQEMU (session bridged w)) = true
        ∧ qemuPid (this (state (startQEMU (session bridged w)))) = r)
       ∨ (r = (-1)%Z ∧ fork_fails (w_forks w)
          ∧ tail = [Stdout "[ERROR] Failed to fork QEMU process!"]
          ∧ value (startQEMU (session bridged w)) = false
          ∧ qemuPid (this (state (startQEMU (session bridged w)))) = (-1)%Z)).
Proof.
  rewrite emulator_command_layout.
  apply (wp_elim startQEMU (session bridged w) (fun v m e =>
    ∃ r tail,
      e = Stdout "[INFO] Starting QEMU virtual machine..." :: build_events w
          ++ [Stdout "[DEBUG] QEMU command:";
              Stdout ("[DEBUG] " +:+ command_text
                 (layout bridged
                    (bool_decide (present w "./boot/firmware/OVMF_CODE.fd"))
                    (bool_decide (present w "./devices/disk/disk.qcow2"))
                    (scan_result "./devices/rom" (w_readdir w "./devices/rom"))));
              Fork (Execvp
                 (layout bridged
                    (bool_decide (present w "./boot/firmware/OVMF_CODE.fd"))
                    (bool_decide (present w "./devices/disk/disk.qcow2"))
                    (scan_result "./devices/rom" (w_readdir w "./devices/rom")))) r]
          ++ tail
      ∧ (((0 < r)%Z ∧ tail = [Sleep 3] ∧ v = true ∧ qemuPid (this m) = r)
         ∨ (r = (-1)%Z ∧ fork_fails (w_forks w)
            ∧ tail = [Stdout "[ERROR] Failed to fork QEMU process!"]
            ∧ v = false ∧ qemuPid (this m) = (-1)%Z)))).
  name_post. unfold session. repeat wp_step_forks.
  all: show_post; norm; rewrite ?build_world_forks in *.
  all: rewrite (join_tokens _ EmptyString);
    change (EmptyString +:+ ?s) with s.
  - eexists _, _. split; [reflexivity|]. left. by repeat split.
  - eexists _, _. split; [reflexivity|]. right. by repeat split.
Qed.

(** X26.  In bridged mode with the web assets in place, [startWebsockify]
    forks one shell command: the bridge serving the object's asset directory
    on port 8080 towards the emulator's display port.  When the fork succeeds
    the pid is recorded and the method waits two seconds; when it fails the
    method prints an error, records nothing and returns false. *)
Theorem startWebsockify_forks_bridge (m : Machine) :
  useVNC (this m) = true ->
  present (world m) (noVNCPath (this m)) ->
  ∃ r tail,
    events (startWebsockify m)
    = [Stdout "[INFO] Starting websockify for noVNC...";
       Fork (ShellC ("websockify --web=" +:+ noVNCPath (this m)
                     +:+ " 8080 localhost:5901")) r]
      ++ tail
    ∧ (((0 < r)%Z ∧ tail = [Sleep 2]
        ∧ value (startWebsockify m) = true
        ∧ this (state (startWebsockify m)) = set_websockifyPid r (this m))
       ∨ (r = (-1)%Z ∧ fork_fails (w_forks (world m))
          ∧ tail = [Stdout "[ERROR] Failed to fork websockify process!"]
          ∧ value (startWebsockify m) = false
          ∧ this (state (startWebsockify m)) = this m)).
Proof.
  intros Hmode Hassets.
  apply (wp_elim startWebsockify m (fun v m' e =>
    ∃ r tail,
      e = [Stdout "[INFO] Starting websockify for noVNC...";
           Fork (ShellC ("websockify --web=" +:+ noVNCPath (this m)
                         +:+ " 8080 localhost:5901")) r]
          ++ tail
      ∧ (((0 < r)%Z ∧ tail = [Sleep 2] ∧ v = true
          ∧ this m' = set_websockifyPid r (this m))
         ∨ (r = (-1)%Z ∧ fork_fails (w_forks (world m))
            ∧ tail = [Stdout "[ERROR] Failed to fork websockify process!"]
            ∧ v = false ∧ this m' = this m)))).
  unfold startWebsockify. apply wp_bind, wp_field. rewrite Hmode. cbn [negb].
  apply wp_bind, wp_printLog, wp_bind, wp_field, wp_bind, wp_fs_exists.
  rewrite (bool_decide_eq_true_2 _ Hassets). cbn [negb].
  apply wp_bind, wp_fork_cases.
  - intros r rest Hfk Hr. rewrite (proj2 (Z.ltb_lt 0 r) Hr).
    apply wp_bind, wp_assign, wp_bind, wp_sleep, wp_ret.
    eexists r, _. split; [reflexivity|]. left. by repeat split.
  - intros Hfail. cbn [Z.ltb Z.compare].
    apply wp_bind, wp_printLog, wp_ret.
    eexists (-1)%Z, _. split; [reflexivity|]. right. by repeat split.
Qed.

(** ** The further theorems at the sample hosts *)

Lemma entry_path_name_and_extension_witness :
  ("/"%char ∉ chars "install.iso")
  ∧ filename ("./devices/rom" +:+ "/" +:+ "install.iso") = "install.iso"
  ∧ extension ("./devices/rom" +:+ "/" +:+ "install.iso")
    = name_extension "install.iso".
Proof.
  assert ("/"%char ∉ chars "install.iso") as Hname by by_evaluation.
  split; [exact Hname|].
  exact (entry_path_name_and_extension "./devices/rom" "install.iso" Hname).
Defined.

Lemma findISO_first_image_witness :
  w_readdir full_host "./devices/rom" = (["notes.txt"] ++ "install.iso" :: [], None)
  ∧ name_extension "install.iso" = ".iso"
  ∧ findISO (session true full_host)
    = Res ("./devices/rom" +:+ "/" +:+ "install.iso") (session true full_host)
          [Stdout "[DEBUG] Checking for ISO files..."].
Proof.
  split; [reflexivity|]. split; [reflexivity|].
  apply (findISO_first_image (session true full_host) ["notes.txt"] "install.iso" []
           None); [reflexivity | by_evaluation | by_evaluation | reflexivity].
Defined.

Lemma findISO_nothing_found_witness :
  w_readdir unreadable_rom_host "./devices/rom"
  = (["notes.txt"], Some "Permission denied")
  ∧ findISO (session true unreadable_rom_host)
    = Res EmptyString (session true unreadable_rom_host)
          [Stdout "[DEBUG] Checking for ISO files...";
           Stdout "[DEBUG] Error checking ROM directory: Permission denied"].
Proof.
  split; [reflexivity|].
  apply (findISO_nothing_found (session true unreadable_rom_host) ["notes.txt"]
           (Some "Permission denied")); [reflexivity | by_evaluation | by_evaluation].
Defined.

Lemma startWebsockify_without_fork_witness :
  useVNC (this (session false full_host)) = false
  ∧ value (startWebsockify (session false full_host)) = true
  ∧ state (startWebsockify (session false full_host)) = session false full_host.
Proof.
  split; [reflexivity|].
  destruct (startWebsockify_without_fork (session false full_host)
              (or_introl eq_refl)) as (Hvalue & Hstate & _).
  split; [exact Hvalue | exact Hstate].
Defined.

Lemma startWebsockify_forks_bridge_witness :
  useVNC (this (session true full_host)) = true
  ∧ present (world (session true full_host)) "./libraries/noVNC"
  ∧ ∃ r, Fork (ShellC bridge_command) r
           ∈ events (startWebsockify (session true full_host)).
Proof.
  assert (present (world (session true full_host))
            (noVNCPath (this (session true full_host)))) as Hassets by by_evaluation.
  split; [reflexivity|]. split; [exact Hassets|].
  destruct (startWebsockify_forks_bridge (session true full_host) eq_refl Hassets)
    as (r & tail & Hevents & _).
  exists r. rewrite Hevents. apply list_elem_of_further, list_elem_of_here.
Defined.

Lemma cleanup_without_children_witness :
  qemuPid (this (session true full_host)) = (-1)%Z
  ∧ websockifyPid (this (session true full_host)) = (-1)%Z
  ∧ cleanup (session true full_host) = Res tt (session true full_host) [].
Proof.
  split; [reflexivity|]. split; [reflexivity|].
  apply (cleanup_without_children (session true full_host)); reflexivity.
Defined.

Lemma running_session_records_children_witness :
  value (main ["computer"] full_host) = Running
  ∧ ∃ c q, (0 < q)%Z ∧ qemuPid (this (state (main ["computer"] full_host))) = q
      ∧ ∃ p, (0 < p)%Z
          ∧ websockifyPid (this (state (main ["computer"] full_host))) = p
          ∧ w_children (world (state (main ["computer"] full_host)))
            = w_children full_host ++ [(q, Execvp c); (p, ShellC bridge_command)].
Proof.
  assert (value (main ["computer"] full_host) = Running) as Hrunning
    by (by vm_compute).
  split; [exact Hrunning|].
  destruct (running_session_records_children ["computer"] full_host Hrunning)
    as (c & q & Hq & Hpid & Hbridge).
  exists c, q. split; [exact Hq|]. split; [exact Hpid|]. exact Hbridge.
Defined.

Lemma bridge_forked_after_emulator_witness :
  Fork (ShellC bridge_command) 101 ∈ events (main ["computer"] full_host)
  ∧ bridged_run ["computer"] = true
  ∧ ∃ c q, (0 < q)%Z
      ∧ occurs_before (Fork (Execvp c) q) (Sleep 3)
          (events (main ["computer"] full_host))
      ∧ occurs_before (Sleep 3) (Fork (ShellC bridge_command) 101)
          (events (main ["computer"] full_host)).
Proof.
  assert (Fork (ShellC bridge_command) 101 ∈ events (main ["computer"] full_host))
    as Hfork by by_evaluation.
  split; [exact Hfork|].
  destruct (bridge_forked_after_emulator ["computer"] full_host bridge_command 101
              Hfork) as (Hmode & _ & Horder).
  split; [exact Hmode | exact Horder].
Defined.

Lemma direct_mode_never_bridges_witness :
  ("--no-vnc" ∈ drop 1 ["computer"; "--no-vnc"])
  ∧ (∀ sh r, Fork (ShellC sh) r ∉ events (main ["computer"; "--no-vnc"] full_host))
  ∧ websockifyPid (this (state (main ["computer"; "--no-vnc"] full_host))) = (-1)%Z.
Proof.
  assert ("--no-vnc" ∈ drop 1 ["computer"; "--no-vnc"]) as Hmode by by_evaluation.
  split; [exact Hmode|].
  destruct (direct_mode_never_bridges ["computer"; "--no-vnc"] full_host Hmode)
    as (Hforks & _ & Hpid).
  split; [exact Hforks | exact Hpid].
Defined.

Lemma emulator_command_of_run_witness :
  Fork (Execvp full_command) 100 ∈ events (main ["computer"] full_host)
  ∧ full_command
    = layout (bridged_run ["computer"])
        (bool_decide (present full_host "./boot/firmware/OVMF_CODE.fd"))
        (bool_decide (present full_host "./devices/disk/disk.qcow2")
         || bool_decide
              (is_Some (w_qemu_img full_host "./devices/disk/disk.qcow2").2))
        (scan_result "./devices/rom" (w_readdir full_host "./devices/rom")).
Proof.
  assert (Fork (Execvp full_command) 100 ∈ events (main ["computer"] full_host))
    as Hfork by by_evaluation.
  split; [exact Hfork|].
  exact (emulator_command_of_run ["computer"] full_host full_command 100 Hfork).
Defined.

Lemma tool_success_without_image_witness :
  ¬ present silent_tool_host "./devices/disk/disk.qcow2"
  ∧ w_qemu_img silent_tool_host "./devices/disk/disk.qcow2" = (0%Z, None)
  ∧ scan_result "./devices/rom" (w_readdir silent_tool_host "./devices/rom")
    = EmptyString
  ∧ bridged_run ["computer"; "--no-vnc"] = false
  ∧ Fork (Execvp (layout false false false EmptyString)) 100
      ∈ events (main ["computer"; "--no-vnc"] silent_tool_host).
Proof.
  assert (¬ present silent_tool_host "./devices/disk/disk.qcow2") as Hdisk
    by by_evaluation.
  split; [exact Hdisk|]. split; [reflexivity|]. split; [reflexivity|].
  split; [reflexivity|].
  apply (tool_success_without_image ["computer"; "--no-vnc"] silent_tool_host
           100 [101%Z] Hdisk eq_refl eq_refl);
    [intros Hmode; discriminate Hmode | reflexivity | lia].
Defined.

Lemma signal_orphans_running_session_witness :
  value (main ["computer"] full_host) = Running
  ∧ value (run ["computer"] 2 SIGINT full_host) = Exited 0
  ∧ existsb is_teardown (events (run ["computer"] 2 SIGINT full_host)) = false.
Proof.
  assert (value (main ["computer"] full_host) = Running) as Hrunning
    by (by vm_compute).
  split; [exact Hrunning|].
  destruct (signal_orphans_running_session ["computer"] 2 SIGINT full_host
              Hrunning (or_introl eq_refl)) as (Hexit & Hquiet & _).
  split; [exact Hexit | exact Hquiet].
Defined.

Lemma build_names_found_image_witness :
  w_readdir full_host "./devices/rom" = (["notes.txt"] ++ "install.iso" :: [], None)
  ∧ name_extension "install.iso" = ".iso"
  ∧ Stdout "[INFO] ISO found: install.iso"
      ∈ events (buildQEMUCommand (session true full_host)).
Proof.
  assert (Forall (fun k => "/"%char ∉ chars k) (["notes.txt"] ++ ["install.iso"]))
    as Hnames by by_evaluation.
  assert (Forall (fun k => name_extension k ≠ ".iso") ["notes.txt"]) as Hskip
    by by_evaluation.
  split; [reflexivity|]. split; [reflexivity|].
  exact (proj1 (build_names_found_image true full_host ["notes.txt"] "install.iso"
                  [] None eq_refl Hnames Hskip eq_refl)).
Defined.

(** ** Runs taken call by call *)

Lemma boot_whole : boot_ (@ret) (@bind) call_whole = boot.
Proof. reflexivity. Qed.

Lemma events_bind {A B} (c : M A) (f : A -> M B) m :
  events (bind c f m) = events (c m) ++ events (f (value (c m)) (state (c m))).
Proof. unfold bind. destruct (c m) as [a m1 e1]. cbn. by destruct (f a m1). Qed.

Section Stepwise.
Context {A B : Type}.

Lemma refines_ret (a : A) : refines (ret_at A a) (ret a).
Proof.
  intros m. exists 0. split; [|intros n Hn; lia].
  intros n _. unfold ret_at, ret. cbn. f_equal. lia.
Qed.

Lemma refines_call (c : M A) : refines (call_at A c) c.
Proof.
  intros m. exists 1. split.
  - intros [|k] Hn; [lia|]. unfold call_at. destruct (c m). cbn. f_equal. lia.
  - intros n Hn. assert (n = 0) as -> by lia. unfold call_at. cbn.
    split; [done|]. split; [done|]. apply prefix_nil.
Qed.

Lemma refines_bind (c' : Stepwise A) (c : M A) (f' : A -> Stepwise B) (f : A -> M B) :
  refines c' c -> (∀ a, refines (f' a) (f a)) ->
  refines (bind_at A B c' f') (bind c f).
Proof.
  intros Hc Hf m. destruct (Hc m) as (N1 & Hdone1 & Hcut1).
  destruct (Hf (value (c m)) (state (c m))) as (N2 & Hdone2 & Hcut2).
  exists (N1 + N2). split.
  - intros n Hn. unfold bind_at. rewrite Hdone1 by lia. rewrite Hdone2 by lia.
    unfold bind. destruct (c m) as [a m1 e1]. cbn. destruct (f a m1). cbn.
    f_equal. lia.
  - intros n Hn. rewrite events_bind. unfold bind_at.
    destruct (decide (n < N1)) as [Hlt|Hge].
    + destruct (Hcut1 n Hlt) as (Hr & Hl & Hp).
      destruct (c' n m) as [[a|] k m1 e1]; cbn in *; [done|].
      split; [done|]. split; [done|]. by apply prefix_app_r.
    + rewrite Hdone1 by lia.
      destruct (Hcut2 (n - N1)) as (Hr & Hl & Hp); [lia|].
      destruct (f' _ (n - N1) _) as [[b|] k m2 e2]; cbn in *; [done|].
      split; [done|]. split; [done|]. by apply prefix_app.
Qed.

Lemma tracks_ret (a : A) : tracks (ret_at A a).
Proof. done. Qed.

Lemma tracks_call (c : M A) : tracked c -> tracks (call_at A c).
Proof.
  intros Hc [|k] m; [done|]. unfold call_at. specialize (Hc m).
  by destruct (c m).
Qed.

Lemma tracks_bind (c' : Stepwise A) (f' : A -> Stepwise B) :
  tracks c' -> (∀ a, tracks (f' a)) -> tracks (bind_at A B c' f').
Proof.
  intros Hc Hf n m. unfold bind_at. specialize (Hc n m).
  destruct (c' n m) as [[a|] k m1 e1]; cbn in *; [|done].
  specialize (Hf a k m1). destruct (f' a k m1) as [b k' m2 e2]. cbn in *.
  destruct Hc as [Hc1 Hc2], Hf as [Hf1 Hf2].
  split; [|congruence]. unfold replay in *. by rewrite foldl_app, <- Hc1.
Qed.
End Stepwise.

(** The calls and the table of children. *)
Lemma tracked_field {A} (f : ComputerVM -> A) : tracked (field f).
Proof. done. Qed.

Lemma tracked_assign f : tracked (assign f).
Proof. done. Qed.

Lemma tracked_fs_exists p : tracked (fs_exists p).
Proof. done. Qed.

Lemma tracked_directory_iterator dir : tracked (directory_iterator dir).
Proof. done. Qed.

Lemma tracked_printLog level message : tracked (printLog level message).
Proof. done. Qed.

Lemma tracked_printDebug message : tracked (printDebug message).
Proof. done. Qed.

Lemma tracked_stderr text : tracked (emit (Stderr text)).
Proof. done. Qed.

Lemma tracked_sleep n : tracked (sleep n).
Proof. done. Qed.

Lemma tracked_kill pid sig : tracked (kill pid sig).
Proof. done. Qed.

Lemma tracked_waitpid pid : tracked (waitpid pid).
Proof. done. Qed.

Lemma tracked_fork child : tracked (fork child).
Proof.
  intros m. unfold fork. norm. unfold replay. cbn [foldl grown]. done.
Qed.

Lemma tracked_system c : tracked (system c).
Proof.
  intros m. destruct c as [path|prog]; unfold system; [|done].
  by destruct (w_qemu_img _ _).
Qed.

Lemma tracked_ofstream_write p data : tracked (ofstream_write p data).
Proof.
  intros m. unfold ofstream_write, change. norm.
  by destruct (w_fs (world m) !! p) as [[|]|], (w_denied (world m) p).
Qed.

Lemma tracked_create_directories p : tracked (fs_create_directories p).
Proof. intros m. unfold fs_create_directories. by destruct (foldl _ _ _). Qed.

(** One step of a structural proof: the code of a method taken call by call
    against the method itself. *)
Ltac refines_step :=
  cbn beta zeta;
  lazymatch goal with
  | |- refines (bind_at _ _ _ _) (bind _ _) => apply refines_bind; [|intros ?]
  | |- refines (ret_at _ _) (ret _) => apply refines_ret
  | |- refines (call_at _ _) _ => apply refines_call
  | |- refines (if ?c then _ else _) (if ?c then _ else _) => destruct c
  | |- refines (match ?x with _ => _ end) (match ?x with _ => _ end) => destruct x
  | |- refines _ _ => solve [eauto with stepwise]
  end.

Ltac tracks_step :=
  cbn beta zeta;
  lazymatch goal with
  | |- tracks (bind_at _ _ _ _) => apply tracks_bind; [|intros ?]
  | |- tracks (ret_at _ _) => apply tracks_ret
  | |- tracks (call_at _ _) => apply tracks_call; solve [eauto with stepwise]
  | |- tracks (if ?c then _ else _) => destruct c
  | |- tracks (match ?x with _ => _ end) => destruct x
  | |- tracks _ => solve [eauto with stepwise]
  end.

Ltac open_methods :=
  unfold printLog_, printDebug_, setVNCMode_.

Create HintDb stepwise.
#[local] Hint Resolve tracked_field tracked_assign tracked_fs_exists
  tracked_directory_iterator tracked_printLog tracked_printDebug tracked_stderr
  tracked_sleep tracked_kill tracked_waitpid tracked_fork tracked_system
  tracked_ofstream_write tracked_create_directories : stepwise.

Lemma refines_checkFile path name :
  refines (checkFile_ ret_at bind_at call_at path name) (checkFile path name).
Proof. unfold checkFile_, checkFile. open_methods. repeat refines_step. Qed.

Lemma tracks_checkFile path name : tracks (checkFile_ ret_at bind_at call_at path name).
Proof. unfold checkFile_. open_methods. repeat tracks_step. Qed.

Lemma refines_findISO : refines (findISO_ ret_at bind_at call_at) findISO.
Proof. unfold findISO_, findISO. open_methods. repeat refines_step. Qed.

Lemma tracks_findISO : tracks (findISO_ ret_at bind_at call_at).
Proof. unfold findISO_. open_methods. repeat tracks_step. Qed.

Lemma refines_createDirectories :
  refines (createDirectories_ ret_at bind_at call_at) createDirectories.
Proof.
  unfold createDirectories_, createDirectories. open_methods.
  cbn [try_block_ try_block]. repeat refines_step.
Qed.

Lemma tracks_createDirectories : tracks (createDirectories_ ret_at bind_at call_at).
Proof.
  unfold createDirectories_. open_methods. cbn [try_block_]. repeat tracks_step.
Qed.

Lemma refines_createDefaultDisk :
  refines (createDefaultDisk_ ret_at bind_at call_at) createDefaultDisk.
Proof. unfold createDefaultDisk_, createDefaultDisk. open_methods. repeat refines_step. Qed.

Lemma tracks_createDefaultDisk : tracks (createDefaultDisk_ ret_at bind_at call_at).
Proof. unfold createDefaultDisk_. open_methods. repeat tracks_step. Qed.

#[local] Hint Resolve refines_checkFile tracks_checkFile refines_findISO tracks_findISO
  refines_createDirectories tracks_createDirectories
  refines_createDefaultDisk tracks_createDefaultDisk : stepwise.

Lemma refines_buildQEMUCommand :
  refines (buildQEMUCommand_ ret_at bind_at call_at) buildQEMUCommand.
Proof.
  unfold buildQEMUCommand_, buildQEMUCommand. open_methods. repeat refines_step.
Qed.

Lemma tracks_buildQEMUCommand : tracks (buildQEMUCommand_ ret_at bind_at call_at).
Proof. unfold buildQEMUCommand_. open_methods. repeat tracks_step. Qed.

#[local] Hint Resolve refines_buildQEMUCommand tracks_buildQEMUCommand : stepwise.

Lemma refines_startQEMU : refines (startQEMU_ ret_at bind_at call_at) startQEMU.
Proof. unfold startQEMU_, startQEMU. open_methods. repeat refines_step. Qed.

Lemma tracks_startQEMU : tracks (startQEMU_ ret_at bind_at call_at).
Proof. unfold startQEMU_. open_methods. repeat tracks_step. Qed.

Lemma refines_startWebsockify :
  refines (startWebsockify_ ret_at bind_at call_at) startWebsockify.
Proof. unfold startWebsockify_, startWebsockify. open_methods. repeat refines_step. Qed.

Lemma tracks_startWebsockify : tracks (startWebsockify_ ret_at bind_at call_at).
Proof. unfold startWebsockify_. open_methods. repeat tracks_step. Qed.

Lemma refines_cleanup : refines (cleanup_ ret_at bind_at call_at) cleanup.
Proof. unfold cleanup_, cleanup. open_methods. repeat refines_step. Qed.

Lemma tracks_cleanup : tracks (cleanup_ ret_at bind_at call_at).
Proof. unfold cleanup_. open_methods. repeat tracks_step. Qed.

#[local] Hint Resolve refines_startQEMU tracks_startQEMU refines_startWebsockify
  tracks_startWebsockify refines_cleanup tracks_cleanup : stepwise.

Lemma refines_boot : refines (boot_ ret_at bind_at call_at) boot.
Proof. unfold boot_, boot. open_methods. repeat refines_step. Qed.

Lemma tracks_boot : tracks (boot_ ret_at bind_at call_at).
Proof. unfold boot_. open_methods. repeat tracks_step. Qed.

(** ** [main], call by call *)

Lemma main_whole argv w :
  main_ (@ret) (@bind) call_whole argv (mkMachine ComputerVM_new w) = main argv w.
Proof.
  unfold main_, main, setVNCMode_. rewrite boot_whole. unfold call_whole.
  unfold bind at 1 2, change. norm.
  unfold setVNCMode. by destruct (bind (assign _) _ _).
Qed.

Lemma refines_main argv :
  refines (main_ ret_at bind_at call_at argv) (main_ (@ret) (@bind) call_whole argv).
Proof.
  unfold main_. open_methods. rewrite boot_whole. unfold call_whole.
  pose proof refines_boot. repeat refines_step.
Qed.

(** With enough steps [main] returns or enters its loop as it does when
    run in full; with fewer it stands at a prefix of those events. *)
Lemma main_at_spec argv w :
  ∃ N,
    (∀ n, N ≤ n ->
       main_at argv n w
       = At (Some (value (main argv w))) (n - N) (state (main argv w))
            (events (main argv w)))
    ∧ (∀ n, n < N ->
         reached (main_at argv n w) = None ∧ steps_left (main_at argv n w) = O
         ∧ so_far (main_at argv n w) `prefix_of` events (main argv w)).
Proof.
  destruct (refines_main argv (mkMachine ComputerVM_new w)) as (N & Hdone & Hcut).
  rewrite main_whole in *. by exists N.
Qed.

(** Wherever [main] stands, the table of children is the one its events
    account for, and the handlers are those it has installed so far. *)
Lemma main_at_tracks argv n w :
  w_children (world (at_state (main_at argv n w)))
  = replay (w_children w) (so_far (main_at argv n w))
  ∧ w_handlers (world (at_state (main_at argv n w))) = installed n ++ w_handlers w.
Proof.
  unfold main_at, main_.
  set (rest := bind_at () outcome (setVNCMode_ call_at _) _).
  assert (tracks rest) as Htr
    by (subst rest; open_methods; pose proof tracks_boot; repeat tracks_step).
  destruct n as [|[|n]]; [done|done|].
  unfold bind_at, call_at, change. norm.
  specialize (Htr n (mkMachine ComputerVM_new
                       (install_handler SIGTERM (install_handler SIGINT w)))).
  norm. destruct (rest n _) as [o k' m' e']. norm. cbn in *. done.
Qed.

(** ** A signal at any step *)

Lemma supervision_prefix l1 l2 :
  l1 `prefix_of` l2 -> supervision l1 `prefix_of` supervision l2.
Proof. intros [k ->]. rewrite supervision_app. by apply prefix_app_r. Qed.

Lemma main_outcomes argv w :
  value (main argv w) = Running ∨ value (main argv w) = Exited 1.
Proof.
  destruct (main_shape argv w)
    as [[_ ?]|[(? & _ & ?)|[(? & ? & _ & _ & _ & ?)|[(? & ? & _ & _ & _ & ?)
       |(? & ? & ? & _ & _ & _ & _ & ?)]]]]; auto.
Qed.

Lemma replay_keeps child r l : ∀ cs,
  (r, child) ∈ cs ∨ (Fork child r ∈ l ∧ (0 < r)%Z) ->
  Waitpid r ∉ l ->
  (r, child) ∈ replay cs l.
Proof.
  induction l as [|e l IH]; intros cs Hin Hwait.
  - destruct Hin as [?|[Hin _]]; [done|]. by apply elem_of_nil in Hin.
  - apply not_elem_of_cons in Hwait as [Hne Hwait]. unfold replay. cbn [foldl].
    apply IH; [|done].
    destruct Hin as [Hin|[Hin Hr]].
    + left. destruct e as [?|?|? ?|? pid|? ?|?|?]; cbn [grown]; try done.
      * destruct (0 <? pid)%Z; [|done]. apply elem_of_app. by left.
      * apply list_elem_of_filter. split; [|done]. cbn. congruence.
    + apply elem_of_cons in Hin as [<-|Hin]; [|by right].
      left. cbn [grown]. rewrite (proj2 (Z.ltb_lt 0 r) Hr).
      apply elem_of_app. right. by left.
Qed.

(** The process is still there when the signal arrives after [n] steps. *)
Lemma alive_cases argv n w :
  reached (main_at argv n w) ≠ Some (Exited 1) ->
  reached (main_at argv n w) = None ∧ steps_left (main_at argv n w) = O
  ∨ reached (main_at argv n w) = Some Running.
Proof.
  intros Halive. destruct (main_at_spec argv w) as (N & Hdone & Hcut).
  destruct (decide (N ≤ n)) as [Hn|Hn].
  - right. rewrite Hdone in * by done. cbn [reached steps_left at_state so_far value state events] in *.
    destruct (main_outcomes argv w) as [-> | Hv]; [done|]. by rewrite Hv in Halive.
  - left. destruct (Hcut n) as (? & ? & _); [lia|]. done.
Qed.

(** What a signal does to a process that is still there. *)
Lemma delivery argv n sig w :
  reached (main_at argv n w) ≠ Some (Exited 1) ->
  state (run_at argv n sig w) = at_state (main_at argv n w)
  ∧ (sig ∈ installed n ++ w_handlers w ->
     value (run_at argv n sig w) = Exited 0
     ∧ events (run_at argv n sig w)
       = so_far (main_at argv n w)
         ++ replicate (steps_left (main_at argv n w)) (Sleep 1)
         ++ [Stdout (newline +:+ "[INFO] Shutting down gracefully...")])
  ∧ (sig ∉ installed n ++ w_handlers w ->
     value (run_at argv n sig w) = Killed sig
     ∧ events (run_at argv n sig w)
       = so_far (main_at argv n w)
         ++ replicate (steps_left (main_at argv n w)) (Sleep 1)).
Proof.
  intros Halive. destruct (main_at_tracks argv n w) as [_ Hh].
  unfold run_at.
  destruct (alive_cases argv n w Halive) as [[Hcut Hleft]|Hloop].
  - destruct (main_at argv n w) as [o k m e]. cbn [reached steps_left at_state so_far value state events] in *. subst o k.
    unfold deliver. rewrite Hh. cbn [replicate app].
    destruct (bool_decide (sig ∈ installed n ++ w_handlers w)) eqn:Hsig.
    + apply bool_decide_eq_true in Hsig.
      unfold signalHandler, bind, emit, ret. cbn.
      split; [done|]. split; [done|]. by intros H.
    + apply bool_decide_eq_false in Hsig. cbn.
      split; [done|]. split; [by intros H|]. by rewrite app_nil_r.
  - destruct (main_at argv n w) as [o k m e]. cbn [reached steps_left at_state so_far value state events] in *. subst o.
    unfold bind. rewrite idle_run. unfold deliver. norm. rewrite Hh.
    destruct (bool_decide (sig ∈ installed n ++ w_handlers w)) eqn:Hsig.
    + apply bool_decide_eq_true in Hsig.
      unfold signalHandler, bind, emit, ret. cbn.
      split; [done|]. split; [done|]. by intros H.
    + apply bool_decide_eq_false in Hsig. cbn.
      split; [done|]. split; [by intros H|]. by rewrite app_nil_r.
Qed.


(** X13.  A run reaches the idle loop exactly when the checks of [boot]
    let the launches begin (something to boot from: a disk image, a disk tool
    that reports success, or an installation image; and in bridged mode the
    web assets and the bridge executable), the forks the mode needs succeed,
    and no signal arrives before [boot] has returned, that is, before the
    process has made the number of steps its boot takes. *)
Theorem boot_succeeds_iff (argv : list string) (w : World) :
  ∃ N, ∀ n,
    reached (main_at argv n w) = Some Running
    ↔ cleared (bridged_run argv) w
      ∧ forks_succeed (bridged_run argv) (w_forks w)
      ∧ N ≤ n.
Proof.
  destruct (main_at_spec argv w) as (N & Hdone & Hcut). exists N. intros n.
  pose proof (main_running_iff argv w) as Hiff.
  destruct (decide (N ≤ n)) as [Hn|Hn].
  - rewrite Hdone by done. cbn [reached steps_left at_state so_far]. split.
    + intros [= Hr]. apply Hiff in Hr as [? ?]. done.
    + intros (? & ? & _). f_equal. by apply Hiff.
  - destruct (Hcut n) as (Hr & _); [lia|]. rewrite Hr.
    split; [done|]. intros (_ & _ & ?). lia.
Qed.

(** X14.  The supervision events of a run (forks, signals, reapings, grace
    delays) follow one of five shapes: nothing at all (exit 1); the
    emulator's fork alone, failed (exit 1); in direct mode the emulator's fork
    and its three-second delay (idle loop); in bridged mode these two followed
    by the bridge's failed fork and the emulator's termination and reaping
    (exit 1); or followed by the bridge's fork and its two-second delay (idle
    loop).  Wherever the run stands it has produced a prefix of its shape,
    and when [main] has returned or entered its loop, the whole shape with
    the outcome that belongs to it. *)
Theorem session_supervision_shapes (argv : list string) (w : World) :
  ∃ s v,
    run_shape (bridged_run argv) s v
    ∧ ∀ n,
        supervision (so_far (main_at argv n w)) `prefix_of` s
        ∧ ∀ o, reached (main_at argv n w) = Some o ->
               o = v ∧ supervision (so_far (main_at argv n w)) = s.
Proof.
  destruct (main_at_spec argv w) as (N & Hdone & Hcut).
  exists (supervision (events (main argv w))), (value (main argv w)).
  split; [apply main_shape|]. intros n.
  destruct (decide (N ≤ n)) as [Hn|Hn].
  - rewrite Hdone by done. cbn [reached steps_left at_state so_far]. split; [done|]. by intros o [= <-].
  - destruct (Hcut n) as (Hr & _ & Hp); [lia|]. rewrite Hr.
    split; [by apply supervision_prefix|done].
Qed.

(** X15.  When [main] returns without having reached the idle loop, the
    process exits with status 1 and leaves none of its own children behind:
    every child in the table at the end was there when the program started,
    no bridge pid is recorded, and a signal that arrives afterwards changes
    nothing. *)
Theorem failed_boot_leaves_no_child (argv : list string) (n : nat) (sig : signal)
    (w : World) (o : outcome) :
  reached (main_at argv n w) = Some o -> o ≠ Running ->
  o = Exited 1
  ∧ websockifyPid (this (at_state (main_at argv n w))) = (-1)%Z
  ∧ (∀ ch, ch ∈ w_children (world (at_state (main_at argv n w))) ->
           ch ∈ w_children w)
  ∧ run_at argv n sig w
    = Res (Exited 1) (at_state (main_at argv n w)) (so_far (main_at argv n w)).
Proof.
  intros Hreached Hfailed.
  destruct (main_at_spec argv w) as (N & Hdone & Hcut).
  destruct (decide (N ≤ n)) as [Hn|Hn].
  - unfold run_at. rewrite Hdone in * by done. cbn [reached steps_left at_state so_far value state events] in *.
    injection Hreached as Ho. rewrite <- Ho in Hfailed.
    destruct (main_failed argv w Hfailed) as (Hv & Hpid & Hch).
    rewrite Hv in *. by subst o.
  - destruct (Hcut n) as (Hr & _); [lia|]. congruence.
Qed.


(** X29.  A signal during [boot] leaves the children that are there.  When
    a handled signal arrives while the process is there, the process exits
    with status 0, and every child that [main] had forked by then and had not
    reaped is still in the table of children at exit; this is so in the
    middle of [boot], when the emulator runs and the bridge has not been
    started, as it is in the loop. *)
Theorem signal_leaves_unreaped_children (argv : list string) (n : nat)
    (sig : signal) (w : World) (child : image) (r : Z) :
  reached (main_at argv n w) ≠ Some (Exited 1) ->
  sig ∈ installed n ++ w_handlers w ->
  Fork child r ∈ so_far (main_at argv n w) -> (0 < r)%Z ->
  Waitpid r ∉ so_far (main_at argv n w) ->
  value (run_at argv n sig w) = Exited 0
  ∧ (r, child) ∈ w_children (world (state (run_at argv n sig w)))
  ∧ existsb is_teardown (events (run_at argv n sig w))
    = existsb is_teardown (so_far (main_at argv n w)).
Proof.
  intros Halive Hsig Hfork Hr Hwait.
  destruct (delivery argv n sig w Halive) as (Hstate & Hhandled & _).
  destruct (Hhandled Hsig) as (Hvalue & Hevents).
  split; [done|]. rewrite Hstate, Hevents. split.
  - destruct (main_at_tracks argv n w) as [-> _]. apply replay_keeps; [|done].
    right. done.
  - rewrite !existsb_app, existsb_replicate_sleep. cbn. by rewrite orb_false_r.
Qed.

(** ** The theorems on signals at the sample hosts *)

Lemma failed_boot_leaves_no_child_witness :
  reached (main_at ["computer"] 200 one_fork_host) = Some (Exited 1)
  ∧ Exited 1 ≠ Running
  ∧ Kill 100 SIGTERM ∈ so_far (main_at ["computer"] 200 one_fork_host)
  ∧ websockifyPid (this (at_state (main_at ["computer"] 200 one_fork_host)))
    = (-1)%Z
  ∧ (∀ ch,
       ch ∈ w_children (world (at_state (main_at ["computer"] 200 one_fork_host)))
       -> ch ∈ w_children one_fork_host)
  ∧ run_at ["computer"] 200 SIGTERM one_fork_host
    = Res (Exited 1) (at_state (main_at ["computer"] 200 one_fork_host))
          (so_far (main_at ["computer"] 200 one_fork_host)).
Proof.
  assert (reached (main_at ["computer"] 200 one_fork_host) = Some (Exited 1))
    as Hreached by (by vm_compute).
  assert (Exited 1 ≠ Running) as Hfailed by done.
  split; [exact Hreached|]. split; [exact Hfailed|]. split; [by_evaluation|].
  exact (proj2 (failed_boot_leaves_no_child ["computer"] 200 SIGTERM one_fork_host
                  (Exited 1) Hreached Hfailed)).
Defined.


Lemma signal_leaves_unreaped_children_witness :
  reached (main_at ["computer"] 47 full_host) ≠ Some (Exited 1)
  ∧ SIGTERM ∈ installed 47 ++ w_handlers full_host
  ∧ Fork (Execvp full_command) 100 ∈ so_far (main_at ["computer"] 47 full_host)
  ∧ (0 < 100)%Z
  ∧ (Waitpid 100 ∉ so_far (main_at ["computer"] 47 full_host))
  ∧ reached (main_at ["computer"] 47 full_host) = None
  ∧ supervision (so_far (main_at ["computer"] 47 full_host))
    = [Fork (Execvp full_command) 100; Sleep 3]
  ∧ value (run_at ["computer"] 47 SIGTERM full_host) = Exited 0
  ∧ (100%Z, Execvp full_command)
      ∈ w_children (world (state (run_at ["computer"] 47 SIGTERM full_host)))
  ∧ existsb is_teardown (events (run_at ["computer"] 47 SIGTERM full_host))
    = existsb is_teardown (so_far (main_at ["computer"] 47 full_host)).
Proof.
  assert (reached (main_at ["computer"] 47 full_host) ≠ Some (Exited 1))
    as Halive by (by vm_compute).
  assert (SIGTERM ∈ installed 47 ++ w_handlers full_host) as Hsig by by_evaluation.
  assert (Fork (Execvp full_command) 100
            ∈ so_far (main_at ["computer"] 47 full_host)) as Hfork by by_evaluation.
  assert (Waitpid 100 ∉ so_far (main_at ["computer"] 47 full_host)) as Hwait
    by by_evaluation.
  split; [exact Halive|]. split; [exact Hsig|]. split; [exact Hfork|].
  split; [lia|]. split; [exact Hwait|].
  split; [by vm_compute|]. split; [by vm_compute|].
  apply (signal_leaves_unreaped_children ["computer"] 47 SIGTERM full_host
           (Execvp full_command) 100 Halive Hsig Hfork); [lia | exact Hwait].
Defined.
